(** * Scenario computation engine of the data-center TCO calculator

  A shallow embedding of [app/services/multipliers.ts],
  [app/services/computationEngine.ts] and of the constant tables they read
  ([regionMultipliers], [timeParameters], [workloadParameters],
  [regulatoryParameters]), followed by the properties of the engine.

  The engine is written once, over an interface of JavaScript numbers, and
  read at two instances: the real numbers (the arithmetic the formulas are
  meant in) and IEEE-754 binary64 (the arithmetic they run in, with its
  NaN and infinities). *)

From Stdlib Require Import ZArith List String Bool Permutation.
From Stdlib Require Import Reals Lra Lia.
From Stdlib Require PrimFloat Uint63.
Import ListNotations.

(** ** JavaScript numbers *)

(** The operations of the [number] type that the engine uses. *)
Class JSNumber (num : Type) : Type := {
  of_Z : Z -> num;                    (* an integer literal *)
  add : num -> num -> num;
  sub : num -> num -> num;
  mul : num -> num -> num;
  div : num -> num -> num;
  strict_eq : num -> num -> bool;     (* === *)
  leb : num -> num -> bool            (* <= *)
}.

(** The functions of [Math] that the engine uses. *)
Class JSMath (num : Type) `{JSNumber num} : Type := {
  Math_min : num -> num -> num;
  Math_log : num -> num;
  Math_pow : num -> num -> num
}.

Declare Scope js_scope.
Delimit Scope js_scope with js.
Infix "+" := add : js_scope.
Infix "-" := sub : js_scope.
Infix "*" := mul : js_scope.
Infix "/" := div : js_scope.
Infix "===" := strict_eq (at level 70, no associativity) : js_scope.
Infix "<=?" := leb : js_scope.

Section Literals.
Context {num : Type} `{JSNumber num}.
Local Open Scope js_scope.

(** The decimal literal [m * 10^-e]: [1.35] is [decimal 135 2]. *)
Definition decimal (m : Z) (e : nat) : num := of_Z m / of_Z (10 ^ Z.of_nat e).

(** [x !== y] *)
Definition strict_neq (x y : num) : bool := negb (x === y).

(** ToBoolean on a number: false on zero and on NaN. *)
Definition truthy (x : num) : bool := (x === x) && negb (x === of_Z 0).

(** [x || d] with [x] an optional number. *)
Definition or_default (x : option num) (d : num) : num :=
  match x with
  | Some v => if truthy v then v else d
  | None => d
  end.
End Literals.

(** *** Real numbers *)

(** The reals stand for the finite numbers. Where JavaScript leaves them (a
  division by zero, the logarithm of a number that is not positive, a zero
  base at a negative exponent or a negative base at a fractional one) it
  returns an infinity or NaN and the functions below some real of no
  meaning: the statements over the reals carry the hypotheses that keep
  every argument inside the domain. *)

(** [Math.pow] on reals: the integer power when the exponent is an integer
  (any base), the real power otherwise (positive base). *)
Definition R_pow (x y : R) : R :=
  if Req_dec_T y (IZR (Int_part y)) then powerRZ x (Int_part y) else Rpower x y.

#[export] Instance R_number : JSNumber R := {
  of_Z := IZR;
  add := Rplus;
  sub := Rminus;
  mul := Rmult;
  div := Rdiv;
  strict_eq := fun x y => if Req_dec_T x y then true else false;
  leb := fun x y => if Rle_dec x y then true else false
}.

#[export] Instance R_math : JSMath R := {
  Math_min := Rmin;
  Math_log := ln;
  Math_pow := R_pow
}.

(** *** IEEE-754 binary64 *)

Definition float_of_Z (z : Z) : PrimFloat.float :=
  match z with
  | Zneg p => PrimFloat.opp (PrimFloat.of_uint63 (Uint63.of_Z (Zpos p)))
  | _ => PrimFloat.of_uint63 (Uint63.of_Z z)
  end.

#[export] Instance float_number : JSNumber PrimFloat.float := {
  of_Z := float_of_Z;
  add := PrimFloat.add;
  sub := PrimFloat.sub;
  mul := PrimFloat.mul;
  div := PrimFloat.div;
  strict_eq := PrimFloat.eqb;
  leb := PrimFloat.leb
}.

(** ** The clock *)

(** [new Date()] reads a clock that the caller does not control. A clock is
  the sequence of the readings still to come; a computation that may read it
  takes the clock and returns what is left of it. *)
Definition Clock : Type := nat -> string.
Definition IO (A : Type) : Type := Clock -> A * Clock.

Definition ret {A : Type} (a : A) : IO A := fun c => (a, c).
Definition bind {A B : Type} (m : IO A) (k : A -> IO B) : IO B :=
  fun c => let (a, c') := m c in k a c'.
Definition run {A : Type} (m : IO A) (c : Clock) : A := fst (m c).

Notation "x <- m ;; k" := (bind m (fun x => k))
  (at level 61, m at next level, right associativity).

(** [new Date().toISOString()] *)
Definition new_Date_toISOString : IO string :=
  fun c => (c 0%nat, fun n => c (S n)).

(** ** Data model ([app/context/types.ts]) *)

Set Implicit Arguments.
Set Maximal Implicit Insertion.

Module Region.
Inductive t : Set := EU | US | Global.
End Region.

Module WorkloadClass.
Inductive t : Set := Low | Medium | High.
End WorkloadClass.

Module RegulatoryIntensity.
Inductive t : Set := Low | Medium | High.
End RegulatoryIntensity.

Module TimeParameters.
Record t (num : Type) : Type := mk {
  year : num;
  escalationRate : num;
  shockFactor : option num;          (* shockFactor?: number *)
  shockEnabled : bool
}.
End TimeParameters.

Module WorkloadParameters.
Record t : Set := mk {
  utilizationClass : WorkloadClass.t;
  aiEnabled : bool
}.
End WorkloadParameters.

Module SecurityParameters.
Record t (num : Type) : Type := mk {
  annualInvestment : num;
  siemPerNode : num;
  iamPerUser : num;
  encryptionPerTB : num;
  incidentResponseRetainer : num;
  userCount : num
}.
End SecurityParameters.

Module RiskParameters.
Record t (num : Type) : Type := mk {
  baseIncidentProbability : num;
  averageImpactCost : num;
  maxSecurityReduction : num
}.
End RiskParameters.

Module ScenarioParameters.
Record t (num : Type) : Type := mk {
  id : string;
  name : string;
  description : option string;
  region : Region.t;
  time : TimeParameters.t num;
  workload : WorkloadParameters.t;
  regulatoryIntensity : RegulatoryIntensity.t;
  security : SecurityParameters.t num;
  risk : RiskParameters.t num;
  isBaseline : bool;
  createdAt : string;
  updatedAt : string
}.
End ScenarioParameters.

Module MultiplierSet.
Record t (num : Type) : Type := mk {
  energy : num;
  labor : num;
  compliance : num;
  cooling : num;
  monitoring : num
}.
End MultiplierSet.

Module ComplianceCosts.
Record breakdown_t (num : Type) : Type := mk_breakdown {
  auditFrequency : num;
  costPerAudit : num;
  documentationHours : num;
  hourlyRate : num
}.
Record t (num : Type) : Type := mk {
  auditCosts : num;
  documentationCosts : num;
  advisoryCosts : num;
  certificationCosts : num;
  total : num;
  breakdown : breakdown_t num
}.
End ComplianceCosts.

Module SecurityCosts.
Record t (num : Type) : Type := mk {
  siemCosts : num;
  iamCosts : num;
  encryptionCosts : num;
  incidentResponseCosts : num;
  total : num
}.
End SecurityCosts.

Module RiskCosts.
Record breakdown_t (num : Type) : Type := mk_breakdown {
  baseIncidentProbability : num;
  securityInvestment : num;
  averageImpactCost : num
}.
Record t (num : Type) : Type := mk {
  expectedAnnualLoss : num;
  adjustedProbability : num;
  securityReductionFactor : num;
  breakdown : breakdown_t num
}.
End RiskCosts.


(** Base TCO costs, priced outside the engine. *)
Module BaseTCOInput.
(** The keys of the interface, in the order in which it lists them. *)
Inductive key : Set :=
  | Land | Servers | Storage | Network | PowerDistribution | Energy | Software
  | Labor.

Definition interface_keys : list key :=
  [Land; Servers; Storage; Network; PowerDistribution; Energy; Software; Labor].

Definition key_eq_dec (a b : key) : {a = b} + {a <> b}.
Proof. decide equality. Defined.

(** The own keys of an object of the interface: each of the eight, once. *)
Definition own_keys (ks : list key) : bool :=
  forallb (fun k => Nat.eqb (count_occ key_eq_dec ks k) 1) interface_keys.

(** An object of the interface: the eight costs, and its own keys in the
    order in which the caller inserted them. *)
Record t (num : Type) : Type := make {
  land : num;
  servers : num;
  storage : num;
  network : num;
  powerDistribution : num;
  energy : num;
  software : num;
  labor : num;
  keys : list key;
  keys_own : own_keys keys = true
}.

(** [b[k]] *)
Definition get {num : Type} (b : t num) (k : key) : num :=
  match k with
  | Land => land b
  | Servers => servers b
  | Storage => storage b
  | Network => network b
  | PowerDistribution => powerDistribution b
  | Energy => energy b
  | Software => software b
  | Labor => labor b
  end.

(** [Object.values(baseTCO)]: the values of the own properties, in insertion
    order. *)
Definition Object_values {num : Type} (b : t num) : list num :=
  map (get b) (keys b).

(** The object literal that lists the keys as the interface does (the page
    builds its input so). *)
Definition mk {num : Type}
  (land servers storage network powerDistribution energy software labor : num)
  : t num :=
  make land servers storage network powerDistribution energy software labor
    interface_keys eq_refl.

(** The values as the interface lists them. *)
Definition interface_values {num : Type} (b : t num) : list num :=
  map (get b) interface_keys.
End BaseTCOInput.

Module ComputationContext.
Record t (num : Type) : Type := mk {
  nodeCount : num;
  totalStorageTB : num
}.
End ComputationContext.

(** The adjustment amounts that [applyMultipliers] returns. *)
Module Adjustments.
Record t (num : Type) : Type := mk {
  energyAdjustment : num;
  laborAdjustment : num;
  coolingAdjustment : num;
  total : num
}.
End Adjustments.

Module ComputationBreakdown.
(** [baseTCO]: the input spread, with its total. *)
Record baseTCO_t (num : Type) : Type := mk_baseTCO {
  land : num;
  servers : num;
  storage : num;
  network : num;
  powerDistribution : num;
  energy : num;
  software : num;
  labor : num;
  total : num
}.
Record time_t (num : Type) : Type := mk_time {
  escalationFactor : num;
  shockFactor : option num
}.
Record regulatory_t (num : Type) : Type := mk_regulatory {
  complianceMultiplier : num
}.
Record multipliers_t (num : Type) : Type := mk_multipliers {
  region : MultiplierSet.t num;
  time : time_t num;
  workload : MultiplierSet.t num;
  regulatory : regulatory_t num;
  combined : MultiplierSet.t num
}.
Record totals_t (num : Type) : Type := mk_totals {
  totals_baseTCO : num;
  totals_adjustments : num;
  totals_compliance : num;
  totals_security : num;
  totals_risk : num;
  grandTotal : num
}.
Record t (num : Type) : Type := mk {
  scenarioId : string;
  scenarioName : string;
  baseTCO : baseTCO_t num;
  multipliers : multipliers_t num;
  adjustments : Adjustments.t num;
  complianceCosts : ComplianceCosts.t num;
  securityCosts : SecurityCosts.t num;
  riskCosts : RiskCosts.t num;
  totals : totals_t num;
  calculatedAt : string
}.
End ComputationBreakdown.

(** ** Constant tables ([app/constants]) *)

(** The numeric and boolean fields of the configuration records; their prose
    fields (descriptions, assumptions, examples) take no part in a
    computation and are left out. *)

Module WorkloadConfig.
Record t (num : Type) : Type := mk {
  energy : num;
  cooling : num;
  monitoring : num
}.
End WorkloadConfig.

Module RegionMultiplierConfig.
Record t (num : Type) : Type := mk {
  energy : num;
  labor : num;
  compliance : num
}.
End RegionMultiplierConfig.

Module RegulatoryConfig.
Record t (num : Type) : Type := mk {
  auditFrequency : num;
  documentationHours : num;
  complianceMultiplier : num;
  externalAdvisoryIncluded : bool
}.
End RegulatoryConfig.

(** The shape of [TIME_PARAMETERS]. *)
Module TimeConfig.
Record t (num : Type) : Type := mk {
  baselineYear : num;
  defaultEscalationRate : num;
  minEscalationRate : num;
  maxEscalationRate : num;
  minYear : num;
  maxYear : num;
  defaultShockFactor : num;
  maxShockFactor : num
}.
End TimeConfig.

(** The shape of [COMPLIANCE_BASE_COSTS]. *)
Module ComplianceBaseCosts.
Record t (num : Type) : Type := mk {
  costPerAudit : num;
  externalAdvisory : num;
  certificationCosts : num;
  documentationHourlyRate : num;
  trainingPerEmployee : num;
  complianceTooling : num
}.
End ComplianceBaseCosts.

(** The parameter that [calculateSensitivity] perturbs. *)
Module SensitivityParameter.
Inductive t : Set := energy | labor | security.
End SensitivityParameter.

(** What [calculateSensitivity] returns. *)
Module Sensitivity.
Record t (num : Type) : Type := mk {
  low : ComputationBreakdown.t num;
  base : ComputationBreakdown.t num;
  high : ComputationBreakdown.t num
}.
End Sensitivity.

(** What [compareScenarios] returns. *)
Module ScenarioComparison.
Inductive value (num : Type) : Type :=
| Str (s : string)
| Num (n : num).
Arguments Str {num}.
Record difference_t (num : Type) : Type := mk_difference {
  parameter : string;
  valueA : value num;
  valueB : value num
}.
Record side_t (num : Type) : Type := mk_side {
  id : string;
  name : string;
  parameters : ScenarioParameters.t num;
  breakdown : ComputationBreakdown.t num
}.
Record deltas_t (num : Type) : Type := mk_deltas {
  baseTCO : num;
  adjustments : num;
  compliance : num;
  security : num;
  risk : num;
  grandTotal : num;
  percentageChange : num
}.
Record t (num : Type) : Type := mk {
  scenarioA : side_t num;
  scenarioB : side_t num;
  deltas : deltas_t num;
  parameterDifferences : list (difference_t num)
}.
End ScenarioComparison.

Unset Maximal Implicit Insertion.
Unset Implicit Arguments.

(** The keys of [WORKLOAD_PARAMETERS]: [WorkloadClass | "AI_accelerated"]. *)
Inductive WorkloadKey : Set :=
| Class (c : WorkloadClass.t)
| AI_accelerated.

Section Constants.
Context {num : Type} `{JSNumber num}.
Local Open Scope js_scope.

Definition WORKLOAD_PARAMETERS (k : WorkloadKey) : WorkloadConfig.t num :=
  match k with
  | Class WorkloadClass.Low =>
      WorkloadConfig.mk (decimal 6 1) (decimal 7 1) (decimal 8 1)
  | Class WorkloadClass.Medium =>
      WorkloadConfig.mk (of_Z 1) (of_Z 1) (of_Z 1)
  | Class WorkloadClass.High =>
      WorkloadConfig.mk (decimal 14 1) (decimal 13 1) (decimal 12 1)
  | AI_accelerated =>
      WorkloadConfig.mk (decimal 18 1) (decimal 15 1) (decimal 13 1)
  end.

Definition TIME_PARAMETERS : TimeConfig.t num :=
  {| TimeConfig.baselineYear := of_Z 2024;
     TimeConfig.defaultEscalationRate := decimal 25 3;
     TimeConfig.minEscalationRate := of_Z 0;
     TimeConfig.maxEscalationRate := decimal 2 1;
     TimeConfig.minYear := of_Z 2020;
     TimeConfig.maxYear := of_Z 2040;
     TimeConfig.defaultShockFactor := decimal 15 1;
     TimeConfig.maxShockFactor := of_Z 3 |}.

Definition REGION_MULTIPLIERS (r : Region.t) : RegionMultiplierConfig.t num :=
  match r with
  | Region.US => RegionMultiplierConfig.mk (of_Z 1) (of_Z 1) (of_Z 1)
  | Region.EU =>
      RegionMultiplierConfig.mk (decimal 135 2) (decimal 115 2) (decimal 14 1)
  | Region.Global =>
      RegionMultiplierConfig.mk (decimal 11 1) (decimal 85 2) (decimal 115 2)
  end.

Definition REGULATORY_PARAMETERS (i : RegulatoryIntensity.t)
  : RegulatoryConfig.t num :=
  match i with
  | RegulatoryIntensity.Low =>
      RegulatoryConfig.mk (decimal 5 1) (of_Z 200) (decimal 7 1) false
  | RegulatoryIntensity.Medium =>
      RegulatoryConfig.mk (of_Z 1) (of_Z 500) (of_Z 1) false
  | RegulatoryIntensity.High =>
      RegulatoryConfig.mk (of_Z 2) (of_Z 1200) (decimal 15 1) true
  end.

Definition COMPLIANCE_BASE_COSTS : ComplianceBaseCosts.t num :=
  {| ComplianceBaseCosts.costPerAudit := of_Z 75000;
     ComplianceBaseCosts.externalAdvisory := of_Z 120000;
     ComplianceBaseCosts.certificationCosts := of_Z 50000;
     ComplianceBaseCosts.documentationHourlyRate := of_Z 75;
     ComplianceBaseCosts.trainingPerEmployee := of_Z 500;
     ComplianceBaseCosts.complianceTooling := of_Z 25000 |}.

(** [calculateEscalationFactor] of [timeParameters.ts]: the helper behind
    the textual description of a scenario's time axis. *)
Definition calculateEscalationFactor `{!JSMath num}
  (targetYear escalationRate : num) : num :=
  let years := targetYear - TimeConfig.baselineYear TIME_PARAMETERS in
  if years <=? of_Z 0 then of_Z 1
  else Math_pow (of_Z 1 + escalationRate) years.

End Constants.

(** ** Axis multipliers ([app/services/multipliers.ts]) *)

Section Multipliers.
Context {num : Type} `{JSMath num}.
Local Open Scope js_scope.

Definition getRegionMultipliers (region : Region.t) : MultiplierSet.t num :=
  let regionConfig := REGION_MULTIPLIERS region in
  {| MultiplierSet.energy := RegionMultiplierConfig.energy regionConfig;
     MultiplierSet.labor := RegionMultiplierConfig.labor regionConfig;
     MultiplierSet.compliance := RegionMultiplierConfig.compliance regionConfig;
     MultiplierSet.cooling := of_Z 1;
     MultiplierSet.monitoring := of_Z 1 |}.

Definition getTimeMultipliers (time : TimeParameters.t num)
  : MultiplierSet.t num :=
  let yearsFromBaseline :=
    TimeParameters.year time - TimeConfig.baselineYear TIME_PARAMETERS in
  let escalationFactor :=
    Math_pow (of_Z 1 + TimeParameters.escalationRate time) yearsFromBaseline in
  let energyShockMultiplier :=
    if TimeParameters.shockEnabled time
    then or_default (TimeParameters.shockFactor time) (of_Z 1)
    else of_Z 1 in
  {| MultiplierSet.energy := escalationFactor * energyShockMultiplier;
     MultiplierSet.labor := escalationFactor;
     MultiplierSet.compliance := of_Z 1;
     MultiplierSet.cooling := escalationFactor;
     MultiplierSet.monitoring := of_Z 1 |}.

Definition getWorkloadMultipliers (workload : WorkloadParameters.t)
  : MultiplierSet.t num :=
  let classConfig :=
    WORKLOAD_PARAMETERS (Class (WorkloadParameters.utilizationClass workload)) in
  let multipliers :=
    {| MultiplierSet.energy := WorkloadConfig.energy classConfig;
       MultiplierSet.labor := of_Z 1;
       MultiplierSet.compliance := of_Z 1;
       MultiplierSet.cooling := WorkloadConfig.cooling classConfig;
       MultiplierSet.monitoring := WorkloadConfig.monitoring classConfig |} in
  if WorkloadParameters.aiEnabled workload then
    let aiConfig := WORKLOAD_PARAMETERS AI_accelerated in
    {| MultiplierSet.energy :=
         MultiplierSet.energy multipliers * WorkloadConfig.energy aiConfig;
       MultiplierSet.labor := MultiplierSet.labor multipliers;
       MultiplierSet.compliance := MultiplierSet.compliance multipliers;
       MultiplierSet.cooling :=
         MultiplierSet.cooling multipliers * WorkloadConfig.cooling aiConfig;
       MultiplierSet.monitoring :=
         MultiplierSet.monitoring multipliers
         * WorkloadConfig.monitoring aiConfig |}
  else multipliers.

Definition getRegulatoryMultipliers (intensity : RegulatoryIntensity.t)
  : MultiplierSet.t num :=
  let regConfig := REGULATORY_PARAMETERS intensity in
  {| MultiplierSet.energy := of_Z 1;
     MultiplierSet.labor := of_Z 1;
     MultiplierSet.compliance := RegulatoryConfig.complianceMultiplier regConfig;
     MultiplierSet.cooling := of_Z 1;
     MultiplierSet.monitoring := of_Z 1 |}.

(** One turn of the loop of [combineMultipliers]: [combined.f *= set.f]. *)
Definition combine_step (combined set : MultiplierSet.t num)
  : MultiplierSet.t num :=
  {| MultiplierSet.energy :=
       MultiplierSet.energy combined * MultiplierSet.energy set;
     MultiplierSet.labor :=
       MultiplierSet.labor combined * MultiplierSet.labor set;
     MultiplierSet.compliance :=
       MultiplierSet.compliance combined * MultiplierSet.compliance set;
     MultiplierSet.cooling :=
       MultiplierSet.cooling combined * MultiplierSet.cooling set;
     MultiplierSet.monitoring :=
       MultiplierSet.monitoring combined * MultiplierSet.monitoring set |}.

(** The all-1.0 set that the loop starts from. *)
Definition neutralMultipliers : MultiplierSet.t num :=
  {| MultiplierSet.energy := of_Z 1;
     MultiplierSet.labor := of_Z 1;
     MultiplierSet.compliance := of_Z 1;
     MultiplierSet.cooling := of_Z 1;
     MultiplierSet.monitoring := of_Z 1 |}.

Definition combineMultipliers (multiplierSets : list (MultiplierSet.t num))
  : MultiplierSet.t num :=
  fold_left combine_step multiplierSets neutralMultipliers.

End Multipliers.

(** ** The engine ([app/services/computationEngine.ts]) *)

Section Engine.
Context {num : Type} `{JSMath num}.
Local Open Scope js_scope.

(** The default of the parameter [laborHourlyRate]. *)
Definition default_laborHourlyRate : num := of_Z 75.

Definition calculateComplianceCosts (scenario : ScenarioParameters.t num)
  (laborHourlyRate : num) : ComplianceCosts.t num :=
  let regParams :=
    REGULATORY_PARAMETERS (ScenarioParameters.regulatoryIntensity scenario) in
  let baseCosts := COMPLIANCE_BASE_COSTS in
  let auditCosts :=
    RegulatoryConfig.auditFrequency regParams
    * ComplianceBaseCosts.costPerAudit baseCosts in
  let documentationCosts :=
    RegulatoryConfig.documentationHours regParams * laborHourlyRate in
  let advisoryCosts :=
    if RegulatoryConfig.externalAdvisoryIncluded regParams
    then ComplianceBaseCosts.externalAdvisory baseCosts else of_Z 0 in
  let certificationCosts :=
    ComplianceBaseCosts.certificationCosts baseCosts
    * RegulatoryConfig.complianceMultiplier regParams in
  {| ComplianceCosts.auditCosts := auditCosts;
     ComplianceCosts.documentationCosts := documentationCosts;
     ComplianceCosts.advisoryCosts := advisoryCosts;
     ComplianceCosts.certificationCosts := certificationCosts;
     ComplianceCosts.total :=
       auditCosts + documentationCosts + advisoryCosts + certificationCosts;
     ComplianceCosts.breakdown :=
       {| ComplianceCosts.auditFrequency :=
            RegulatoryConfig.auditFrequency regParams;
          ComplianceCosts.costPerAudit :=
            ComplianceBaseCosts.costPerAudit baseCosts;
          ComplianceCosts.documentationHours :=
            RegulatoryConfig.documentationHours regParams;
          ComplianceCosts.hourlyRate := laborHourlyRate |} |}.

Definition calculateSecurityCosts (scenario : ScenarioParameters.t num)
  (context : ComputationContext.t num) : SecurityCosts.t num :=
  let security := ScenarioParameters.security scenario in
  let siemCosts :=
    SecurityParameters.siemPerNode security
    * ComputationContext.nodeCount context in
  let iamCosts :=
    SecurityParameters.iamPerUser security
    * SecurityParameters.userCount security in
  let encryptionCosts :=
    SecurityParameters.encryptionPerTB security
    * ComputationContext.totalStorageTB context in
  let incidentResponseCosts :=
    SecurityParameters.incidentResponseRetainer security in
  {| SecurityCosts.siemCosts := siemCosts;
     SecurityCosts.iamCosts := iamCosts;
     SecurityCosts.encryptionCosts := encryptionCosts;
     SecurityCosts.incidentResponseCosts := incidentResponseCosts;
     SecurityCosts.total :=
       siemCosts + iamCosts + encryptionCosts + incidentResponseCosts |}.

Definition referenceInvestment : num := of_Z 50000.
Definition maxInvestment : num := of_Z 500000.

Definition calculateRiskCosts (scenario : ScenarioParameters.t num)
  (totalSecurityInvestment : num) : RiskCosts.t num :=
  let risk := ScenarioParameters.risk scenario in
  let investmentRatio :=
    Math_log (of_Z 1 + totalSecurityInvestment / referenceInvestment)
    / Math_log (of_Z 1 + maxInvestment / referenceInvestment) in
  let securityReductionFactor :=
    Math_min (RiskParameters.maxSecurityReduction risk)
             (investmentRatio * RiskParameters.maxSecurityReduction risk) in
  let adjustedProbability :=
    RiskParameters.baseIncidentProbability risk
    * (of_Z 1 - securityReductionFactor) in
  let expectedAnnualLoss :=
    adjustedProbability * RiskParameters.averageImpactCost risk in
  {| RiskCosts.expectedAnnualLoss := expectedAnnualLoss;
     RiskCosts.adjustedProbability := adjustedProbability;
     RiskCosts.securityReductionFactor := securityReductionFactor;
     RiskCosts.breakdown :=
       {| RiskCosts.baseIncidentProbability :=
            RiskParameters.baseIncidentProbability risk;
          RiskCosts.securityInvestment := totalSecurityInvestment;
          RiskCosts.averageImpactCost :=
            RiskParameters.averageImpactCost risk |} |}.

Definition applyMultipliers (baseTCO : BaseTCOInput.t num)
  (multipliers : MultiplierSet.t num) : Adjustments.t num :=
  let energyAdjustment :=
    BaseTCOInput.energy baseTCO * (MultiplierSet.energy multipliers - of_Z 1) in
  let laborAdjustment :=
    BaseTCOInput.labor baseTCO * (MultiplierSet.labor multipliers - of_Z 1) in
  let coolingPortion := BaseTCOInput.powerDistribution baseTCO * decimal 4 1 in
  let coolingAdjustment :=
    coolingPortion * (MultiplierSet.cooling multipliers - of_Z 1) in
  let total := energyAdjustment + laborAdjustment + coolingAdjustment in
  {| Adjustments.energyAdjustment := energyAdjustment;
     Adjustments.laborAdjustment := laborAdjustment;
     Adjustments.coolingAdjustment := coolingAdjustment;
     Adjustments.total := total |}.

End Engine.

(** The object spreads of [calculateSensitivity], written out: a copy of the
    record with one field replaced. A spread keeps the keys in their order,
    and writing a key that is there keeps its place. *)
Section Spreads.
Context {num : Type}.

Definition with_energy (b : BaseTCOInput.t num) (v : num) : BaseTCOInput.t num :=
  {| BaseTCOInput.land := BaseTCOInput.land b;
     BaseTCOInput.servers := BaseTCOInput.servers b;
     BaseTCOInput.storage := BaseTCOInput.storage b;
     BaseTCOInput.network := BaseTCOInput.network b;
     BaseTCOInput.powerDistribution := BaseTCOInput.powerDistribution b;
     BaseTCOInput.energy := v;
     BaseTCOInput.software := BaseTCOInput.software b;
     BaseTCOInput.labor := BaseTCOInput.labor b;
     BaseTCOInput.keys := BaseTCOInput.keys b;
     BaseTCOInput.keys_own := BaseTCOInput.keys_own b |}.

Definition with_labor (b : BaseTCOInput.t num) (v : num) : BaseTCOInput.t num :=
  {| BaseTCOInput.land := BaseTCOInput.land b;
     BaseTCOInput.servers := BaseTCOInput.servers b;
     BaseTCOInput.storage := BaseTCOInput.storage b;
     BaseTCOInput.network := BaseTCOInput.network b;
     BaseTCOInput.powerDistribution := BaseTCOInput.powerDistribution b;
     BaseTCOInput.energy := BaseTCOInput.energy b;
     BaseTCOInput.software := BaseTCOInput.software b;
     BaseTCOInput.labor := v;
     BaseTCOInput.keys := BaseTCOInput.keys b;
     BaseTCOInput.keys_own := BaseTCOInput.keys_own b |}.

Definition with_annualInvestment (s : SecurityParameters.t num) (v : num)
  : SecurityParameters.t num :=
  {| SecurityParameters.annualInvestment := v;
     SecurityParameters.siemPerNode := SecurityParameters.siemPerNode s;
     SecurityParameters.iamPerUser := SecurityParameters.iamPerUser s;
     SecurityParameters.encryptionPerTB := SecurityParameters.encryptionPerTB s;
     SecurityParameters.incidentResponseRetainer :=
       SecurityParameters.incidentResponseRetainer s;
     SecurityParameters.userCount := SecurityParameters.userCount s |}.

Definition with_security (s : ScenarioParameters.t num)
  (v : SecurityParameters.t num) : ScenarioParameters.t num :=
  {| ScenarioParameters.id := ScenarioParameters.id s;
     ScenarioParameters.name := ScenarioParameters.name s;
     ScenarioParameters.description := ScenarioParameters.description s;
     ScenarioParameters.region := ScenarioParameters.region s;
     ScenarioParameters.time := ScenarioParameters.time s;
     ScenarioParameters.workload := ScenarioParameters.workload s;
     ScenarioParameters.regulatoryIntensity :=
       ScenarioParameters.regulatoryIntensity s;
     ScenarioParameters.security := v;
     ScenarioParameters.risk := ScenarioParameters.risk s;
     ScenarioParameters.isBaseline := ScenarioParameters.isBaseline s;
     ScenarioParameters.createdAt := ScenarioParameters.createdAt s;
     ScenarioParameters.updatedAt := ScenarioParameters.updatedAt s |}.

End Spreads.

Section Assembler.
Context {num : Type} `{JSMath num}.
Local Open Scope js_scope.

Definition computeScenarioTCO (baseTCO : BaseTCOInput.t num)
  (scenario : ScenarioParameters.t num) (context : ComputationContext.t num)
  : IO (ComputationBreakdown.t num) :=
  (* Step 1: get all multipliers *)
  let regionMultipliers :=
    getRegionMultipliers (ScenarioParameters.region scenario) in
  let timeMultipliers := getTimeMultipliers (ScenarioParameters.time scenario) in
  let workloadMultipliers :=
    getWorkloadMultipliers (ScenarioParameters.workload scenario) in
  let regulatoryMultipliers :=
    getRegulatoryMultipliers (ScenarioParameters.regulatoryIntensity scenario) in
  (* Step 2: combine multipliers *)
  let combinedMultipliers :=
    combineMultipliers
      [regionMultipliers; timeMultipliers; workloadMultipliers] in
  (* Step 3: apply multipliers to get adjustments *)
  let adjustments := applyMultipliers baseTCO combinedMultipliers in
  (* Step 4: compliance costs *)
  let complianceCosts :=
    calculateComplianceCosts scenario default_laborHourlyRate in
  (* Step 5: security costs *)
  let securityCosts := calculateSecurityCosts scenario context in
  (* Step 6: risk costs *)
  let totalSecurityInvestment :=
    SecurityCosts.total securityCosts
    + SecurityParameters.annualInvestment (ScenarioParameters.security scenario)
  in
  let riskCosts := calculateRiskCosts scenario totalSecurityInvestment in
  (* Step 7: totals *)
  let baseTCOTotal :=
    fold_left (fun sum val => sum + val)
              (BaseTCOInput.Object_values baseTCO) (of_Z 0) in
  let adjustmentsTotal := Adjustments.total adjustments in
  let complianceTotal := ComplianceCosts.total complianceCosts in
  let securityTotal := SecurityCosts.total securityCosts in
  let riskTotal := RiskCosts.expectedAnnualLoss riskCosts in
  let grandTotal :=
    baseTCOTotal + adjustmentsTotal + complianceTotal + securityTotal
    + riskTotal in
  (* Step 8: the complete breakdown *)
  calculatedAt <- new_Date_toISOString ;;
  ret
    {| ComputationBreakdown.scenarioId := ScenarioParameters.id scenario;
       ComputationBreakdown.scenarioName := ScenarioParameters.name scenario;
       ComputationBreakdown.baseTCO :=
         {| ComputationBreakdown.land := BaseTCOInput.land baseTCO;
            ComputationBreakdown.servers := BaseTCOInput.servers baseTCO;
            ComputationBreakdown.storage := BaseTCOInput.storage baseTCO;
            ComputationBreakdown.network := BaseTCOInput.network baseTCO;
            ComputationBreakdown.powerDistribution :=
              BaseTCOInput.powerDistribution baseTCO;
            ComputationBreakdown.energy := BaseTCOInput.energy baseTCO;
            ComputationBreakdown.software := BaseTCOInput.software baseTCO;
            ComputationBreakdown.labor := BaseTCOInput.labor baseTCO;
            ComputationBreakdown.total := baseTCOTotal |};
       ComputationBreakdown.multipliers :=
         {| ComputationBreakdown.region := regionMultipliers;
            ComputationBreakdown.time :=
              {| ComputationBreakdown.escalationFactor :=
                   MultiplierSet.energy timeMultipliers;
                 ComputationBreakdown.shockFactor :=
                   if TimeParameters.shockEnabled
                        (ScenarioParameters.time scenario)
                   then TimeParameters.shockFactor
                          (ScenarioParameters.time scenario)
                   else Some (of_Z 1) |};
            ComputationBreakdown.workload := workloadMultipliers;
            ComputationBreakdown.regulatory :=
              {| ComputationBreakdown.complianceMultiplier :=
                   MultiplierSet.compliance regulatoryMultipliers |};
            ComputationBreakdown.combined := combinedMultipliers |};
       ComputationBreakdown.adjustments := adjustments;
       ComputationBreakdown.complianceCosts := complianceCosts;
       ComputationBreakdown.securityCosts := securityCosts;
       ComputationBreakdown.riskCosts := riskCosts;
       ComputationBreakdown.totals :=
         {| ComputationBreakdown.totals_baseTCO := baseTCOTotal;
            ComputationBreakdown.totals_adjustments := adjustmentsTotal;
            ComputationBreakdown.totals_compliance := complianceTotal;
            ComputationBreakdown.totals_security := securityTotal;
            ComputationBreakdown.totals_risk := riskTotal;
            ComputationBreakdown.grandTotal := grandTotal |};
       ComputationBreakdown.calculatedAt := calculatedAt |}.

(** The default of the parameter [perturbationPercent]. *)
Definition default_perturbationPercent : num := decimal 2 1.

Definition calculateSensitivity (baseTCO : BaseTCOInput.t num)
  (scenario : ScenarioParameters.t num) (context : ComputationContext.t num)
  (parameter : SensitivityParameter.t) (perturbationPercent : num)
  : IO (Sensitivity.t num) :=
  base <- computeScenarioTCO baseTCO scenario context ;;
  let '(lowInput, highInput, lowScenario, highScenario) :=
    match parameter with
    | SensitivityParameter.energy =>
        (with_energy baseTCO
           (BaseTCOInput.energy baseTCO * (of_Z 1 - perturbationPercent)),
         with_energy baseTCO
           (BaseTCOInput.energy baseTCO * (of_Z 1 + perturbationPercent)),
         scenario, scenario)
    | SensitivityParameter.labor =>
        (with_labor baseTCO
           (BaseTCOInput.labor baseTCO * (of_Z 1 - perturbationPercent)),
         with_labor baseTCO
           (BaseTCOInput.labor baseTCO * (of_Z 1 + perturbationPercent)),
         scenario, scenario)
    | SensitivityParameter.security =>
        let security := ScenarioParameters.security scenario in
        (baseTCO, baseTCO,
         with_security scenario
           (with_annualInvestment security
              (SecurityParameters.annualInvestment security
               * (of_Z 1 - perturbationPercent))),
         with_security scenario
           (with_annualInvestment security
              (SecurityParameters.annualInvestment security
               * (of_Z 1 + perturbationPercent))))
    end in
  low <- computeScenarioTCO lowInput lowScenario context ;;
  high <- computeScenarioTCO highInput highScenario context ;;
  ret {| Sensitivity.low := low; Sensitivity.base := base;
         Sensitivity.high := high |}.

End Assembler.

(** The string behind each value of the enumerations. *)
Definition Region_to_string (r : Region.t) : string :=
  match r with
  | Region.EU => "EU"
  | Region.US => "US"
  | Region.Global => "Global"
  end.

Definition WorkloadClass_to_string (c : WorkloadClass.t) : string :=
  match c with
  | WorkloadClass.Low => "Low"
  | WorkloadClass.Medium => "Medium"
  | WorkloadClass.High => "High"
  end.

Definition RegulatoryIntensity_to_string (i : RegulatoryIntensity.t) : string :=
  match i with
  | RegulatoryIntensity.Low => "Low"
  | RegulatoryIntensity.Medium => "Medium"
  | RegulatoryIntensity.High => "High"
  end.

Section Comparator.
Context {num : Type} `{JSNumber num}.
Local Open Scope js_scope.
Local Open Scope string_scope.

(** [if (c) parameterDifferences.push(d)] *)
Definition push_if {A : Type} (c : bool) (d : A) (l : list A) : list A :=
  if c then l ++ [d] else l.

Definition compareScenarios (breakdownA breakdownB : ComputationBreakdown.t num)
  (scenarioA scenarioB : ScenarioParameters.t num) : ScenarioComparison.t num :=
  let totalsA := ComputationBreakdown.totals breakdownA in
  let totalsB := ComputationBreakdown.totals breakdownB in
  let deltas :=
    {| ScenarioComparison.baseTCO :=
         ComputationBreakdown.totals_baseTCO totalsB
         - ComputationBreakdown.totals_baseTCO totalsA;
       ScenarioComparison.adjustments :=
         ComputationBreakdown.totals_adjustments totalsB
         - ComputationBreakdown.totals_adjustments totalsA;
       ScenarioComparison.compliance :=
         ComputationBreakdown.totals_compliance totalsB
         - ComputationBreakdown.totals_compliance totalsA;
       ScenarioComparison.security :=
         ComputationBreakdown.totals_security totalsB
         - ComputationBreakdown.totals_security totalsA;
       ScenarioComparison.risk :=
         ComputationBreakdown.totals_risk totalsB
         - ComputationBreakdown.totals_risk totalsA;
       ScenarioComparison.grandTotal :=
         ComputationBreakdown.grandTotal totalsB
         - ComputationBreakdown.grandTotal totalsA;
       ScenarioComparison.percentageChange :=
         ((ComputationBreakdown.grandTotal totalsB
           - ComputationBreakdown.grandTotal totalsA)
          / ComputationBreakdown.grandTotal totalsA)
         * of_Z 100 |} in
  let parameterDifferences : list (ScenarioComparison.difference_t num) := [] in
  let parameterDifferences :=
    push_if
      (negb (String.eqb
               (Region_to_string (ScenarioParameters.region scenarioA))
               (Region_to_string (ScenarioParameters.region scenarioB))))
      (ScenarioComparison.mk_difference "Region"
         (ScenarioComparison.Str
            (Region_to_string (ScenarioParameters.region scenarioA)))
         (ScenarioComparison.Str
            (Region_to_string (ScenarioParameters.region scenarioB))))
      parameterDifferences in
  let yearA := TimeParameters.year (ScenarioParameters.time scenarioA) in
  let yearB := TimeParameters.year (ScenarioParameters.time scenarioB) in
  let parameterDifferences :=
    push_if (strict_neq yearA yearB)
      (ScenarioComparison.mk_difference "Year"
         (ScenarioComparison.Num yearA) (ScenarioComparison.Num yearB))
      parameterDifferences in
  let classA :=
    WorkloadParameters.utilizationClass (ScenarioParameters.workload scenarioA)
  in
  let classB :=
    WorkloadParameters.utilizationClass (ScenarioParameters.workload scenarioB)
  in
  let parameterDifferences :=
    push_if
      (negb (String.eqb (WorkloadClass_to_string classA)
                        (WorkloadClass_to_string classB)))
      (ScenarioComparison.mk_difference "Workload Class"
         (ScenarioComparison.Str (WorkloadClass_to_string classA))
         (ScenarioComparison.Str (WorkloadClass_to_string classB)))
      parameterDifferences in
  let aiA := WorkloadParameters.aiEnabled (ScenarioParameters.workload scenarioA)
  in
  let aiB := WorkloadParameters.aiEnabled (ScenarioParameters.workload scenarioB)
  in
  let parameterDifferences :=
    push_if (negb (Bool.eqb aiA aiB))
      (ScenarioComparison.mk_difference "AI Mode"
         (ScenarioComparison.Str (if aiA then "Enabled" else "Disabled"))
         (ScenarioComparison.Str (if aiB then "Enabled" else "Disabled")))
      parameterDifferences in
  let regA := ScenarioParameters.regulatoryIntensity scenarioA in
  let regB := ScenarioParameters.regulatoryIntensity scenarioB in
  let parameterDifferences :=
    push_if
      (negb (String.eqb (RegulatoryIntensity_to_string regA)
                        (RegulatoryIntensity_to_string regB)))
      (ScenarioComparison.mk_difference "Regulatory Intensity"
         (ScenarioComparison.Str (RegulatoryIntensity_to_string regA))
         (ScenarioComparison.Str (RegulatoryIntensity_to_string regB)))
      parameterDifferences in
  let investA :=
    SecurityParameters.annualInvestment (ScenarioParameters.security scenarioA)
  in
  let investB :=
    SecurityParameters.annualInvestment (ScenarioParameters.security scenarioB)
  in
  let parameterDifferences :=
    push_if (strict_neq investA investB)
      (ScenarioComparison.mk_difference "Security Investment"
         (ScenarioComparison.Num investA) (ScenarioComparison.Num investB))
      parameterDifferences in
  {| ScenarioComparison.scenarioA :=
       ScenarioComparison.mk_side (ScenarioParameters.id scenarioA)
         (ScenarioParameters.name scenarioA) scenarioA breakdownA;
     ScenarioComparison.scenarioB :=
       ScenarioComparison.mk_side (ScenarioParameters.id scenarioB)
         (ScenarioParameters.name scenarioB) scenarioB breakdownB;
     ScenarioComparison.deltas := deltas;
     ScenarioComparison.parameterDifferences := parameterDifferences |}.

(** The percentage that the comparison view
    ([app/components/scenarioComparison.tsx]) computes for itself, from the
    same two breakdowns. *)
Definition view_percentageChange
  (breakdownA breakdownB : ComputationBreakdown.t num) : num :=
  let totalsA := ComputationBreakdown.totals breakdownA in
  let totalsB := ComputationBreakdown.totals breakdownB in
  let deltas_grandTotal :=
    ComputationBreakdown.grandTotal totalsB
    - ComputationBreakdown.grandTotal totalsA in
  if strict_neq (ComputationBreakdown.grandTotal totalsA) (of_Z 0)
  then (deltas_grandTotal / ComputationBreakdown.grandTotal totalsA) * of_Z 100
  else of_Z 0.

End Comparator.

(** ** Scenarios that differ in one axis *)

(** The update of one axis of a scenario, every other field kept: what the
    setters of the scenario context do with a spread ([{...s, region}]). *)
Section Axes.
Context {num : Type}.

Definition with_region (s : ScenarioParameters.t num) (v : Region.t)
  : ScenarioParameters.t num :=
  {| ScenarioParameters.id := ScenarioParameters.id s;
     ScenarioParameters.name := ScenarioParameters.name s;
     ScenarioParameters.description := ScenarioParameters.description s;
     ScenarioParameters.region := v;
     ScenarioParameters.time := ScenarioParameters.time s;
     ScenarioParameters.workload := ScenarioParameters.workload s;
     ScenarioParameters.regulatoryIntensity :=
       ScenarioParameters.regulatoryIntensity s;
     ScenarioParameters.security := ScenarioParameters.security s;
     ScenarioParameters.risk := ScenarioParameters.risk s;
     ScenarioParameters.isBaseline := ScenarioParameters.isBaseline s;
     ScenarioParameters.createdAt := ScenarioParameters.createdAt s;
     ScenarioParameters.updatedAt := ScenarioParameters.updatedAt s |}.

Definition with_time (s : ScenarioParameters.t num) (v : TimeParameters.t num)
  : ScenarioParameters.t num :=
  {| ScenarioParameters.id := ScenarioParameters.id s;
     ScenarioParameters.name := ScenarioParameters.name s;
     ScenarioParameters.description := ScenarioParameters.description s;
     ScenarioParameters.region := ScenarioParameters.region s;
     ScenarioParameters.time := v;
     ScenarioParameters.workload := ScenarioParameters.workload s;
     ScenarioParameters.regulatoryIntensity :=
       ScenarioParameters.regulatoryIntensity s;
     ScenarioParameters.security := ScenarioParameters.security s;
     ScenarioParameters.risk := ScenarioParameters.risk s;
     ScenarioParameters.isBaseline := ScenarioParameters.isBaseline s;
     ScenarioParameters.createdAt := ScenarioParameters.createdAt s;
     ScenarioParameters.updatedAt := ScenarioParameters.updatedAt s |}.

Definition with_year (t : TimeParameters.t num) (v : num)
  : TimeParameters.t num :=
  {| TimeParameters.year := v;
     TimeParameters.escalationRate := TimeParameters.escalationRate t;
     TimeParameters.shockFactor := TimeParameters.shockFactor t;
     TimeParameters.shockEnabled := TimeParameters.shockEnabled t |}.

Definition with_workload (s : ScenarioParameters.t num)
  (v : WorkloadParameters.t) : ScenarioParameters.t num :=
  {| ScenarioParameters.id := ScenarioParameters.id s;
     ScenarioParameters.name := ScenarioParameters.name s;
     ScenarioParameters.description := ScenarioParameters.description s;
     ScenarioParameters.region := ScenarioParameters.region s;
     ScenarioParameters.time := ScenarioParameters.time s;
     ScenarioParameters.workload := v;
     ScenarioParameters.regulatoryIntensity :=
       ScenarioParameters.regulatoryIntensity s;
     ScenarioParameters.security := ScenarioParameters.security s;
     ScenarioParameters.risk := ScenarioParameters.risk s;
     ScenarioParameters.isBaseline := ScenarioParameters.isBaseline s;
     ScenarioParameters.createdAt := ScenarioParameters.createdAt s;
     ScenarioParameters.updatedAt := ScenarioParameters.updatedAt s |}.

Definition with_regulatoryIntensity (s : ScenarioParameters.t num)
  (v : RegulatoryIntensity.t) : ScenarioParameters.t num :=
  {| ScenarioParameters.id := ScenarioParameters.id s;
     ScenarioParameters.name := ScenarioParameters.name s;
     ScenarioParameters.description := ScenarioParameters.description s;
     ScenarioParameters.region := ScenarioParameters.region s;
     ScenarioParameters.time := ScenarioParameters.time s;
     ScenarioParameters.workload := ScenarioParameters.workload s;
     ScenarioParameters.regulatoryIntensity := v;
     ScenarioParameters.security := ScenarioParameters.security s;
     ScenarioParameters.risk := ScenarioParameters.risk s;
     ScenarioParameters.isBaseline := ScenarioParameters.isBaseline s;
     ScenarioParameters.createdAt := ScenarioParameters.createdAt s;
     ScenarioParameters.updatedAt := ScenarioParameters.updatedAt s |}.

(** The scenario with another [security.annualInvestment]. *)
Definition with_investment (s : ScenarioParameters.t num) (v : num)
  : ScenarioParameters.t num :=
  with_security s (with_annualInvestment (ScenarioParameters.security s) v).

(** A breakdown with another time stamp. *)
Definition with_calculatedAt (r : ComputationBreakdown.t num) (v : string)
  : ComputationBreakdown.t num :=
  {| ComputationBreakdown.scenarioId := ComputationBreakdown.scenarioId r;
     ComputationBreakdown.scenarioName := ComputationBreakdown.scenarioName r;
     ComputationBreakdown.baseTCO := ComputationBreakdown.baseTCO r;
     ComputationBreakdown.multipliers := ComputationBreakdown.multipliers r;
     ComputationBreakdown.adjustments := ComputationBreakdown.adjustments r;
     ComputationBreakdown.complianceCosts :=
       ComputationBreakdown.complianceCosts r;
     ComputationBreakdown.securityCosts := ComputationBreakdown.securityCosts r;
     ComputationBreakdown.riskCosts := ComputationBreakdown.riskCosts r;
     ComputationBreakdown.totals := ComputationBreakdown.totals r;
     ComputationBreakdown.calculatedAt := v |}.

End Axes.

(** ** Fixtures ([app/constants/testScenarios.ts]) *)

Section Fixtures.
Context {num : Type} `{JSNumber num}.
Local Open Scope string_scope.

(** The defaults of [createTestScenario], at a fixed id and time stamp. *)
Definition testScenario : ScenarioParameters.t num :=
  {| ScenarioParameters.id := "00000000-0000-4000-8000-000000000000";
     ScenarioParameters.name := "Test";
     ScenarioParameters.description := Some "Test scenario: Test";
     ScenarioParameters.region := Region.US;
     ScenarioParameters.time :=
       TimeParameters.mk (of_Z 2024) (decimal 25 3) (Some (decimal 15 1)) false;
     ScenarioParameters.workload :=
       WorkloadParameters.mk WorkloadClass.Medium false;
     ScenarioParameters.regulatoryIntensity := RegulatoryIntensity.Medium;
     ScenarioParameters.security :=
       SecurityParameters.mk (of_Z 100000) (of_Z 500) (of_Z 100) (of_Z 50)
         (of_Z 50000) (of_Z 50);
     ScenarioParameters.risk :=
       RiskParameters.mk (decimal 15 2) (of_Z 500000) (decimal 8 1);
     ScenarioParameters.isBaseline := false;
     ScenarioParameters.createdAt := "2024-01-01T00:00:00.000Z";
     ScenarioParameters.updatedAt := "2024-01-01T00:00:00.000Z" |}.

(** Base costs and a context of a small installation. *)
Definition sampleBaseTCO : BaseTCOInput.t num :=
  BaseTCOInput.mk (of_Z 100000) (of_Z 500000) (of_Z 80000) (of_Z 60000)
    (of_Z 200000) (of_Z 150000) (of_Z 40000) (of_Z 300000).

Definition sampleContext : ComputationContext.t num :=
  ComputationContext.mk (of_Z 100) (of_Z 500).

End Fixtures.

(** Two clocks: one that stands still, one that moves between two readings. *)
Definition frozenClock : Clock := fun _ => "2024-06-01T12:00:00.000Z"%string.
Definition tickingClock : Clock :=
  fun n => match n with
           | O => "2024-06-01T12:00:00.000Z"%string
           | S _ => "2024-06-01T12:00:00.001Z"%string
           end.

(** ** The rest of the number interface *)

(** The strict comparison of two numbers. *)
Class JSOrder (num : Type) : Type := {
  js_lt : num -> num -> bool          (* < *)
}.

(** The conversions of a number to text: string interpolation
    ([Number.prototype.toString]), [toFixed] and [toLocaleString]. Their
    digits are no part of the model: the functions that use them are read
    for any such conversions. *)
Class JSFormat (num : Type) : Type := {
  Number_toString : num -> string;
  toFixed : num -> nat -> string;
  toLocaleString : num -> string
}.

#[export] Instance R_order : JSOrder R := {
  js_lt := fun x y => if Rlt_dec x y then true else false
}.

#[export] Instance float_order : JSOrder PrimFloat.float := {
  js_lt := PrimFloat.ltb
}.

(** ** The helpers of the constant tables *)

(** The prose of [WORKLOAD_PARAMETERS], which the table above leaves out. *)
Definition WORKLOAD_description (k : WorkloadKey) : string :=
  match k with
  | Class WorkloadClass.Low =>
      "Low utilization - Development, testing, or standby systems"
  | Class WorkloadClass.Medium =>
      "Medium utilization - Standard production workloads"
  | Class WorkloadClass.High =>
      "High utilization - Compute-intensive production workloads"
  | AI_accelerated =>
      "AI/ML accelerated workloads - GPU-intensive processing"
  end%string.

Definition WORKLOAD_examples (k : WorkloadKey) : list string :=
  match k with
  | Class WorkloadClass.Low =>
      ["Development and test environments"; "Disaster recovery standby";
       "Archive storage systems"; "Batch processing during off-hours"]
  | Class WorkloadClass.Medium =>
      ["Enterprise applications"; "Web services and APIs"; "Database servers";
       "Standard business workloads"]
  | Class WorkloadClass.High =>
      ["High-traffic web applications"; "Real-time analytics";
       "Scientific computing"; "Financial trading systems"]
  | AI_accelerated =>
      ["Large language model training"; "Deep learning inference";
       "Computer vision processing"; "AI/ML pipeline processing"]
  end%string.

Set Implicit Arguments.
Set Maximal Implicit Insertion.

(** A [WorkloadConfig] with its prose. *)
Module WorkloadEntry.
Record t (num : Type) : Type := mk {
  config : WorkloadConfig.t num;
  description : string;
  examples : list string
}.
End WorkloadEntry.

(** What [calculateComplianceCosts] of [regulatoryParameters.ts] returns. *)
Module FullComplianceCosts.
Record t (num : Type) : Type := mk {
  auditCosts : num;
  documentationCosts : num;
  advisoryCosts : num;
  certificationCosts : num;
  trainingCosts : num;
  toolingCosts : num;
  total : num
}.
End FullComplianceCosts.

Unset Maximal Implicit Insertion.
Unset Implicit Arguments.

(** [app/constants/workloadParameters.ts] *)
Module WorkloadConstants.
Section Helpers.
Context {num : Type} `{JSNumber num}.
Local Open Scope js_scope.
Local Open Scope string_scope.

(** An entry of the table, prose included. *)
Definition entry (k : WorkloadKey) : WorkloadEntry.t num :=
  {| WorkloadEntry.config := WORKLOAD_PARAMETERS k;
     WorkloadEntry.description := WORKLOAD_description k;
     WorkloadEntry.examples := WORKLOAD_examples k |}.

Definition getWorkloadMultipliers (utilizationClass : WorkloadClass.t)
  (aiEnabled : bool) : WorkloadEntry.t num :=
  let base := entry (Class utilizationClass) in
  if negb aiEnabled then base
  else
    let ai := entry AI_accelerated in
    {| WorkloadEntry.config :=
         {| WorkloadConfig.energy :=
              WorkloadConfig.energy (WorkloadEntry.config base)
              * WorkloadConfig.energy (WorkloadEntry.config ai);
            WorkloadConfig.cooling :=
              WorkloadConfig.cooling (WorkloadEntry.config base)
              * WorkloadConfig.cooling (WorkloadEntry.config ai);
            WorkloadConfig.monitoring :=
              WorkloadConfig.monitoring (WorkloadEntry.config base)
              * WorkloadConfig.monitoring (WorkloadEntry.config ai) |};
       WorkloadEntry.description :=
         WorkloadEntry.description base ++ " with AI acceleration";
       WorkloadEntry.examples :=
         (WorkloadEntry.examples base ++ WorkloadEntry.examples ai)%list |}.

End Helpers.
End WorkloadConstants.

(** [app/constants/regulatoryParameters.ts] *)
Module RegulatoryConstants.
Section Helpers.
Context {num : Type} `{JSNumber num}.
Local Open Scope js_scope.

(** The default of the parameter [employeeCount]. *)
Definition default_employeeCount : num := of_Z 50.

Definition calculateComplianceCosts (intensity : RegulatoryIntensity.t)
  (employeeCount : num) : FullComplianceCosts.t num :=
  let config := REGULATORY_PARAMETERS intensity in
  let base := COMPLIANCE_BASE_COSTS in
  let auditCosts :=
    RegulatoryConfig.auditFrequency config
    * ComplianceBaseCosts.costPerAudit base in
  let documentationCosts :=
    RegulatoryConfig.documentationHours config
    * ComplianceBaseCosts.documentationHourlyRate base in
  let advisoryCosts :=
    if RegulatoryConfig.externalAdvisoryIncluded config
    then ComplianceBaseCosts.externalAdvisory base else of_Z 0 in
  let certificationCosts :=
    ComplianceBaseCosts.certificationCosts base
    * RegulatoryConfig.complianceMultiplier config in
  let trainingCosts :=
    ComplianceBaseCosts.trainingPerEmployee base * employeeCount in
  let toolingCosts :=
    ComplianceBaseCosts.complianceTooling base
    * RegulatoryConfig.complianceMultiplier config in
  {| FullComplianceCosts.auditCosts := auditCosts;
     FullComplianceCosts.documentationCosts := documentationCosts;
     FullComplianceCosts.advisoryCosts := advisoryCosts;
     FullComplianceCosts.certificationCosts := certificationCosts;
     FullComplianceCosts.trainingCosts := trainingCosts;
     FullComplianceCosts.toolingCosts := toolingCosts;
     FullComplianceCosts.total :=
       auditCosts + documentationCosts + advisoryCosts + certificationCosts
       + trainingCosts + toolingCosts |}.

End Helpers.
End RegulatoryConstants.

(** ** The documentation of the multipliers ([app/services/multipliers.ts]) *)

Set Implicit Arguments.
Set Maximal Implicit Insertion.

(** What [getMultiplierDocumentation] returns. *)
Module MultiplierDocumentation.
Record axis_t (num : Type) : Type := mk_axis {
  axis_source : string;
  axis_multipliers : MultiplierSet.t num;
  axis_affects : list string
}.
Record time_t (num : Type) : Type := mk_time {
  time_source : string;
  escalationRate : num;
  shockEnabled : bool;
  shockFactor : option num;
  time_multipliers : MultiplierSet.t num;
  time_affects : list string;
  time_note : string
}.
Record regulatory_t (num : Type) : Type := mk_regulatory {
  regulatory_source : string;
  regulatory_multipliers : MultiplierSet.t num;
  regulatory_affects : list string;
  regulatory_note : string
}.
Record combined_t (num : Type) : Type := mk_combined {
  description : string;
  combined_multipliers : MultiplierSet.t num
}.
Record t (num : Type) : Type := mk {
  region : axis_t num;
  time : time_t num;
  workload : axis_t num;
  regulatory : regulatory_t num;
  combined : combined_t num
}.
End MultiplierDocumentation.

(** What [validateNonNegativeCosts] returns. *)
Module Validation.
Record t : Set := mk {
  valid : bool;
  errors : list string
}.
End Validation.

Unset Maximal Implicit Insertion.
Unset Implicit Arguments.

Section Documentation.
Context {num : Type} `{JSMath num} `{!JSFormat num}.
Local Open Scope js_scope.
Local Open Scope string_scope.

Definition getMultiplierDocumentation (region : Region.t)
  (time : TimeParameters.t num) (workload : WorkloadParameters.t)
  (regulatoryIntensity : RegulatoryIntensity.t)
  : MultiplierDocumentation.t num :=
  let regionMults := getRegionMultipliers region in
  let timeMults := getTimeMultipliers time in
  let workloadMults := getWorkloadMultipliers workload in
  let regMults := getRegulatoryMultipliers regulatoryIntensity in
  let combined :=
    combineMultipliers [regionMults; timeMults; workloadMults; regMults] in
  {| MultiplierDocumentation.region :=
       {| MultiplierDocumentation.axis_source :=
            "Region: " ++ Region_to_string region;
          MultiplierDocumentation.axis_multipliers := regionMults;
          MultiplierDocumentation.axis_affects :=
            ["Energy"; "Labor"; "Compliance"] |};
     MultiplierDocumentation.time :=
       {| MultiplierDocumentation.time_source :=
            "Year " ++ Number_toString (TimeParameters.year time) ++ " ("
            ++ Number_toString
                 (TimeParameters.year time
                  - TimeConfig.baselineYear TIME_PARAMETERS)
            ++ " years from baseline)";
          MultiplierDocumentation.escalationRate :=
            TimeParameters.escalationRate time;
          MultiplierDocumentation.shockEnabled :=
            TimeParameters.shockEnabled time;
          MultiplierDocumentation.shockFactor :=
            TimeParameters.shockFactor time;
          MultiplierDocumentation.time_multipliers := timeMults;
          MultiplierDocumentation.time_affects :=
            ["Energy (OPEX)"; "Labor (OPEX)"; "Cooling (OPEX)"];
          MultiplierDocumentation.time_note := "CAPEX items do not escalate" |};
     MultiplierDocumentation.workload :=
       {| MultiplierDocumentation.axis_source :=
            WorkloadClass_to_string
              (WorkloadParameters.utilizationClass workload)
            ++ " utilization"
            ++ (if WorkloadParameters.aiEnabled workload then " + AI" else "");
          MultiplierDocumentation.axis_multipliers := workloadMults;
          MultiplierDocumentation.axis_affects :=
            ["Energy consumption"; "Cooling"; "Monitoring"] |};
     MultiplierDocumentation.regulatory :=
       {| MultiplierDocumentation.regulatory_source :=
            "Regulatory intensity: "
            ++ RegulatoryIntensity_to_string regulatoryIntensity;
          MultiplierDocumentation.regulatory_multipliers := regMults;
          MultiplierDocumentation.regulatory_affects := ["Compliance overhead"];
          MultiplierDocumentation.regulatory_note :=
            "Most compliance costs are explicit line items" |};
     MultiplierDocumentation.combined :=
       {| MultiplierDocumentation.description :=
            "Combined effect of all multipliers";
          MultiplierDocumentation.combined_multipliers := combined |} |}.

End Documentation.

(** ** The validation utilities ([app/constants/testScenarios.ts]) *)

Section Validators.
Context {num : Type} `{JSNumber num} `{!JSOrder num}.
Local Open Scope js_scope.
Local Open Scope string_scope.

Definition validateNonNegativeCosts (breakdown : ComputationBreakdown.t num)
  : Validation.t :=
  let totals := ComputationBreakdown.totals breakdown in
  let errors : list string := [] in
  let errors :=
    push_if (js_lt (ComputationBreakdown.totals_baseTCO totals) (of_Z 0))
      "Base TCO is negative" errors in
  let errors :=
    push_if (js_lt (ComputationBreakdown.totals_compliance totals) (of_Z 0))
      "Compliance costs are negative" errors in
  let errors :=
    push_if (js_lt (ComputationBreakdown.totals_security totals) (of_Z 0))
      "Security costs are negative" errors in
  let errors :=
    push_if (js_lt (ComputationBreakdown.totals_risk totals) (of_Z 0))
      "Risk costs are negative" errors in
  let errors :=
    push_if (js_lt (ComputationBreakdown.grandTotal totals) (of_Z 0))
      "Grand total is negative" errors in
  {| Validation.valid := Nat.eqb (List.length errors) 0;
     Validation.errors := errors |}.

End Validators.

(** ** The views ([app/components]) *)

Set Implicit Arguments.
Set Maximal Implicit Insertion.

(** What the comparison view computes ([scenarioComparison.tsx]). *)
Module ComparisonView.
Record diff_t (num : Type) : Type := mk_diff {
  param : string;
  valueA : ScenarioComparison.value num;
  valueB : ScenarioComparison.value num
}.
Record deltas_t (num : Type) : Type := mk_deltas {
  baseTCO : num;
  adjustments : num;
  compliance : num;
  security : num;
  risk : num;
  grandTotal : num
}.
Record t (num : Type) : Type := mk {
  deltas : deltas_t num;
  percentageChange : num;
  paramDiffs : list (diff_t num)
}.
End ComparisonView.

(** The icons of the sensitivity view. *)
Inductive Icon : Set := faBolt | faUsers | faShieldHalved.

(** The input and the rows of the sensitivity view
    ([sensitivityAnalysis.tsx]). *)
Module SensitivityView.
Record input_t (num : Type) : Type := mk_input {
  energy : num;
  labor : num
}.
Record t (num : Type) : Type := mk {
  param : SensitivityParameter.t;
  label : string;
  icon : Icon;
  color : string;
  baseValue : num;
  perturbation : num;
  lowResult : num;
  highResult : num;
  delta : num;
  percentImpact : num
}.
End SensitivityView.

(** What the risk view computes ([riskModel.tsx]). *)
Module RiskView.
Record t (num : Type) : Type := mk {
  securityReductionFactor : num;
  adjustedProbability : num;
  expectedAnnualLoss : num
}.
End RiskView.

Unset Maximal Implicit Insertion.
Unset Implicit Arguments.

Section ComparisonViewCode.
Context {num : Type} `{JSNumber num} `{!JSFormat num}.
Local Open Scope js_scope.
Local Open Scope string_scope.

(** The [comparison] of the comparison view: nothing until both breakdowns
    and both scenarios are there. *)
Definition view_comparison
  (breakdownA breakdownB : option (ComputationBreakdown.t num))
  (scenarioA scenarioB : option (ScenarioParameters.t num))
  : option (ComparisonView.t num) :=
  match breakdownA, breakdownB, scenarioA, scenarioB with
  | Some breakdownA, Some breakdownB, Some scenarioA, Some scenarioB =>
      let totalsA := ComputationBreakdown.totals breakdownA in
      let totalsB := ComputationBreakdown.totals breakdownB in
      let deltas :=
        {| ComparisonView.baseTCO :=
             ComputationBreakdown.totals_baseTCO totalsB
             - ComputationBreakdown.totals_baseTCO totalsA;
           ComparisonView.adjustments :=
             ComputationBreakdown.totals_adjustments totalsB
             - ComputationBreakdown.totals_adjustments totalsA;
           ComparisonView.compliance :=
             ComputationBreakdown.totals_compliance totalsB
             - ComputationBreakdown.totals_compliance totalsA;
           ComparisonView.security :=
             ComputationBreakdown.totals_security totalsB
             - ComputationBreakdown.totals_security totalsA;
           ComparisonView.risk :=
             ComputationBreakdown.totals_risk totalsB
             - ComputationBreakdown.totals_risk totalsA;
           ComparisonView.grandTotal :=
             ComputationBreakdown.grandTotal totalsB
             - ComputationBreakdown.grandTotal totalsA |} in
      let percentageChange := view_percentageChange breakdownA breakdownB in
      let paramDiffs : list (ComparisonView.diff_t num) := [] in
      let paramDiffs :=
        push_if
          (negb (String.eqb
                   (Region_to_string (ScenarioParameters.region scenarioA))
                   (Region_to_string (ScenarioParameters.region scenarioB))))
          (ComparisonView.mk_diff "Region"
             (ScenarioComparison.Str
                (Region_to_string (ScenarioParameters.region scenarioA)))
             (ScenarioComparison.Str
                (Region_to_string (ScenarioParameters.region scenarioB))))
          paramDiffs in
      let timeA := ScenarioParameters.time scenarioA in
      let timeB := ScenarioParameters.time scenarioB in
      let paramDiffs :=
        push_if
          (strict_neq (TimeParameters.year timeA) (TimeParameters.year timeB))
          (ComparisonView.mk_diff "Year"
             (ScenarioComparison.Num (TimeParameters.year timeA))
             (ScenarioComparison.Num (TimeParameters.year timeB)))
          paramDiffs in
      let paramDiffs :=
        push_if
          (strict_neq (TimeParameters.escalationRate timeA)
                      (TimeParameters.escalationRate timeB))
          (ComparisonView.mk_diff "Escalation Rate"
             (ScenarioComparison.Str
                (toFixed (TimeParameters.escalationRate timeA * of_Z 100) 1
                 ++ "%"))
             (ScenarioComparison.Str
                (toFixed (TimeParameters.escalationRate timeB * of_Z 100) 1
                 ++ "%")))
          paramDiffs in
      let workloadA := ScenarioParameters.workload scenarioA in
      let workloadB := ScenarioParameters.workload scenarioB in
      let classA := WorkloadParameters.utilizationClass workloadA in
      let classB := WorkloadParameters.utilizationClass workloadB in
      let paramDiffs :=
        push_if
          (negb (String.eqb (WorkloadClass_to_string classA)
                            (WorkloadClass_to_string classB)))
          (ComparisonView.mk_diff "Workload Class"
             (ScenarioComparison.Str (WorkloadClass_to_string classA))
             (ScenarioComparison.Str (WorkloadClass_to_string classB)))
          paramDiffs in
      let aiA := WorkloadParameters.aiEnabled workloadA in
      let aiB := WorkloadParameters.aiEnabled workloadB in
      let paramDiffs :=
        push_if (negb (Bool.eqb aiA aiB))
          (ComparisonView.mk_diff "AI Mode"
             (ScenarioComparison.Str (if aiA then "On" else "Off"))
             (ScenarioComparison.Str (if aiB then "On" else "Off")))
          paramDiffs in
      let regA := ScenarioParameters.regulatoryIntensity scenarioA in
      let regB := ScenarioParameters.regulatoryIntensity scenarioB in
      let paramDiffs :=
        push_if
          (negb (String.eqb (RegulatoryIntensity_to_string regA)
                            (RegulatoryIntensity_to_string regB)))
          (ComparisonView.mk_diff "Regulatory Intensity"
             (ScenarioComparison.Str (RegulatoryIntensity_to_string regA))
             (ScenarioComparison.Str (RegulatoryIntensity_to_string regB)))
          paramDiffs in
      let investA :=
        SecurityParameters.annualInvestment
          (ScenarioParameters.security scenarioA) in
      let investB :=
        SecurityParameters.annualInvestment
          (ScenarioParameters.security scenarioB) in
      let paramDiffs :=
        push_if (strict_neq investA investB)
          (ComparisonView.mk_diff "Security Investment"
             (ScenarioComparison.Str ("$" ++ toLocaleString investA))
             (ScenarioComparison.Str ("$" ++ toLocaleString investB)))
          paramDiffs in
      Some {| ComparisonView.deltas := deltas;
              ComparisonView.percentageChange := percentageChange;
              ComparisonView.paramDiffs := paramDiffs |}
  | _, _, _, _ => None
  end.

End ComparisonViewCode.

Section AnalysisViews.
Context {num : Type} `{JSMath num}.
Local Open Scope js_scope.
Local Open Scope string_scope.

(** The [sensitivities] of the sensitivity view: no row until the breakdown
    and the active scenario are there. *)
Definition view_sensitivities
  (baseBreakdown : option (ComputationBreakdown.t num))
  (activeScenario : option (ScenarioParameters.t num))
  (baseTCOInput : SensitivityView.input_t num) (perturbation : num)
  : list (SensitivityView.t num) :=
  match baseBreakdown, activeScenario with
  | Some baseBreakdown, Some activeScenario =>
      let baseTotal :=
        ComputationBreakdown.grandTotal
          (ComputationBreakdown.totals baseBreakdown) in
      let energy := SensitivityView.energy baseTCOInput in
      let labor := SensitivityView.labor baseTCOInput in
      let energyLow := energy * (of_Z 1 - perturbation) in
      let energyHigh := energy * (of_Z 1 + perturbation) in
      let energyDelta := energy * perturbation in
      let laborLow := labor * (of_Z 1 - perturbation) in
      let laborHigh := labor * (of_Z 1 + perturbation) in
      let laborDelta := labor * perturbation in
      let securityBase :=
        SecurityParameters.annualInvestment
          (ScenarioParameters.security activeScenario) in
      let securityLow := securityBase * (of_Z 1 - perturbation) in
      let securityHigh := securityBase * (of_Z 1 + perturbation) in
      let securityDelta := securityBase * perturbation in
      let combined :=
        ComputationBreakdown.combined
          (ComputationBreakdown.multipliers baseBreakdown) in
      let energyImpact := energyDelta * MultiplierSet.energy combined in
      let laborImpact := laborDelta * MultiplierSet.labor combined in
      [ {| SensitivityView.param := SensitivityParameter.energy;
           SensitivityView.label := "Energy Cost";
           SensitivityView.icon := faBolt;
           SensitivityView.color := "text-amber-500";
           SensitivityView.baseValue := energy;
           SensitivityView.perturbation := perturbation;
           SensitivityView.lowResult := baseTotal - energyImpact;
           SensitivityView.highResult := baseTotal + energyImpact;
           SensitivityView.delta := energyImpact;
           SensitivityView.percentImpact :=
             (energyImpact / baseTotal) * of_Z 100 |};
        {| SensitivityView.param := SensitivityParameter.labor;
           SensitivityView.label := "Labor Cost";
           SensitivityView.icon := faUsers;
           SensitivityView.color := "text-blue-500";
           SensitivityView.baseValue := labor;
           SensitivityView.perturbation := perturbation;
           SensitivityView.lowResult := baseTotal - laborImpact;
           SensitivityView.highResult := baseTotal + laborImpact;
           SensitivityView.delta := laborImpact;
           SensitivityView.percentImpact :=
             (laborImpact / baseTotal) * of_Z 100 |};
        {| SensitivityView.param := SensitivityParameter.security;
           SensitivityView.label := "Security Investment";
           SensitivityView.icon := faShieldHalved;
           SensitivityView.color := "text-indigo-500";
           SensitivityView.baseValue := securityBase;
           SensitivityView.perturbation := perturbation;
           SensitivityView.lowResult :=
             baseTotal - securityDelta * decimal 5 1;
           SensitivityView.highResult :=
             baseTotal + securityDelta * decimal 5 1;
           SensitivityView.delta := securityDelta * decimal 5 1;
           SensitivityView.percentImpact :=
             ((securityDelta * decimal 5 1) / baseTotal) * of_Z 100 |} ]
  | _, _ => []
  end.

(** The numbers of the risk view: nothing without an active scenario. *)
Definition view_risk (activeScenario : option (ScenarioParameters.t num))
  (totalSecurityInvestment : num) : option (RiskView.t num) :=
  match activeScenario with
  | None => None
  | Some activeScenario =>
      let risk := ScenarioParameters.risk activeScenario in
      let referenceInvestment : num := of_Z 50000 in
      let maxInvestment : num := of_Z 500000 in
      let investmentRatio :=
        Math_log (of_Z 1 + totalSecurityInvestment / referenceInvestment)
        / Math_log (of_Z 1 + maxInvestment / referenceInvestment) in
      let securityReductionFactor :=
        Math_min (RiskParameters.maxSecurityReduction risk)
                 (investmentRatio * RiskParameters.maxSecurityReduction risk) in
      let adjustedProbability :=
        RiskParameters.baseIncidentProbability risk
        * (of_Z 1 - securityReductionFactor) in
      let expectedAnnualLoss :=
        adjustedProbability * RiskParameters.averageImpactCost risk in
      Some {| RiskView.securityReductionFactor := securityReductionFactor;
              RiskView.adjustedProbability := adjustedProbability;
              RiskView.expectedAnnualLoss := expectedAnnualLoss |}
  end.

(** The investment that the page ([app/page.tsx]) hands to the risk view:
    [currentBreakdown?.securityCosts.total || 0]. *)
Definition page_totalSecurityInvestment
  (currentBreakdown : option (ComputationBreakdown.t num)) : num :=
  or_default
    (option_map
       (fun breakdown =>
          SecurityCosts.total (ComputationBreakdown.securityCosts breakdown))
       currentBreakdown)
    (of_Z 0).

End AnalysisViews.

(** ** The scenario store ([app/context/scenarioContext.tsx]) *)

Section Store.
Context {num : Type}.

(** [prev.map(f)] for an [f] that may read the clock, left to right. *)
Fixpoint mapM {A B : Type} (f : A -> IO B) (l : list A) : IO (list B) :=
  match l with
  | [] => ret []
  | x :: rest => y <- f x ;; ys <- mapM f rest ;; ret (y :: ys)
  end.

(** What [setBaseline] makes of one scenario:
    [{...s, isBaseline: s.id === id, updatedAt: ...}]. *)
Definition setBaseline_one (id : string) (s : ScenarioParameters.t num)
  : IO (ScenarioParameters.t num) :=
  let isBaseline := String.eqb (ScenarioParameters.id s) id in
  updatedAt <-
    (if String.eqb (ScenarioParameters.id s) id
     then new_Date_toISOString
     else ret (ScenarioParameters.updatedAt s)) ;;
  ret {| ScenarioParameters.id := ScenarioParameters.id s;
         ScenarioParameters.name := ScenarioParameters.name s;
         ScenarioParameters.description := ScenarioParameters.description s;
         ScenarioParameters.region := ScenarioParameters.region s;
         ScenarioParameters.time := ScenarioParameters.time s;
         ScenarioParameters.workload := ScenarioParameters.workload s;
         ScenarioParameters.regulatoryIntensity :=
           ScenarioParameters.regulatoryIntensity s;
         ScenarioParameters.security := ScenarioParameters.security s;
         ScenarioParameters.risk := ScenarioParameters.risk s;
         ScenarioParameters.isBaseline := isBaseline;
         ScenarioParameters.createdAt := ScenarioParameters.createdAt s;
         ScenarioParameters.updatedAt := updatedAt |}.

(** The state update of [setBaseline]: the new list of scenarios. *)
Definition setBaseline (id : string) (prev : list (ScenarioParameters.t num))
  : IO (list (ScenarioParameters.t num)) :=
  mapM (setBaseline_one id) prev.

(** [scenarios.find((s) => s.isBaseline) || null] *)
Definition getBaselineScenario (scenarios : list (ScenarioParameters.t num))
  : option (ScenarioParameters.t num) :=
  List.find ScenarioParameters.isBaseline scenarios.

End Store.

(** ** The life cycle of scenarios
    ([app/schemas/schema.ts], [app/context/scenarioContext.tsx],
    [app/services/scenarioStorage.ts]) *)

Set Implicit Arguments.
Set Maximal Implicit Insertion.

Module DefaultScenarioValues.
Record t (num : Type) : Type := mk {
  region : Region.t;
  time : TimeParameters.t num;
  workload : WorkloadParameters.t;
  regulatoryIntensity : RegulatoryIntensity.t;
  security : SecurityParameters.t num;
  risk : RiskParameters.t num;
  isBaseline : bool
}.
End DefaultScenarioValues.

(** [Partial<ScenarioParameters>]: every key may be missing. *)
Module PartialScenario.
Record t (num : Type) : Type := mk {
  id : option string;
  name : option string;
  description : option string;
  region : option Region.t;
  time : option (TimeParameters.t num);
  workload : option WorkloadParameters.t;
  regulatoryIntensity : option RegulatoryIntensity.t;
  security : option (SecurityParameters.t num);
  risk : option (RiskParameters.t num);
  isBaseline : option bool;
  createdAt : option string;
  updatedAt : option string
}.
End PartialScenario.

(** The state of [ScenarioProvider]: the scenarios, the id of the active one
    and the [Map] of computation results, read by its key. *)
Module StoreState.
Record t (num : Type) : Type := mk {
  scenarios : list (ScenarioParameters.t num);
  activeScenarioId : option string;
  computationResults : string -> option (ComputationBreakdown.t num)
}.
End StoreState.

Unset Maximal Implicit Insertion.
Unset Implicit Arguments.

Section Lifecycle.
Context {num : Type} `{JSNumber num}.
Local Open Scope string_scope.

(** [DEFAULT_SCENARIO_VALUES] *)
Definition DEFAULT_SCENARIO_VALUES : DefaultScenarioValues.t num :=
  {| DefaultScenarioValues.region := Region.US;
     DefaultScenarioValues.time :=
       TimeParameters.mk (of_Z 2024) (decimal 25 3) (Some (decimal 15 1)) false;
     DefaultScenarioValues.workload :=
       WorkloadParameters.mk WorkloadClass.Medium false;
     DefaultScenarioValues.regulatoryIntensity := RegulatoryIntensity.Medium;
     DefaultScenarioValues.security :=
       SecurityParameters.mk (of_Z 100000) (of_Z 500) (of_Z 100) (of_Z 50)
         (of_Z 50000) (of_Z 50);
     DefaultScenarioValues.risk :=
       RiskParameters.mk (decimal 15 2) (of_Z 500000) (decimal 8 1);
     DefaultScenarioValues.isBaseline := false |}.

(** [s || d] on a string that may be missing: the empty string is falsy. *)
Definition string_or (s : option string) (d : string) : string :=
  match s with
  | Some x => if String.eqb x "" then d else x
  | None => d
  end.

(** [x ?? d] *)
Definition nullish {A : Type} (x : option A) (d : A) : A :=
  match x with
  | Some a => a
  | None => d
  end.

(** [createDefaultScenario]. [uuidv4()] draws an id that the caller does not
    control: the functions below take the id drawn as [freshId]. *)
Definition createDefaultScenario (freshId : string) (name : option string)
  : IO (ScenarioParameters.t num) :=
  now <- new_Date_toISOString ;;
  ret {| ScenarioParameters.id := freshId;
         ScenarioParameters.name := string_or name "New Scenario";
         ScenarioParameters.description := Some "";
         ScenarioParameters.region :=
           DefaultScenarioValues.region DEFAULT_SCENARIO_VALUES;
         ScenarioParameters.time :=
           DefaultScenarioValues.time DEFAULT_SCENARIO_VALUES;
         ScenarioParameters.workload :=
           DefaultScenarioValues.workload DEFAULT_SCENARIO_VALUES;
         ScenarioParameters.regulatoryIntensity :=
           DefaultScenarioValues.regulatoryIntensity DEFAULT_SCENARIO_VALUES;
         ScenarioParameters.security :=
           DefaultScenarioValues.security DEFAULT_SCENARIO_VALUES;
         ScenarioParameters.risk :=
           DefaultScenarioValues.risk DEFAULT_SCENARIO_VALUES;
         ScenarioParameters.isBaseline := false;
         ScenarioParameters.createdAt := now;
         ScenarioParameters.updatedAt := now |}.

(** [defaultScenario.isBaseline = true] *)
Definition with_isBaseline (s : ScenarioParameters.t num) (b : bool)
  : ScenarioParameters.t num :=
  {| ScenarioParameters.id := ScenarioParameters.id s;
     ScenarioParameters.name := ScenarioParameters.name s;
     ScenarioParameters.description := ScenarioParameters.description s;
     ScenarioParameters.region := ScenarioParameters.region s;
     ScenarioParameters.time := ScenarioParameters.time s;
     ScenarioParameters.workload := ScenarioParameters.workload s;
     ScenarioParameters.regulatoryIntensity :=
       ScenarioParameters.regulatoryIntensity s;
     ScenarioParameters.security := ScenarioParameters.security s;
     ScenarioParameters.risk := ScenarioParameters.risk s;
     ScenarioParameters.isBaseline := b;
     ScenarioParameters.createdAt := ScenarioParameters.createdAt s;
     ScenarioParameters.updatedAt := ScenarioParameters.updatedAt s |}.

(** [(s) => s.id === id] *)
Definition has_id (id : string) (s : ScenarioParameters.t num) : bool :=
  String.eqb (ScenarioParameters.id s) id.

(** [activeScenarioId === id] on an id that may be [null]. *)
Definition is_active (activeScenarioId : option string) (id : string) : bool :=
  match activeScenarioId with
  | Some a => String.eqb a id
  | None => false
  end.

(** [deleteScenario]: both state updates, on the state that the callback
    sees. *)
Definition deleteScenario (freshId : string) (id : string)
  (state : StoreState.t num) : IO (StoreState.t num) :=
  let prev := StoreState.scenarios state in
  let filtered := filter (fun s => negb (has_id id s)) prev in
  let newMap :=
    fun key : string =>
      if String.eqb key id then None
      else StoreState.computationResults state key in
  match filtered with
  | [] =>
      (* no scenarios left: create a default one *)
      defaultScenario <-
        createDefaultScenario freshId (Some "Default Scenario") ;;
      let defaultScenario := with_isBaseline defaultScenario true in
      ret {| StoreState.scenarios := [defaultScenario];
             StoreState.activeScenarioId :=
               Some (ScenarioParameters.id defaultScenario);
             StoreState.computationResults := newMap |}
  | first :: _ =>
      ret {| StoreState.scenarios := filtered;
             StoreState.activeScenarioId :=
               if is_active (StoreState.activeScenarioId state) id
               then Some (ScenarioParameters.id first)
               else StoreState.activeScenarioId state;
             StoreState.computationResults := newMap |}
  end.

(** [cloneScenario]: the clone, if the id is known, and the state after. *)
Definition cloneScenario (freshId : string) (id : string)
  (newName : option string) (state : StoreState.t num)
  : IO (option (ScenarioParameters.t num) * StoreState.t num) :=
  match List.find (has_id id) (StoreState.scenarios state) with
  | None => ret (None, state)
  | Some original =>
      now <- new_Date_toISOString ;;
      let cloned :=
        {| ScenarioParameters.id := freshId;
           ScenarioParameters.name :=
             string_or newName (ScenarioParameters.name original ++ " (Copy)");
           ScenarioParameters.description :=
             ScenarioParameters.description original;
           ScenarioParameters.region := ScenarioParameters.region original;
           ScenarioParameters.time := ScenarioParameters.time original;
           ScenarioParameters.workload := ScenarioParameters.workload original;
           ScenarioParameters.regulatoryIntensity :=
             ScenarioParameters.regulatoryIntensity original;
           ScenarioParameters.security := ScenarioParameters.security original;
           ScenarioParameters.risk := ScenarioParameters.risk original;
           ScenarioParameters.isBaseline := false;
           ScenarioParameters.createdAt := now;
           ScenarioParameters.updatedAt := now |} in
      ret (Some cloned,
           {| StoreState.scenarios := StoreState.scenarios state ++ [cloned];
              StoreState.activeScenarioId := Some (ScenarioParameters.id cloned);
              StoreState.computationResults :=
                StoreState.computationResults state |})
  end.

(** [o?.f ?? d] *)
Definition field_or {A B : Type} (o : option A) (f : A -> B) (d : B) : B :=
  nullish (option_map f o) d.

(** [fillScenarioDefaults]. The id of a partial scenario without one is
    [crypto.randomUUID?.()], which may be missing, or else
    ["scenario-" + Date.now()]: the function takes both readings. A region
    and a regulatory intensity are strings that are never empty, so [||] on
    them is [??]. *)
Definition fillScenarioDefaults (randomUUID : option string) (dateNow : string)
  (partial : PartialScenario.t num) : IO (ScenarioParameters.t num) :=
  let d := DEFAULT_SCENARIO_VALUES in
  let time := PartialScenario.time partial in
  let workload := PartialScenario.workload partial in
  let security := PartialScenario.security partial in
  let risk := PartialScenario.risk partial in
  now <- new_Date_toISOString ;;
  ret {| ScenarioParameters.id :=
           string_or (PartialScenario.id partial)
             (string_or randomUUID ("scenario-" ++ dateNow));
         ScenarioParameters.name :=
           string_or (PartialScenario.name partial) "Untitled Scenario";
         ScenarioParameters.description := PartialScenario.description partial;
         ScenarioParameters.region :=
           nullish (PartialScenario.region partial)
             (DefaultScenarioValues.region d);
         ScenarioParameters.time :=
           {| TimeParameters.year :=
                field_or time TimeParameters.year
                  (TimeParameters.year (DefaultScenarioValues.time d));
              TimeParameters.escalationRate :=
                field_or time TimeParameters.escalationRate
                  (TimeParameters.escalationRate
                     (DefaultScenarioValues.time d));
              TimeParameters.shockFactor :=
                match time with
                | Some t =>
                    match TimeParameters.shockFactor t with
                    | Some f => Some f
                    | None =>
                        TimeParameters.shockFactor
                          (DefaultScenarioValues.time d)
                    end
                | None =>
                    TimeParameters.shockFactor (DefaultScenarioValues.time d)
                end;
              TimeParameters.shockEnabled :=
                field_or time TimeParameters.shockEnabled
                  (TimeParameters.shockEnabled
                     (DefaultScenarioValues.time d)) |};
         ScenarioParameters.workload :=
           {| WorkloadParameters.utilizationClass :=
                field_or workload WorkloadParameters.utilizationClass
                  (WorkloadParameters.utilizationClass
                     (DefaultScenarioValues.workload d));
              WorkloadParameters.aiEnabled :=
                field_or workload WorkloadParameters.aiEnabled
                  (WorkloadParameters.aiEnabled
                     (DefaultScenarioValues.workload d)) |};
         ScenarioParameters.regulatoryIntensity :=
           nullish (PartialScenario.regulatoryIntensity partial)
             (DefaultScenarioValues.regulatoryIntensity d);
         ScenarioParameters.security :=
           {| SecurityParameters.annualInvestment :=
                field_or security SecurityParameters.annualInvestment
                  (SecurityParameters.annualInvestment
                     (DefaultScenarioValues.security d));
              SecurityParameters.siemPerNode :=
                field_or security SecurityParameters.siemPerNode
                  (SecurityParameters.siemPerNode
                     (DefaultScenarioValues.security d));
              SecurityParameters.iamPerUser :=
                field_or security SecurityParameters.iamPerUser
                  (SecurityParameters.iamPerUser
                     (DefaultScenarioValues.security d));
              SecurityParameters.encryptionPerTB :=
                field_or security SecurityParameters.encryptionPerTB
                  (SecurityParameters.encryptionPerTB
                     (DefaultScenarioValues.security d));
              SecurityParameters.incidentResponseRetainer :=
                field_or security SecurityParameters.incidentResponseRetainer
                  (SecurityParameters.incidentResponseRetainer
                     (DefaultScenarioValues.security d));
              SecurityParameters.userCount :=
                field_or security SecurityParameters.userCount
                  (SecurityParameters.userCount
                     (DefaultScenarioValues.security d)) |};
         ScenarioParameters.risk :=
           {| RiskParameters.baseIncidentProbability :=
                field_or risk RiskParameters.baseIncidentProbability
                  (RiskParameters.baseIncidentProbability
                     (DefaultScenarioValues.risk d));
              RiskParameters.averageImpactCost :=
                field_or risk RiskParameters.averageImpactCost
                  (RiskParameters.averageImpactCost
                     (DefaultScenarioValues.risk d));
              RiskParameters.maxSecurityReduction :=
                field_or risk RiskParameters.maxSecurityReduction
                  (RiskParameters.maxSecurityReduction
                     (DefaultScenarioValues.risk d)) |};
         ScenarioParameters.isBaseline :=
           nullish (PartialScenario.isBaseline partial) false;
         ScenarioParameters.createdAt :=
           string_or (PartialScenario.createdAt partial) now;
         ScenarioParameters.updatedAt :=
           string_or (PartialScenario.updatedAt partial) now |}.

(** [PRESET_SCENARIOS] *)
Definition preset (name description : string) (region : Region.t)
  (time : TimeParameters.t num) (workload : WorkloadParameters.t)
  (regulatoryIntensity : RegulatoryIntensity.t) : PartialScenario.t num :=
  {| PartialScenario.id := None;
     PartialScenario.name := Some name;
     PartialScenario.description := Some description;
     PartialScenario.region := Some region;
     PartialScenario.time := Some time;
     PartialScenario.workload := Some workload;
     PartialScenario.regulatoryIntensity := Some regulatoryIntensity;
     PartialScenario.security := None;
     PartialScenario.risk := None;
     PartialScenario.isBaseline := None;
     PartialScenario.createdAt := None;
     PartialScenario.updatedAt := None |}.

Definition PRESET_SCENARIOS : list (PartialScenario.t num) :=
  [ preset "EU 2024 Baseline"
      "European Union baseline scenario with standard compliance" Region.EU
      (TimeParameters.mk (of_Z 2024) (decimal 25 3) (Some (decimal 15 1)) false)
      (WorkloadParameters.mk WorkloadClass.Medium false)
      RegulatoryIntensity.Medium;
    preset "US 2024 Baseline" "United States baseline scenario" Region.US
      (TimeParameters.mk (of_Z 2024) (decimal 25 3) (Some (decimal 15 1)) false)
      (WorkloadParameters.mk WorkloadClass.Medium false)
      RegulatoryIntensity.Medium;
    preset "EU 2027 High Regulation"
      "Future EU scenario with high regulatory requirements" Region.EU
      (TimeParameters.mk (of_Z 2027) (decimal 3 2) (Some (decimal 15 1)) false)
      (WorkloadParameters.mk WorkloadClass.Medium false)
      RegulatoryIntensity.High;
    preset "US AI Datacenter 2025" "AI-accelerated datacenter in the US"
      Region.US
      (TimeParameters.mk (of_Z 2025) (decimal 25 3) (Some (decimal 15 1)) false)
      (WorkloadParameters.mk WorkloadClass.High true)
      RegulatoryIntensity.Medium;
    preset "Global AI 2026 + Energy Shock"
      "Global AI deployment with energy price shock scenario" Region.Global
      (TimeParameters.mk (of_Z 2026) (decimal 3 2) (Some (decimal 15 1)) true)
      (WorkloadParameters.mk WorkloadClass.High true)
      RegulatoryIntensity.Medium ].

(** [getPresetScenario], on an index that is an integer. *)
Definition getPresetScenario (randomUUID : option string) (dateNow : string)
  (index : Z) : IO (option (ScenarioParameters.t num)) :=
  if (index <? 0)%Z || (index >=? Z.of_nat (List.length PRESET_SCENARIOS))%Z
  then ret None
  else
    match nth_error PRESET_SCENARIOS (Z.to_nat index) with
    | Some partial =>
        scenario <- fillScenarioDefaults randomUUID dateNow partial ;;
        ret (Some scenario)
    | None => ret None
    end.

End Lifecycle.

(** ** Vocabulary of the statements *)

Section Frame.
Context {num : Type}.

(** The fields of a breakdown outside the risk layer. *)
Definition same_outside_risk (r1 r2 : ComputationBreakdown.t num) : Prop :=
  ComputationBreakdown.scenarioId r1 = ComputationBreakdown.scenarioId r2
  /\ ComputationBreakdown.scenarioName r1 = ComputationBreakdown.scenarioName r2
  /\ ComputationBreakdown.baseTCO r1 = ComputationBreakdown.baseTCO r2
  /\ ComputationBreakdown.multipliers r1 = ComputationBreakdown.multipliers r2
  /\ ComputationBreakdown.adjustments r1 = ComputationBreakdown.adjustments r2
  /\ ComputationBreakdown.complianceCosts r1
     = ComputationBreakdown.complianceCosts r2
  /\ ComputationBreakdown.securityCosts r1
     = ComputationBreakdown.securityCosts r2
  /\ ComputationBreakdown.totals_baseTCO (ComputationBreakdown.totals r1)
     = ComputationBreakdown.totals_baseTCO (ComputationBreakdown.totals r2)
  /\ ComputationBreakdown.totals_adjustments (ComputationBreakdown.totals r1)
     = ComputationBreakdown.totals_adjustments (ComputationBreakdown.totals r2)
  /\ ComputationBreakdown.totals_compliance (ComputationBreakdown.totals r1)
     = ComputationBreakdown.totals_compliance (ComputationBreakdown.totals r2)
  /\ ComputationBreakdown.totals_security (ComputationBreakdown.totals r1)
     = ComputationBreakdown.totals_security (ComputationBreakdown.totals r2).

End Frame.

(** *** In real arithmetic *)

Local Open Scope R_scope.

(** The reduction factor that [calculateRiskCosts] reports. *)
Definition reductionFactor (scenario : ScenarioParameters.t R)
  (totalSecurityInvestment : R) : R :=
  RiskCosts.securityReductionFactor
    (calculateRiskCosts scenario totalSecurityInvestment).

(** The escalation factor inside [getTimeMultipliers]: the set's labor (and
    cooling) multiplier, which carries it without the energy shock. *)
Definition escalationFactor (time : TimeParameters.t R) : R :=
  MultiplierSet.labor (getTimeMultipliers time).

(** The grand total of a scenario. *)
Definition grandTotalOf (baseTCO : BaseTCOInput.t R)
  (scenario : ScenarioParameters.t R) (context : ComputationContext.t R)
  (clock : Clock) : R :=
  ComputationBreakdown.grandTotal
    (ComputationBreakdown.totals
       (run (computeScenarioTCO baseTCO scenario context) clock)).

(** Inputs in the ranges that the scenario schema ([app/schemas/schema.ts])
    and the data model give them: costs, rates and counts are not negative. *)
Definition valid_baseTCO (b : BaseTCOInput.t R) : Prop :=
  Forall (fun v => 0 <= v) (BaseTCOInput.Object_values b).

Definition valid_context (c : ComputationContext.t R) : Prop :=
  0 <= ComputationContext.nodeCount c
  /\ 0 <= ComputationContext.totalStorageTB c.

Definition valid_time (t : TimeParameters.t R) : Prop :=
  0 <= TimeParameters.escalationRate t
  /\ match TimeParameters.shockFactor t with
     | Some f => 1 <= f
     | None => True
     end.

Definition valid_security (s : SecurityParameters.t R) : Prop :=
  0 <= SecurityParameters.annualInvestment s
  /\ 0 <= SecurityParameters.siemPerNode s
  /\ 0 <= SecurityParameters.iamPerUser s
  /\ 0 <= SecurityParameters.encryptionPerTB s
  /\ 0 <= SecurityParameters.incidentResponseRetainer s
  /\ 0 <= SecurityParameters.userCount s.

Definition valid_risk (r : RiskParameters.t R) : Prop :=
  0 <= RiskParameters.baseIncidentProbability r <= 1
  /\ 0 <= RiskParameters.averageImpactCost r
  /\ 0 <= RiskParameters.maxSecurityReduction r <= 1.

Definition valid_scenario (s : ScenarioParameters.t R) : Prop :=
  valid_time (ScenarioParameters.time s)
  /\ valid_security (ScenarioParameters.security s)
  /\ valid_risk (ScenarioParameters.risk s).

(** The order of intensity on each enumerated axis. *)
Definition WorkloadClass_rank (c : WorkloadClass.t) : nat :=
  match c with
  | WorkloadClass.Low => 0
  | WorkloadClass.Medium => 1
  | WorkloadClass.High => 2
  end.

Definition RegulatoryIntensity_rank (i : RegulatoryIntensity.t) : nat :=
  match i with
  | RegulatoryIntensity.Low => 0
  | RegulatoryIntensity.Medium => 1
  | RegulatoryIntensity.High => 2
  end.

(** A workload is at most as intense as another: its class is no higher and
    it is AI-accelerated only if the other is. *)
Definition workload_le (w w' : WorkloadParameters.t) : Prop :=
  (WorkloadClass_rank (WorkloadParameters.utilizationClass w)
   <= WorkloadClass_rank (WorkloadParameters.utilizationClass w'))%nat
  /\ (WorkloadParameters.aiEnabled w = true
      -> WorkloadParameters.aiEnabled w' = true).

(** The three multipliers that [applyMultipliers] reads, compared. *)
Definition ms_le (m m' : MultiplierSet.t R) : Prop :=
  MultiplierSet.energy m <= MultiplierSet.energy m'
  /\ MultiplierSet.labor m <= MultiplierSet.labor m'
  /\ MultiplierSet.cooling m <= MultiplierSet.cooling m'.

Definition ms_nonneg (m : MultiplierSet.t R) : Prop :=
  0 <= MultiplierSet.energy m
  /\ 0 <= MultiplierSet.labor m
  /\ 0 <= MultiplierSet.cooling m.

(** *** In binary64 *)

(** The number 0 in binary64. *)
Definition zero64 : PrimFloat.float := of_Z 0.

(** A breakdown in which every amount is zero, and the same breakdown with a
    base cost. *)
Definition zeroBreakdown : ComputationBreakdown.t PrimFloat.float :=
  {| ComputationBreakdown.scenarioId :=
       ScenarioParameters.id (num := PrimFloat.float) testScenario;
     ComputationBreakdown.scenarioName := "Test"%string;
     ComputationBreakdown.baseTCO :=
       ComputationBreakdown.mk_baseTCO zero64 zero64 zero64 zero64 zero64
         zero64 zero64 zero64 zero64;
     ComputationBreakdown.multipliers :=
       ComputationBreakdown.mk_multipliers neutralMultipliers
         (ComputationBreakdown.mk_time (of_Z 1) (Some (of_Z 1)))
         neutralMultipliers
         (ComputationBreakdown.mk_regulatory (of_Z 1))
         neutralMultipliers;
     ComputationBreakdown.adjustments :=
       Adjustments.mk zero64 zero64 zero64 zero64;
     ComputationBreakdown.complianceCosts :=
       ComplianceCosts.mk zero64 zero64 zero64 zero64 zero64
         (ComplianceCosts.mk_breakdown zero64 zero64 zero64 zero64);
     ComputationBreakdown.securityCosts :=
       SecurityCosts.mk zero64 zero64 zero64 zero64 zero64;
     ComputationBreakdown.riskCosts :=
       RiskCosts.mk zero64 zero64 zero64
         (RiskCosts.mk_breakdown zero64 zero64 zero64);
     ComputationBreakdown.totals :=
       ComputationBreakdown.mk_totals zero64 zero64 zero64 zero64 zero64 zero64;
     ComputationBreakdown.calculatedAt := "2024-06-01T12:00:00.000Z"%string |}.

Definition with_baseTotal (r : ComputationBreakdown.t PrimFloat.float)
  (v : PrimFloat.float) : ComputationBreakdown.t PrimFloat.float :=
  {| ComputationBreakdown.scenarioId := ComputationBreakdown.scenarioId r;
     ComputationBreakdown.scenarioName := ComputationBreakdown.scenarioName r;
     ComputationBreakdown.baseTCO :=
       ComputationBreakdown.mk_baseTCO v zero64 zero64 zero64 zero64 zero64
         zero64 zero64 v;
     ComputationBreakdown.multipliers := ComputationBreakdown.multipliers r;
     ComputationBreakdown.adjustments := ComputationBreakdown.adjustments r;
     ComputationBreakdown.complianceCosts :=
       ComputationBreakdown.complianceCosts r;
     ComputationBreakdown.securityCosts := ComputationBreakdown.securityCosts r;
     ComputationBreakdown.riskCosts := ComputationBreakdown.riskCosts r;
     ComputationBreakdown.totals :=
       ComputationBreakdown.mk_totals v zero64 zero64 zero64 zero64 v;
     ComputationBreakdown.calculatedAt := ComputationBreakdown.calculatedAt r |}.

(** The set whose energy multiplier is [m / 10], neutral elsewhere. *)
Definition energyTenths (m : Z) : MultiplierSet.t PrimFloat.float :=
  MultiplierSet.mk (decimal m 1) (of_Z 1) (of_Z 1) (of_Z 1) (of_Z 1).



(** The eight base costs of [b], with the keys inserted in another order:
    servers and storage first, land third. *)
Definition landThird {num : Type} (b : BaseTCOInput.t num) : BaseTCOInput.t num :=
  BaseTCOInput.make (BaseTCOInput.land b) (BaseTCOInput.servers b)
    (BaseTCOInput.storage b) (BaseTCOInput.network b)
    (BaseTCOInput.powerDistribution b) (BaseTCOInput.energy b)
    (BaseTCOInput.software b) (BaseTCOInput.labor b)
    [BaseTCOInput.Servers; BaseTCOInput.Storage; BaseTCOInput.Land;
     BaseTCOInput.Network; BaseTCOInput.PowerDistribution; BaseTCOInput.Energy;
     BaseTCOInput.Software; BaseTCOInput.Labor]
    eq_refl.

(** The percentage that [compareScenarios] reports for two breakdowns. *)
Definition percentageChangeOf
  (breakdownA breakdownB : ComputationBreakdown.t PrimFloat.float)
  : PrimFloat.float :=
  ScenarioComparison.percentageChange
    (ScenarioComparison.deltas
       (compareScenarios breakdownA breakdownB testScenario testScenario)).

(** The engine read in real arithmetic: the class operations become the
    operations of [R]. *)
Ltac js_real := cbn in *.

(** *** For the further properties *)

(** The breakdown of a scenario, in real arithmetic. *)
Definition breakdownOf (baseTCO : BaseTCOInput.t R)
  (scenario : ScenarioParameters.t R) (context : ComputationContext.t R)
  (clock : Clock) : ComputationBreakdown.t R :=
  run (computeScenarioTCO baseTCO scenario context) clock.

(** The three breakdowns of a sensitivity analysis, in real arithmetic. *)
Definition sensitivityOf (baseTCO : BaseTCOInput.t R)
  (scenario : ScenarioParameters.t R) (context : ComputationContext.t R)
  (parameter : SensitivityParameter.t) (perturbationPercent : R)
  (clock : Clock) : Sensitivity.t R :=
  run (calculateSensitivity baseTCO scenario context parameter
         perturbationPercent) clock.

(** The grand total of a breakdown. *)
Definition grandTotalIn (r : ComputationBreakdown.t R) : R :=
  ComputationBreakdown.grandTotal (ComputationBreakdown.totals r).

(** Every factor of a set is positive: the invariant of a [MultiplierSet]. *)
Definition ms_positive (m : MultiplierSet.t R) : Prop :=
  0 < MultiplierSet.energy m
  /\ 0 < MultiplierSet.labor m
  /\ 0 < MultiplierSet.compliance m
  /\ 0 < MultiplierSet.cooling m
  /\ 0 < MultiplierSet.monitoring m.

(** The layers of a breakdown that the scenario alone decides, and the base
    costs other than energy and labor. *)
Definition same_scenario_layers {num : Type}
  (r1 r2 : ComputationBreakdown.t num) : Prop :=
  ComputationBreakdown.scenarioId r1 = ComputationBreakdown.scenarioId r2
  /\ ComputationBreakdown.scenarioName r1 = ComputationBreakdown.scenarioName r2
  /\ ComputationBreakdown.multipliers r1 = ComputationBreakdown.multipliers r2
  /\ ComputationBreakdown.complianceCosts r1
     = ComputationBreakdown.complianceCosts r2
  /\ ComputationBreakdown.securityCosts r1
     = ComputationBreakdown.securityCosts r2
  /\ ComputationBreakdown.riskCosts r1 = ComputationBreakdown.riskCosts r2
  /\ Adjustments.coolingAdjustment (ComputationBreakdown.adjustments r1)
     = Adjustments.coolingAdjustment (ComputationBreakdown.adjustments r2)
  /\ ComputationBreakdown.land (ComputationBreakdown.baseTCO r1)
     = ComputationBreakdown.land (ComputationBreakdown.baseTCO r2)
  /\ ComputationBreakdown.servers (ComputationBreakdown.baseTCO r1)
     = ComputationBreakdown.servers (ComputationBreakdown.baseTCO r2)
  /\ ComputationBreakdown.storage (ComputationBreakdown.baseTCO r1)
     = ComputationBreakdown.storage (ComputationBreakdown.baseTCO r2)
  /\ ComputationBreakdown.network (ComputationBreakdown.baseTCO r1)
     = ComputationBreakdown.network (ComputationBreakdown.baseTCO r2)
  /\ ComputationBreakdown.powerDistribution (ComputationBreakdown.baseTCO r1)
     = ComputationBreakdown.powerDistribution (ComputationBreakdown.baseTCO r2)
  /\ ComputationBreakdown.software (ComputationBreakdown.baseTCO r1)
     = ComputationBreakdown.software (ComputationBreakdown.baseTCO r2).

(** The combined set of a scenario, as [computeScenarioTCO] forms it. *)
Definition combinedOf (scenario : ScenarioParameters.t R) : MultiplierSet.t R :=
  combineMultipliers
    [getRegionMultipliers (ScenarioParameters.region scenario);
     getTimeMultipliers (ScenarioParameters.time scenario);
     getWorkloadMultipliers (ScenarioParameters.workload scenario)].

(** The names of the differences that the comparison view lists, the
    escalation rate left out. *)
Definition view_names_without_rate {num : Type}
  (diffs : list (ComparisonView.diff_t num)) : list string :=
  map ComparisonView.param
    (filter
       (fun d =>
          negb (String.eqb (ComparisonView.param d) "Escalation Rate"%string))
       diffs).

(** The shock that the time axis applies to energy: the factor when the
    shock is enabled and the factor is there and not zero, 1 otherwise. *)
Definition effectiveShock (time : TimeParameters.t R) : R :=
  if TimeParameters.shockEnabled time
  then match TimeParameters.shockFactor time with
       | Some f => if Req_dec_T f 0 then 1 else f
       | None => 1
       end
  else 1.

(** What [setBaseline] may change of a scenario: the baseline flag, which
    says whether the id is the given one, and the time stamp of the scenario
    of that id. *)
Definition rebaselined {num : Type} (id : string)
  (s s' : ScenarioParameters.t num) : Prop :=
  ScenarioParameters.id s' = ScenarioParameters.id s
  /\ ScenarioParameters.name s' = ScenarioParameters.name s
  /\ ScenarioParameters.description s' = ScenarioParameters.description s
  /\ ScenarioParameters.region s' = ScenarioParameters.region s
  /\ ScenarioParameters.time s' = ScenarioParameters.time s
  /\ ScenarioParameters.workload s' = ScenarioParameters.workload s
  /\ ScenarioParameters.regulatoryIntensity s'
     = ScenarioParameters.regulatoryIntensity s
  /\ ScenarioParameters.security s' = ScenarioParameters.security s
  /\ ScenarioParameters.risk s' = ScenarioParameters.risk s
  /\ ScenarioParameters.createdAt s' = ScenarioParameters.createdAt s
  /\ ScenarioParameters.isBaseline s'
     = String.eqb (ScenarioParameters.id s) id
  /\ (ScenarioParameters.id s <> id ->
      ScenarioParameters.updatedAt s' = ScenarioParameters.updatedAt s).

(** A complete scenario seen as a partial one: every key is there. *)
Definition as_partial {num : Type} (s : ScenarioParameters.t num)
  : PartialScenario.t num :=
  {| PartialScenario.id := Some (ScenarioParameters.id s);
     PartialScenario.name := Some (ScenarioParameters.name s);
     PartialScenario.description := ScenarioParameters.description s;
     PartialScenario.region := Some (ScenarioParameters.region s);
     PartialScenario.time := Some (ScenarioParameters.time s);
     PartialScenario.workload := Some (ScenarioParameters.workload s);
     PartialScenario.regulatoryIntensity :=
       Some (ScenarioParameters.regulatoryIntensity s);
     PartialScenario.security := Some (ScenarioParameters.security s);
     PartialScenario.risk := Some (ScenarioParameters.risk s);
     PartialScenario.isBaseline := Some (ScenarioParameters.isBaseline s);
     PartialScenario.createdAt := Some (ScenarioParameters.createdAt s);
     PartialScenario.updatedAt := Some (ScenarioParameters.updatedAt s) |}.

(** The parts that a partial scenario gives are in their ranges. *)
Definition valid_partial (p : PartialScenario.t R) : Prop :=
  match PartialScenario.time p with
  | Some t => valid_time t
  | None => True
  end
  /\ match PartialScenario.security p with
     | Some s => valid_security s
     | None => True
     end
  /\ match PartialScenario.risk p with
     | Some r => valid_risk r
     | None => True
     end.

(** The scenarios that [deleteScenario] keeps. *)
Definition othersThan {num : Type} (id : string)
  (scenarios : list (ScenarioParameters.t num))
  : list (ScenarioParameters.t num) :=
  filter (fun s => negb (String.eqb (ScenarioParameters.id s) id)) scenarios.

(** The active id names one of the scenarios. *)
Definition active_exists {num : Type} (state : StoreState.t num) : Prop :=
  exists a : string,
    StoreState.activeScenarioId state = Some a
    /\ In a (map ScenarioParameters.id (StoreState.scenarios state)).

(** * Properties *)

(** ** The keys of the base costs *)

(** The own keys of an object of the interface are the interface's keys in
    some order. *)
Lemma own_keys_permutation :
  forall ks : list BaseTCOInput.key,
    BaseTCOInput.own_keys ks = true ->
    Permutation ks BaseTCOInput.interface_keys.
Proof.
  intros ks Hown.
  apply (Permutation_count_occ BaseTCOInput.key_eq_dec). intro k.
  unfold BaseTCOInput.own_keys in Hown. rewrite forallb_forall in Hown.
  assert (Hin : In k BaseTCOInput.interface_keys)
    by (destruct k; cbn; tauto).
  apply Hown in Hin. apply Nat.eqb_eq in Hin. rewrite Hin.
  destruct k; reflexivity.
Qed.

(** ** Properties that hold in every arithmetic *)

Section Structural.
Context {num : Type} `{JSMath num}.
Local Open Scope js_scope.

(** [Object.values] of the base costs lists the eight costs, each once. *)
Lemma Object_values_permutation :
  forall b : BaseTCOInput.t num,
    Permutation (BaseTCOInput.Object_values b) (BaseTCOInput.interface_values b).
Proof.
  intro b. unfold BaseTCOInput.Object_values, BaseTCOInput.interface_values.
  apply Permutation_map, own_keys_permutation, BaseTCOInput.keys_own.
Qed.

(** C1. Decomposition identity: in the breakdown of [computeScenarioTCO] the
    grand total is the sum, in this order, of the five category totals; the
    base total is the sum of the eight base costs, added from 0 in the order
    of the object's own keys (for an object written in the order of the
    interface: land first, labor last); the risk total is the expected
    annual loss, and the three other totals are the totals of their layers.
    This needs no law of arithmetic, so it holds to the last bit in floating
    point too. *)
Theorem computeScenarioTCO_decomposition :
  forall (baseTCO : BaseTCOInput.t num) (scenario : ScenarioParameters.t num)
         (context : ComputationContext.t num) (clock : Clock),
    let breakdown := run (computeScenarioTCO baseTCO scenario context) clock in
    let totals := ComputationBreakdown.totals breakdown in
    ComputationBreakdown.grandTotal totals
    = ComputationBreakdown.totals_baseTCO totals
      + ComputationBreakdown.totals_adjustments totals
      + ComputationBreakdown.totals_compliance totals
      + ComputationBreakdown.totals_security totals
      + ComputationBreakdown.totals_risk totals
    /\ ComputationBreakdown.totals_baseTCO totals
       = fold_left add (BaseTCOInput.Object_values baseTCO) (of_Z 0)
    /\ Permutation (BaseTCOInput.Object_values baseTCO)
         [BaseTCOInput.land baseTCO; BaseTCOInput.servers baseTCO;
          BaseTCOInput.storage baseTCO; BaseTCOInput.network baseTCO;
          BaseTCOInput.powerDistribution baseTCO; BaseTCOInput.energy baseTCO;
          BaseTCOInput.software baseTCO; BaseTCOInput.labor baseTCO]
    /\ (forall land servers storage network powerDistribution energy software
               labor : num,
          ComputationBreakdown.totals_baseTCO
            (ComputationBreakdown.totals
               (run (computeScenarioTCO
                       (BaseTCOInput.mk land servers storage network
                          powerDistribution energy software labor)
                       scenario context) clock))
          = of_Z 0 + land + servers + storage + network + powerDistribution
            + energy + software + labor)
    /\ ComputationBreakdown.totals_risk totals
       = RiskCosts.expectedAnnualLoss (ComputationBreakdown.riskCosts breakdown)
    /\ ComputationBreakdown.totals_adjustments totals
       = Adjustments.total (ComputationBreakdown.adjustments breakdown)
    /\ ComputationBreakdown.totals_compliance totals
       = ComplianceCosts.total (ComputationBreakdown.complianceCosts breakdown)
    /\ ComputationBreakdown.totals_security totals
       = SecurityCosts.total (ComputationBreakdown.securityCosts breakdown).
Proof.
  intros baseTCO scenario context clock breakdown totals.
  split; [reflexivity | ].
  split; [reflexivity | ].
  split; [exact (Object_values_permutation baseTCO) | ].
  split; [intros; reflexivity | ].
  repeat split.
Qed.

(** C5, as amended. Two calls of [computeScenarioTCO] on the same inputs,
    whatever the clock shows at each, return breakdowns that agree on every
    field but [calculatedAt], and [calculatedAt] is the reading of the clock
    at the call. *)
Theorem computeScenarioTCO_deterministic_up_to_timestamp :
  forall (baseTCO : BaseTCOInput.t num) (scenario : ScenarioParameters.t num)
         (context : ComputationContext.t num) (clock1 clock2 : Clock),
    let first := run (computeScenarioTCO baseTCO scenario context) clock1 in
    let second := run (computeScenarioTCO baseTCO scenario context) clock2 in
    with_calculatedAt first (ComputationBreakdown.calculatedAt second) = second
    /\ ComputationBreakdown.calculatedAt first = clock1 0%nat
    /\ ComputationBreakdown.calculatedAt second = clock2 0%nat.
Proof.
  intros baseTCO scenario context clock1 clock2 first second.
  split; [reflexivity | split; reflexivity].
Qed.

(** C7. The adjustments are [applyMultipliers] of the product of the region,
    time and workload sets only, and two scenarios that differ in nothing but
    the regulatory intensity get the same adjustments object. *)
Theorem adjustments_ignore_regulatoryIntensity :
  forall (baseTCO : BaseTCOInput.t num) (scenario : ScenarioParameters.t num)
         (context : ComputationContext.t num)
         (intensity : RegulatoryIntensity.t) (clock1 clock2 : Clock),
    ComputationBreakdown.adjustments
      (run (computeScenarioTCO baseTCO scenario context) clock1)
    = applyMultipliers baseTCO
        (combineMultipliers
           [getRegionMultipliers (ScenarioParameters.region scenario);
            getTimeMultipliers (ScenarioParameters.time scenario);
            getWorkloadMultipliers (ScenarioParameters.workload scenario)])
    /\ ComputationBreakdown.adjustments
         (run (computeScenarioTCO baseTCO
                 (with_regulatoryIntensity scenario intensity) context) clock2)
       = ComputationBreakdown.adjustments
           (run (computeScenarioTCO baseTCO scenario context) clock1).
Proof.
  intros baseTCO scenario context intensity clock1 clock2.
  split; reflexivity.
Qed.

(** C8. In [calculateSensitivity] on ["security"] the low and the high
    breakdown have the base breakdown's base costs, multipliers, adjustments,
    compliance costs and security costs (each line item and the total), and
    its base, adjustment, compliance and security totals: only the risk costs,
    the risk total and the grand total are left free to move. *)
Theorem calculateSensitivity_security_frame :
  forall (baseTCO : BaseTCOInput.t num) (scenario : ScenarioParameters.t num)
         (context : ComputationContext.t num) (perturbationPercent : num)
         (clock : Clock),
    let result :=
      run (calculateSensitivity baseTCO scenario context
             SensitivityParameter.security perturbationPercent) clock in
    same_outside_risk (Sensitivity.low result) (Sensitivity.base result)
    /\ same_outside_risk (Sensitivity.high result) (Sensitivity.base result).
Proof.
  intros baseTCO scenario context perturbationPercent clock result.
  split; unfold same_outside_risk; repeat split.
Qed.

End Structural.

(** ** Properties over the reals *)

(** *** Logarithm and power *)

Lemma ln_monotone : forall x y : R, 0 < x -> x <= y -> ln x <= ln y.
Proof.
  intros x y Hx [Hlt | Heq].
  - left. apply ln_increasing; assumption.
  - subst y. right. reflexivity.
Qed.

Lemma ln_nonneg : forall x : R, 1 <= x -> 0 <= ln x.
Proof.
  intros x Hx. rewrite <- ln_1. apply ln_monotone; lra.
Qed.

Lemma ln_saturation_pos : 0 < ln (1 + 500000 / 50000).
Proof.
  rewrite <- ln_1. apply ln_increasing; lra.
Qed.

Lemma Int_part_IZR : forall z : Z, Int_part (IZR z) = z.
Proof.
  intro z. symmetry. apply Int_part_spec. lra.
Qed.

(** On an integer exponent [Math.pow] is the integer power. *)
Lemma R_pow_IZR : forall (x : R) (z : Z), R_pow x (IZR z) = powerRZ x z.
Proof.
  intros x z. unfold R_pow. rewrite Int_part_IZR.
  destruct (Req_dec_T (IZR z) (IZR z)) as [_ | Hne]; [reflexivity | ].
  exfalso. apply Hne. reflexivity.
Qed.

(** On a positive base it is the real power, whatever the exponent. *)
Lemma R_pow_Rpower : forall x y : R, 0 < x -> R_pow x y = Rpower x y.
Proof.
  intros x y Hx. unfold R_pow.
  destruct (Req_dec_T y (IZR (Int_part y))) as [Heq | _]; [ | reflexivity].
  rewrite (powerRZ_Rpower x (Int_part y) Hx), <- Heq. reflexivity.
Qed.

Lemma R_pow_pos : forall x y : R, 0 < x -> 0 < R_pow x y.
Proof.
  intros x y Hx. rewrite (R_pow_Rpower x y Hx). unfold Rpower. apply exp_pos.
Qed.

Lemma R_pow_monotone :
  forall x y y' : R, 1 <= x -> y <= y' -> R_pow x y <= R_pow x y'.
Proof.
  intros x y y' Hx Hy.
  rewrite !R_pow_Rpower by lra. apply Rle_Rpower; assumption.
Qed.

(** *** The risk model *)

Lemma reductionFactor_eq :
  forall (scenario : ScenarioParameters.t R) (investment : R),
    reductionFactor scenario investment
    = Rmin (RiskParameters.maxSecurityReduction (ScenarioParameters.risk scenario))
           (ln (1 + investment / 50000) / ln (1 + 500000 / 50000)
            * RiskParameters.maxSecurityReduction
                (ScenarioParameters.risk scenario)).
Proof. reflexivity. Qed.

Lemma investmentRatio_nonneg :
  forall investment : R,
    0 <= investment ->
    0 <= ln (1 + investment / 50000) / ln (1 + 500000 / 50000).
Proof.
  intros investment Hinv.
  apply Rmult_le_pos.
  - apply ln_nonneg. lra.
  - left. apply Rinv_0_lt_compat, ln_saturation_pos.
Qed.

Lemma investmentRatio_monotone :
  forall a a' : R,
    0 <= a -> a <= a' ->
    ln (1 + a / 50000) / ln (1 + 500000 / 50000)
    <= ln (1 + a' / 50000) / ln (1 + 500000 / 50000).
Proof.
  intros a a' Ha Hle.
  apply Rmult_le_compat_r.
  - left. apply Rinv_0_lt_compat, ln_saturation_pos.
  - apply ln_monotone; lra.
Qed.

Lemma reductionFactor_monotone :
  forall (scenario : ScenarioParameters.t R) (a a' : R),
    0 <= RiskParameters.maxSecurityReduction (ScenarioParameters.risk scenario) ->
    0 <= a -> a <= a' ->
    reductionFactor scenario a <= reductionFactor scenario a'.
Proof.
  intros scenario a a' Hm Ha Hle.
  rewrite !reductionFactor_eq.
  apply Rle_min_compat_l, Rmult_le_compat_r; [assumption | ].
  apply investmentRatio_monotone; assumption.
Qed.

Lemma reductionFactor_bounds :
  forall (scenario : ScenarioParameters.t R) (investment : R),
    let cap :=
      RiskParameters.maxSecurityReduction (ScenarioParameters.risk scenario) in
    0 <= cap -> 0 <= investment ->
    0 <= reductionFactor scenario investment <= cap.
Proof.
  intros scenario investment cap Hcap Hinv.
  rewrite reductionFactor_eq. split; [ | apply Rmin_l].
  apply Rmin_glb; [exact Hcap | ].
  apply Rmult_le_pos; [ | exact Hcap].
  apply investmentRatio_nonneg, Hinv.
Qed.

Lemma reductionFactor_at_zero :
  forall scenario : ScenarioParameters.t R,
    0 <= RiskParameters.maxSecurityReduction (ScenarioParameters.risk scenario) ->
    reductionFactor scenario 0 = 0.
Proof.
  intros scenario Hcap. rewrite reductionFactor_eq.
  replace (1 + 0 / 50000) with 1 by lra.
  rewrite ln_1. unfold Rdiv. rewrite !Rmult_0_l.
  apply Rmin_right. exact Hcap.
Qed.

Lemma reductionFactor_at_saturation :
  forall scenario : ScenarioParameters.t R,
    reductionFactor scenario 500000
    = RiskParameters.maxSecurityReduction (ScenarioParameters.risk scenario).
Proof.
  intro scenario. rewrite reductionFactor_eq.
  unfold Rdiv at 1. rewrite Rinv_r.
  - rewrite Rmult_1_l. apply Rmin_left. right. reflexivity.
  - apply Rgt_not_eq, ln_saturation_pos.
Qed.

(** Short of 500000 the cap is not reached. *)
Lemma reductionFactor_below_cap :
  forall (scenario : ScenarioParameters.t R) (investment : R),
    0 < RiskParameters.maxSecurityReduction (ScenarioParameters.risk scenario) ->
    0 <= investment < 500000 ->
    reductionFactor scenario investment
    < RiskParameters.maxSecurityReduction (ScenarioParameters.risk scenario).
Proof.
  intros scenario investment Hcap [Hlo Hhi]. rewrite reductionFactor_eq.
  eapply Rle_lt_trans; [apply Rmin_r | ].
  rewrite <- (Rmult_1_l (RiskParameters.maxSecurityReduction _)) at 2.
  apply Rmult_lt_compat_r; [exact Hcap | ].
  pose proof ln_saturation_pos as Hpos.
  apply Rmult_lt_reg_r with (r := ln (1 + 500000 / 50000)); [exact Hpos | ].
  unfold Rdiv at 1. rewrite Rmult_assoc, Rinv_l, Rmult_1_r, Rmult_1_l by lra.
  apply ln_increasing; lra.
Qed.

(** C3. Risk bounds: for a cap [maxSecurityReduction] in [0,1] and a
    non-negative investment, the reduction factor of [calculateRiskCosts]
    lies between 0 and the cap, is 0 at no investment, does not decrease when
    the investment grows, and is the cap itself at an investment of 500000. *)
Theorem calculateRiskCosts_reduction_bounds :
  forall (scenario : ScenarioParameters.t R) (investment : R),
    let cap :=
      RiskParameters.maxSecurityReduction (ScenarioParameters.risk scenario) in
    0 <= cap <= 1 ->
    0 <= investment ->
    0 <= reductionFactor scenario investment <= cap
    /\ reductionFactor scenario 0 = 0
    /\ (forall more : R,
          investment <= more ->
          reductionFactor scenario investment <= reductionFactor scenario more)
    /\ reductionFactor scenario 500000 = cap.
Proof.
  intros scenario investment cap [Hcap0 Hcap1] Hinv.
  split; [apply reductionFactor_bounds; assumption | ].
  split; [apply reductionFactor_at_zero; assumption | ].
  split; [ | apply reductionFactor_at_saturation].
  intros more Hmore. apply reductionFactor_monotone; assumption.
Qed.

Lemma calculateRiskCosts_reduction_bounds_witness :
  let cap :=
    RiskParameters.maxSecurityReduction (ScenarioParameters.risk testScenario)
  in
  0 <= cap <= 1
  /\ 0 <= 100000
  /\ 0 <= reductionFactor testScenario 100000 <= cap
  /\ reductionFactor testScenario 500000 = cap.
Proof.
  intro cap.
  assert (Hcap : 0 <= cap <= 1) by (cbn; lra).
  assert (Hinv : 0 <= 100000) by lra.
  destruct (calculateRiskCosts_reduction_bounds testScenario 100000 Hcap Hinv)
    as (Hbounds & _ & _ & Hsat).
  exact (conj Hcap (conj Hinv (conj Hbounds Hsat))).
Defined.

(** *** The combiner *)

Lemma combine_step_neutral_l :
  forall x : MultiplierSet.t R, combine_step neutralMultipliers x = x.
Proof.
  intros [e l c k m]. unfold combine_step, neutralMultipliers. js_real.
  f_equal; lra.
Qed.










(** *** Time escalation *)

Lemma escalationFactor_eq :
  forall time : TimeParameters.t R,
    escalationFactor time
    = R_pow (1 + TimeParameters.escalationRate time)
            (TimeParameters.year time - 2024).
Proof. reflexivity. Qed.

Lemma years_from_baseline :
  forall n : nat, 2024 + INR n - 2024 = IZR (Z.of_nat n).
Proof.
  intro n. rewrite <- INR_IZR_INZ. lra.
Qed.

(** In and after the baseline year the resolver's factor is the compound
    rate. *)
Lemma escalationFactor_future :
  forall (time : TimeParameters.t R) (n : nat),
    TimeParameters.year time = 2024 + INR n ->
    escalationFactor time = (1 + TimeParameters.escalationRate time) ^ n.
Proof.
  intros time n Hyear.
  rewrite escalationFactor_eq, Hyear, years_from_baseline, R_pow_IZR.
  symmetry. apply pow_powerRZ.
Qed.

(** The helper [calculateEscalationFactor] is 1 up to the baseline year and
    the compound rate after it. *)
Lemma calculateEscalationFactor_clamped :
  forall targetYear escalationRate : R,
    targetYear <= 2024 ->
    calculateEscalationFactor targetYear escalationRate = 1.
Proof.
  intros targetYear escalationRate Hyear.
  unfold calculateEscalationFactor, TIME_PARAMETERS. js_real.
  destruct (Rle_dec (targetYear - 2024) 0) as [_ | Hgt]; [reflexivity | lra].
Qed.

Lemma calculateEscalationFactor_future :
  forall (n : nat) (escalationRate : R),
    (0 < n)%nat ->
    calculateEscalationFactor (2024 + INR n) escalationRate
    = (1 + escalationRate) ^ n.
Proof.
  intros n escalationRate Hn.
  unfold calculateEscalationFactor, TIME_PARAMETERS. js_real.
  destruct (Rle_dec (2024 + INR n - 2024) 0) as [Hle | _].
  - apply lt_0_INR in Hn. lra.
  - rewrite years_from_baseline, R_pow_IZR. symmetry. apply pow_powerRZ.
Qed.

(** Before the baseline year, at any positive rate, the resolver's factor is
    below 1. *)
Lemma escalationFactor_past_below_one :
  forall time : TimeParameters.t R,
    0 < TimeParameters.escalationRate time ->
    TimeParameters.year time < 2024 ->
    escalationFactor time < 1.
Proof.
  intros time Hrate Hyear.
  rewrite escalationFactor_eq, R_pow_Rpower by lra.
  rewrite <- (Rpower_O (1 + TimeParameters.escalationRate time)) at 2 by lra.
  apply Rpower_lt; lra.
Qed.

(** C6, at a year before the baseline. For 2023 at a rate of 2.5 percent the
    factor of [getTimeMultipliers] is 1/1.025, below 1, where the helper
    [calculateEscalationFactor] returns 1. *)
Theorem getTimeMultipliers_deflates_past_years :
  let time := TimeParameters.mk 2023 (25 / 1000) None false in
  escalationFactor time = 1000 / 1025
  /\ escalationFactor time <> 1
  /\ calculateEscalationFactor 2023 (25 / 1000) = 1.
Proof.
  intro time.
  assert (Hfactor : escalationFactor time = 1000 / 1025).
  { rewrite escalationFactor_eq. cbn [TimeParameters.year
      TimeParameters.escalationRate time].
    replace (2023 - 2024) with (IZR (-1)) by lra.
    rewrite R_pow_IZR. cbn [powerRZ].
    change (Pos.to_nat 1) with 1%nat. rewrite pow_1. field. }
  split; [exact Hfactor | split].
  - rewrite Hfactor. lra.
  - apply calculateEscalationFactor_clamped. lra.
Qed.

(** *** Monotonicity of the grand total *)

Lemma grandTotalOf_layers :
  forall baseTCO scenario context clock,
    grandTotalOf baseTCO scenario context clock
    = fold_left Rplus (BaseTCOInput.Object_values baseTCO) 0
      + Adjustments.total
          (applyMultipliers baseTCO
             (combineMultipliers
                [getRegionMultipliers (ScenarioParameters.region scenario);
                 getTimeMultipliers (ScenarioParameters.time scenario);
                 getWorkloadMultipliers (ScenarioParameters.workload scenario)]))
      + ComplianceCosts.total
          (calculateComplianceCosts scenario default_laborHourlyRate)
      + SecurityCosts.total (calculateSecurityCosts scenario context)
      + RiskCosts.expectedAnnualLoss
          (calculateRiskCosts scenario
             (SecurityCosts.total (calculateSecurityCosts scenario context)
              + SecurityParameters.annualInvestment
                  (ScenarioParameters.security scenario))).
Proof. reflexivity. Qed.

(** In real arithmetic a sum does not depend on the order of its terms: the
    base total is the sum of the eight costs whatever the order of the keys. *)
Lemma fold_left_Rplus_permutation :
  forall l l' : list R,
    Permutation l l' ->
    forall a : R, fold_left Rplus l a = fold_left Rplus l' a.
Proof.
  induction 1 as [ | x l l' _ IH | x y l | l l' l'' _ IH1 _ IH2]; intro a;
    cbn [fold_left].
  - reflexivity.
  - apply IH.
  - f_equal. lra.
  - rewrite IH1. apply IH2.
Qed.

Lemma baseTotal_interface_order :
  forall b : BaseTCOInput.t R,
    fold_left Rplus (BaseTCOInput.Object_values b) 0
    = 0 + BaseTCOInput.land b + BaseTCOInput.servers b
      + BaseTCOInput.storage b + BaseTCOInput.network b
      + BaseTCOInput.powerDistribution b + BaseTCOInput.energy b
      + BaseTCOInput.software b + BaseTCOInput.labor b.
Proof.
  intro b.
  rewrite (fold_left_Rplus_permutation _ _ (Object_values_permutation b)).
  reflexivity.
Qed.

Lemma valid_baseTCO_interface :
  forall b : BaseTCOInput.t R,
    valid_baseTCO b <->
    Forall (fun v => 0 <= v)
      [BaseTCOInput.land b; BaseTCOInput.servers b; BaseTCOInput.storage b;
       BaseTCOInput.network b; BaseTCOInput.powerDistribution b;
       BaseTCOInput.energy b; BaseTCOInput.software b; BaseTCOInput.labor b].
Proof.
  intro b. unfold valid_baseTCO.
  pose proof (Object_values_permutation b) as Hperm.
  split; intro Hall.
  - exact (Permutation_Forall Hperm Hall).
  - exact (Permutation_Forall (Permutation_sym Hperm) Hall).
Qed.

Lemma ms_le_refl : forall m : MultiplierSet.t R, ms_le m m.
Proof. intro m. unfold ms_le. lra. Qed.

Lemma product3_monotone :
  forall a b c a' b' c' : R,
    0 <= a <= a' -> 0 <= b <= b' -> 0 <= c <= c' ->
    1 * a * b * c <= 1 * a' * b' * c'.
Proof.
  intros a b c a' b' c' Ha Hb Hc.
  rewrite !Rmult_1_l.
  apply Rmult_le_compat; try lra.
  - apply Rmult_le_pos; lra.
  - apply Rmult_le_compat; lra.
Qed.

Lemma combineMultipliers_monotone :
  forall r t w r' t' w' : MultiplierSet.t R,
    ms_nonneg r -> ms_nonneg t -> ms_nonneg w ->
    ms_le r r' -> ms_le t t' -> ms_le w w' ->
    ms_le (combineMultipliers [r; t; w]) (combineMultipliers [r'; t'; w']).
Proof.
  intros r t w r' t' w' (Hr1 & Hr2 & Hr3) (Ht1 & Ht2 & Ht3) (Hw1 & Hw2 & Hw3)
         (Hrr1 & Hrr2 & Hrr3) (Htt1 & Htt2 & Htt3) (Hww1 & Hww2 & Hww3).
  unfold ms_le, combineMultipliers. cbn.
  repeat split; apply product3_monotone; split; assumption.
Qed.

Lemma applyMultipliers_monotone :
  forall (b : BaseTCOInput.t R) (m m' : MultiplierSet.t R),
    valid_baseTCO b -> ms_le m m' ->
    Adjustments.total (applyMultipliers b m)
    <= Adjustments.total (applyMultipliers b m').
Proof.
  intros b m m' Hb (He & Hl & Hc).
  apply valid_baseTCO_interface in Hb.
  repeat match goal with
         | H : Forall _ (_ :: _) |- _ => inversion_clear H
         end.
  unfold applyMultipliers, decimal. cbn.
  assert (Hcool : 0 <= BaseTCOInput.powerDistribution b * (4 / 10)) by nra.
  repeat apply Rplus_le_compat; apply Rmult_le_compat_l; lra.
Qed.

Lemma getRegionMultipliers_nonneg :
  forall r : Region.t, ms_nonneg (getRegionMultipliers r).
Proof. intros []; unfold ms_nonneg; cbn; lra. Qed.

Lemma getWorkloadMultipliers_nonneg :
  forall w : WorkloadParameters.t, ms_nonneg (getWorkloadMultipliers w).
Proof. intros [[] []]; unfold ms_nonneg; cbn; lra. Qed.

Lemma or_default_nonneg :
  forall x : option R,
    match x with Some f => 1 <= f | None => True end ->
    0 <= or_default x 1.
Proof.
  intros [f | ] Hf; unfold or_default, truthy; cbn; [ | lra].
  destruct (Req_dec_T f f), (Req_dec_T f 0); cbn; lra.
Qed.

Lemma energyShock_nonneg :
  forall t : TimeParameters.t R,
    valid_time t ->
    0 <= (if TimeParameters.shockEnabled t
          then or_default (TimeParameters.shockFactor t) 1 else 1).
Proof.
  intros t [_ Hshock].
  destruct (TimeParameters.shockEnabled t); [ | lra].
  apply or_default_nonneg, Hshock.
Qed.

Lemma getTimeMultipliers_nonneg :
  forall t : TimeParameters.t R, valid_time t -> ms_nonneg (getTimeMultipliers t).
Proof.
  intros t Ht.
  assert (Hpow : 0 < R_pow (1 + TimeParameters.escalationRate t)
                           (TimeParameters.year t - 2024)).
  { apply R_pow_pos. destruct Ht. lra. }
  pose proof (energyShock_nonneg t Ht) as Hshock.
  unfold ms_nonneg, getTimeMultipliers, TIME_PARAMETERS. cbn.
  repeat split; try lra.
  apply Rmult_le_pos; lra.
Qed.

Lemma getTimeMultipliers_monotone :
  forall (t : TimeParameters.t R) (y y' : R),
    valid_time t -> y <= y' ->
    ms_le (getTimeMultipliers (with_year t y))
          (getTimeMultipliers (with_year t y')).
Proof.
  intros t y y' Ht Hy.
  pose proof (energyShock_nonneg t Ht) as Hshock.
  assert (Hpow : R_pow (1 + TimeParameters.escalationRate t) (y - 2024)
                 <= R_pow (1 + TimeParameters.escalationRate t) (y' - 2024)).
  { apply R_pow_monotone; destruct Ht; lra. }
  unfold ms_le, getTimeMultipliers, TIME_PARAMETERS, with_year. cbn.
  repeat split; try lra.
  apply Rmult_le_compat_r; assumption.
Qed.

Lemma getWorkloadMultipliers_monotone :
  forall w w' : WorkloadParameters.t,
    workload_le w w' ->
    ms_le (getWorkloadMultipliers w) (getWorkloadMultipliers w').
Proof.
  intros [[] []] [[] []] [Hrank Hai]; cbn in Hrank, Hai;
    try lia; try (specialize (Hai eq_refl); discriminate);
    unfold ms_le; cbn; lra.
Qed.

Lemma getRegionMultipliers_EU_greatest :
  forall r : Region.t,
    ms_le (getRegionMultipliers r) (getRegionMultipliers Region.EU).
Proof. intros []; unfold ms_le; cbn; lra. Qed.

Lemma calculateComplianceCosts_monotone :
  forall (s : ScenarioParameters.t R) (i i' : RegulatoryIntensity.t),
    (RegulatoryIntensity_rank i <= RegulatoryIntensity_rank i')%nat ->
    ComplianceCosts.total
      (calculateComplianceCosts (with_regulatoryIntensity s i)
         default_laborHourlyRate)
    <= ComplianceCosts.total
         (calculateComplianceCosts (with_regulatoryIntensity s i')
            default_laborHourlyRate).
Proof.
  intros s [] [] Hrank; cbn in Hrank; try lia; cbn; lra.
Qed.

(** The grand total follows the adjustments when only they move. *)
Lemma grandTotalOf_by_adjustments :
  forall baseTCO context (s s' : ScenarioParameters.t R) clock clock',
    valid_baseTCO baseTCO ->
    ScenarioParameters.regulatoryIntensity s
    = ScenarioParameters.regulatoryIntensity s' ->
    ScenarioParameters.security s = ScenarioParameters.security s' ->
    ScenarioParameters.risk s = ScenarioParameters.risk s' ->
    ms_le (combineMultipliers
             [getRegionMultipliers (ScenarioParameters.region s);
              getTimeMultipliers (ScenarioParameters.time s);
              getWorkloadMultipliers (ScenarioParameters.workload s)])
          (combineMultipliers
             [getRegionMultipliers (ScenarioParameters.region s');
              getTimeMultipliers (ScenarioParameters.time s');
              getWorkloadMultipliers (ScenarioParameters.workload s')]) ->
    grandTotalOf baseTCO s context clock
    <= grandTotalOf baseTCO s' context clock'.
Proof.
  intros baseTCO context s s' clock clock' Hbase Hreg Hsec Hrisk Hle.
  rewrite !grandTotalOf_layers.
  pose proof (applyMultipliers_monotone baseTCO _ _ Hbase Hle) as Hadj.
  unfold calculateComplianceCosts, calculateSecurityCosts, calculateRiskCosts
    in *.
  rewrite Hreg, Hsec, Hrisk. lra.
Qed.

(** C2, as amended. For base costs, a scenario and a context in their valid
    ranges, the grand total does not decrease when the year grows, when the
    workload gets more intense (a higher class, AI switched on), when the
    regulatory intensity rises, or when the region becomes EU. *)
Theorem grandTotal_monotone_in_cost_axes :
  forall (baseTCO : BaseTCOInput.t R) (scenario : ScenarioParameters.t R)
         (context : ComputationContext.t R) (clock clock' : Clock),
    valid_baseTCO baseTCO ->
    valid_scenario scenario ->
    valid_context context ->
    (forall y y' : R,
        y <= y' ->
        grandTotalOf baseTCO
          (with_time scenario (with_year (ScenarioParameters.time scenario) y))
          context clock
        <= grandTotalOf baseTCO
             (with_time scenario
                (with_year (ScenarioParameters.time scenario) y'))
             context clock')
    /\ (forall w w' : WorkloadParameters.t,
          workload_le w w' ->
          grandTotalOf baseTCO (with_workload scenario w) context clock
          <= grandTotalOf baseTCO (with_workload scenario w') context clock')
    /\ (forall i i' : RegulatoryIntensity.t,
          (RegulatoryIntensity_rank i <= RegulatoryIntensity_rank i')%nat ->
          grandTotalOf baseTCO (with_regulatoryIntensity scenario i) context
            clock
          <= grandTotalOf baseTCO (with_regulatoryIntensity scenario i')
               context clock')
    /\ (forall r : Region.t,
          grandTotalOf baseTCO (with_region scenario r) context clock
          <= grandTotalOf baseTCO (with_region scenario Region.EU) context
               clock').
Proof.
  intros baseTCO scenario context clock clock' Hbase (Htime & _ & _) _.
  pose proof (getTimeMultipliers_nonneg _ Htime) as Htime_nonneg.
  repeat split.
  - intros y y' Hy.
    apply grandTotalOf_by_adjustments; try reflexivity; [assumption | ].
    cbn [ScenarioParameters.region ScenarioParameters.time
         ScenarioParameters.workload with_time].
    apply combineMultipliers_monotone.
    + apply getRegionMultipliers_nonneg.
    + apply getTimeMultipliers_nonneg. exact Htime.
    + apply getWorkloadMultipliers_nonneg.
    + apply ms_le_refl.
    + apply getTimeMultipliers_monotone; assumption.
    + apply ms_le_refl.
  - intros w w' Hw.
    apply grandTotalOf_by_adjustments; try reflexivity; [assumption | ].
    cbn [ScenarioParameters.region ScenarioParameters.time
         ScenarioParameters.workload with_workload].
    apply combineMultipliers_monotone.
    + apply getRegionMultipliers_nonneg.
    + exact Htime_nonneg.
    + apply getWorkloadMultipliers_nonneg.
    + apply ms_le_refl.
    + apply ms_le_refl.
    + apply getWorkloadMultipliers_monotone, Hw.
  - intros i i' Hi.
    rewrite !grandTotalOf_layers.
    pose proof (calculateComplianceCosts_monotone scenario i i' Hi) as Hcomp.
    cbn [ScenarioParameters.region ScenarioParameters.time
         ScenarioParameters.workload ScenarioParameters.security
         with_regulatoryIntensity].
    change (calculateSecurityCosts (with_regulatoryIntensity scenario i))
      with (calculateSecurityCosts scenario).
    change (calculateSecurityCosts (with_regulatoryIntensity scenario i'))
      with (calculateSecurityCosts scenario).
    change (calculateRiskCosts (with_regulatoryIntensity scenario i))
      with (calculateRiskCosts scenario).
    change (calculateRiskCosts (with_regulatoryIntensity scenario i'))
      with (calculateRiskCosts scenario).
    lra.
  - intro r.
    apply grandTotalOf_by_adjustments; try reflexivity; [assumption | ].
    cbn [ScenarioParameters.region ScenarioParameters.time
         ScenarioParameters.workload with_region].
    apply combineMultipliers_monotone.
    + apply getRegionMultipliers_nonneg.
    + exact Htime_nonneg.
    + apply getWorkloadMultipliers_nonneg.
    + apply getRegionMultipliers_EU_greatest.
    + apply ms_le_refl.
    + apply ms_le_refl.
Qed.

Lemma valid_sampleBaseTCO : valid_baseTCO sampleBaseTCO.
Proof.
  unfold valid_baseTCO, sampleBaseTCO, BaseTCOInput.Object_values. cbn.
  repeat constructor; lra.
Qed.

Lemma valid_testScenario : valid_scenario testScenario.
Proof. unfold valid_scenario, valid_time, valid_security, valid_risk. cbn. lra. Qed.

Lemma valid_sampleContext : valid_context sampleContext.
Proof. unfold valid_context. cbn. lra. Qed.

Lemma grandTotal_monotone_in_cost_axes_witness :
  valid_baseTCO sampleBaseTCO
  /\ valid_scenario testScenario
  /\ valid_context sampleContext
  /\ grandTotalOf sampleBaseTCO
       (with_time testScenario
          (with_year (ScenarioParameters.time testScenario) 2024))
       sampleContext frozenClock
     <= grandTotalOf sampleBaseTCO
          (with_time testScenario
             (with_year (ScenarioParameters.time testScenario) 2027))
          sampleContext tickingClock
  /\ grandTotalOf sampleBaseTCO
       (with_regulatoryIntensity testScenario RegulatoryIntensity.Low)
       sampleContext frozenClock
     <= grandTotalOf sampleBaseTCO
          (with_regulatoryIntensity testScenario RegulatoryIntensity.High)
          sampleContext tickingClock.
Proof.
  pose proof valid_sampleBaseTCO as Hbase.
  pose proof valid_testScenario as Hscenario.
  pose proof valid_sampleContext as Hctx.
  destruct (grandTotal_monotone_in_cost_axes sampleBaseTCO testScenario
              sampleContext frozenClock tickingClock Hbase Hscenario Hctx)
    as (Hyear & _ & Hreg & _).
  split; [exact Hbase | split; [exact Hscenario | split; [exact Hctx | split]]].
  - apply Hyear. lra.
  - apply Hreg. cbn. lia.
Defined.

(** In the baseline year the time axis is neutral. *)
Lemma getTimeMultipliers_testScenario :
  getTimeMultipliers (ScenarioParameters.time (num := R) testScenario)
  = neutralMultipliers.
Proof.
  unfold getTimeMultipliers, neutralMultipliers, TIME_PARAMETERS. cbn.
  replace (2024 - 2024) with (IZR 0) by lra.
  rewrite R_pow_IZR. cbn. f_equal; lra.
Qed.

(** The region axis has no order that the grand total follows beyond "EU is
    the most expensive": Global has the dearer energy and the cheaper labor,
    and with the sample base costs it is cheaper than US. *)
Lemma region_Global_lowers_grandTotal :
  grandTotalOf sampleBaseTCO (with_region testScenario Region.Global)
    sampleContext frozenClock
  < grandTotalOf sampleBaseTCO (with_region testScenario Region.US)
      sampleContext frozenClock.
Proof.
  rewrite !grandTotalOf_layers.
  cbn [ScenarioParameters.region ScenarioParameters.time
       ScenarioParameters.workload with_region].
  rewrite getTimeMultipliers_testScenario.
  cbn. lra.
Qed.

(** *** Security investment *)

(** The expected annual loss does not grow with the investment. *)
Lemma expectedAnnualLoss_antitone :
  forall (scenario : ScenarioParameters.t R) (x x' : R),
    valid_risk (ScenarioParameters.risk scenario) ->
    0 <= x -> x <= x' ->
    RiskCosts.expectedAnnualLoss (calculateRiskCosts scenario x')
    <= RiskCosts.expectedAnnualLoss (calculateRiskCosts scenario x).
Proof.
  intros scenario x x' (Hp & Himpact & Hcap) Hx Hle.
  assert (Hfactor : reductionFactor scenario x <= reductionFactor scenario x')
    by (apply reductionFactor_monotone; lra).
  unfold reductionFactor in Hfactor.
  unfold calculateRiskCosts in *. cbn in *.
  apply Rmult_le_compat_r; [lra | ].
  apply Rmult_le_compat_l; lra.
Qed.

Lemma calculateSecurityCosts_nonneg :
  forall (scenario : ScenarioParameters.t R) (context : ComputationContext.t R),
    valid_security (ScenarioParameters.security scenario) ->
    valid_context context ->
    0 <= SecurityCosts.total (calculateSecurityCosts scenario context).
Proof.
  intros scenario context (_ & Hsiem & Hiam & Henc & Hir & Husers) [Hn Htb].
  unfold calculateSecurityCosts. cbn.
  repeat apply Rplus_le_le_0_compat; try apply Rmult_le_pos; assumption.
Qed.

(** C10. [security.annualInvestment] is no cost term: changing it leaves
    every field outside the risk layer as it was, and for a scenario and a
    context in their valid ranges a larger investment never gives a larger
    grand total. *)
Theorem grandTotal_antitone_in_investment :
  forall (baseTCO : BaseTCOInput.t R) (scenario : ScenarioParameters.t R)
         (context : ComputationContext.t R) (a a' : R) (clock clock' : Clock),
    valid_scenario scenario ->
    valid_context context ->
    0 <= a -> a <= a' ->
    grandTotalOf baseTCO (with_investment scenario a') context clock'
    <= grandTotalOf baseTCO (with_investment scenario a) context clock
    /\ same_outside_risk
         (run (computeScenarioTCO baseTCO (with_investment scenario a') context)
              clock')
         (run (computeScenarioTCO baseTCO (with_investment scenario a) context)
              clock).
Proof.
  intros baseTCO scenario context a a' clock clock' (_ & Hsec & Hrisk) Hctx
         Ha Hle.
  split; [ | unfold same_outside_risk; repeat split].
  rewrite !grandTotalOf_layers.
  pose proof (calculateSecurityCosts_nonneg scenario context Hsec Hctx)
    as Htotal.
  set (itemized := SecurityCosts.total (calculateSecurityCosts scenario context))
    in *.
  change (SecurityCosts.total
            (calculateSecurityCosts (with_investment scenario a') context))
    with itemized.
  change (SecurityCosts.total
            (calculateSecurityCosts (with_investment scenario a) context))
    with itemized.
  change (calculateRiskCosts (with_investment scenario a'))
    with (calculateRiskCosts scenario).
  change (calculateRiskCosts (with_investment scenario a))
    with (calculateRiskCosts scenario).
  cbn [ScenarioParameters.security with_investment with_security
       with_annualInvestment SecurityParameters.annualInvestment
       ScenarioParameters.region ScenarioParameters.time
       ScenarioParameters.workload].
  pose proof (expectedAnnualLoss_antitone scenario
                (itemized + a) (itemized + a') Hrisk) as Hloss.
  assert (Hcomp :
    ComplianceCosts.total
      (calculateComplianceCosts (with_investment scenario a')
         default_laborHourlyRate)
    = ComplianceCosts.total
        (calculateComplianceCosts (with_investment scenario a)
           default_laborHourlyRate)) by reflexivity.
  js_real. lra.
Qed.

Lemma grandTotal_antitone_in_investment_witness :
  valid_scenario testScenario
  /\ valid_context sampleContext
  /\ 0 <= 10000 <= 500000
  /\ grandTotalOf sampleBaseTCO (with_investment testScenario 500000)
       sampleContext tickingClock
     <= grandTotalOf sampleBaseTCO (with_investment testScenario 10000)
          sampleContext frozenClock.
Proof.
  pose proof valid_testScenario as Hscenario.
  pose proof valid_sampleContext as Hctx.
  assert (Ha : 0 <= 10000) by lra.
  assert (Hle : 10000 <= 500000) by lra.
  destruct (grandTotal_antitone_in_investment sampleBaseTCO testScenario
              sampleContext 10000 500000 frozenClock tickingClock
              Hscenario Hctx Ha Hle)
    as [Htotal _].
  exact (conj Hscenario (conj Hctx (conj (conj Ha Hle) Htotal))).
Defined.

(** The itemized security costs of the test scenario in the sample context. *)
Lemma itemized_security_testScenario :
  SecurityCosts.total (calculateSecurityCosts testScenario sampleContext)
  = 130000.
Proof. unfold calculateSecurityCosts. cbn. lra. Qed.

(** C2, where it fails: on the security-investment axis. For the test
    scenario, raising [annualInvestment] from 0 to 370000 (a total investment
    of 130000 against 500000) strictly lowers the grand total. *)
Lemma more_investment_lowers_grandTotal :
  grandTotalOf sampleBaseTCO (with_investment testScenario 370000)
    sampleContext frozenClock
  < grandTotalOf sampleBaseTCO (with_investment testScenario 0)
      sampleContext frozenClock.
Proof.
  rewrite !grandTotalOf_layers.
  change (SecurityCosts.total
            (calculateSecurityCosts (with_investment testScenario 370000)
               sampleContext))
    with (SecurityCosts.total
            (calculateSecurityCosts (num := R) testScenario sampleContext)).
  change (SecurityCosts.total
            (calculateSecurityCosts (with_investment testScenario 0)
               sampleContext))
    with (SecurityCosts.total
            (calculateSecurityCosts (num := R) testScenario sampleContext)).
  change (calculateRiskCosts (with_investment testScenario 370000))
    with (calculateRiskCosts (num := R) testScenario).
  change (calculateRiskCosts (with_investment testScenario 0))
    with (calculateRiskCosts (num := R) testScenario).
  rewrite itemized_security_testScenario.
  cbn [ScenarioParameters.security with_investment with_security
       with_annualInvestment SecurityParameters.annualInvestment
       ScenarioParameters.region ScenarioParameters.time
       ScenarioParameters.workload].
  assert (Hcomp :
    ComplianceCosts.total
      (calculateComplianceCosts (with_investment testScenario 370000)
         default_laborHourlyRate)
    = ComplianceCosts.total
        (calculateComplianceCosts (with_investment testScenario 0)
           default_laborHourlyRate)) by reflexivity.
  assert (Hlow : reductionFactor testScenario (130000 + 0) < 8 / 10).
  { replace (8 / 10) with
      (RiskParameters.maxSecurityReduction
         (ScenarioParameters.risk (num := R) testScenario))
      by (cbn; lra).
    apply reductionFactor_below_cap; [cbn; lra | lra]. }
  assert (Hhigh : reductionFactor testScenario (130000 + 370000) = 8 / 10).
  { replace (130000 + 370000) with 500000 by lra.
    rewrite reductionFactor_at_saturation. cbn. lra. }
  unfold reductionFactor in Hlow, Hhigh.
  js_real. lra.
Qed.

(** C5, where it fails: on a clock that moves between two calls, the two
    breakdowns of the same inputs differ. *)
Lemma computeScenarioTCO_timestamp_differs :
  let first :=
    computeScenarioTCO (num := R) sampleBaseTCO testScenario sampleContext
      tickingClock in
  run (computeScenarioTCO sampleBaseTCO testScenario sampleContext) (snd first)
  <> fst first.
Proof.
  intros first Heq.
  apply (f_equal ComputationBreakdown.calculatedAt) in Heq.
  discriminate Heq.
Qed.

(** *** The comparison view *)

(** On a baseline whose grand total is zero the view reports 0. *)
Lemma view_percentageChange_zero_baseline :
  forall breakdownA breakdownB : ComputationBreakdown.t R,
    ComputationBreakdown.grandTotal (ComputationBreakdown.totals breakdownA) = 0
    -> view_percentageChange breakdownA breakdownB = 0.
Proof.
  intros breakdownA breakdownB Hzero.
  unfold view_percentageChange, strict_neq. cbn. rewrite Hzero.
  destruct (Req_dec_T 0 0) as [_ | Hne]; [reflexivity | ].
  exfalso. apply Hne. reflexivity.
Qed.

(** ** Properties in binary64 *)

(** C4, at a baseline whose grand total is zero. Against an equal total
    [compareScenarios] reports NaN and against a total of 100 it reports
    infinity, where the comparison view reports 0 in both cases. *)
Theorem compareScenarios_zero_baseline_unguarded :
  PrimFloat.is_nan (percentageChangeOf zeroBreakdown zeroBreakdown) = true
  /\ PrimFloat.is_infinity
       (percentageChangeOf zeroBreakdown
          (with_baseTotal zeroBreakdown (of_Z 100)))
     = true
  /\ view_percentageChange zeroBreakdown zeroBreakdown = zero64
  /\ view_percentageChange zeroBreakdown
       (with_baseTotal zeroBreakdown (of_Z 100)) = zero64.
Proof.
  vm_compute. repeat split.
Qed.

(** In binary64 the grouping of the products shows in the last bit: the
    combiner is associative exactly in real arithmetic only. *)
Remark combineMultipliers_binary64_grouping :
  combineMultipliers
    [combineMultipliers [energyTenths 1; energyTenths 2]; energyTenths 3]
  <> combineMultipliers
       [energyTenths 1; combineMultipliers [energyTenths 2; energyTenths 3]].
Proof.
  intro Heq.
  apply (f_equal (fun m => PrimFloat.eqb (MultiplierSet.energy m)
                             (MultiplierSet.energy
                                (combineMultipliers
                                   [combineMultipliers
                                      [energyTenths 1; energyTenths 2];
                                    energyTenths 3])))) in Heq.
  vm_compute in Heq. discriminate Heq.
Qed.


(** In binary64 the base total depends on the order of the keys: the same
    eight costs add up to 10 ** 16 with land first and to 10 ** 16 + 2 with
    land third. *)
Remark baseTotal_binary64_key_order :
  let written :=
    BaseTCOInput.mk (of_Z (10 ^ 16)) (of_Z 1) (of_Z 1) zero64 zero64 zero64
      zero64 zero64 in
  fold_left add (BaseTCOInput.Object_values written) zero64 = of_Z (10 ^ 16)
  /\ fold_left add (BaseTCOInput.Object_values (landThird written)) zero64
     = of_Z (10 ^ 16 + 2).
Proof.
  vm_compute. split; reflexivity.
Qed.

(** * Further properties of the code *)

(** ** The risk model *)

Lemma calculateRiskCosts_fields :
  forall (scenario : ScenarioParameters.t R) (investment : R),
    let risk := ScenarioParameters.risk scenario in
    let costs := calculateRiskCosts scenario investment in
    RiskCosts.adjustedProbability costs
    = RiskParameters.baseIncidentProbability risk
      * (1 - reductionFactor scenario investment)
    /\ RiskCosts.expectedAnnualLoss costs
       = RiskCosts.adjustedProbability costs
         * RiskParameters.averageImpactCost risk.
Proof. intros. split; reflexivity. Qed.

Lemma expectedAnnualLoss_bounds :
  forall (scenario : ScenarioParameters.t R) (investment : R),
    valid_risk (ScenarioParameters.risk scenario) ->
    0 <= investment ->
    0 <= RiskCosts.expectedAnnualLoss (calculateRiskCosts scenario investment)
      <= RiskParameters.baseIncidentProbability (ScenarioParameters.risk scenario)
         * RiskParameters.averageImpactCost (ScenarioParameters.risk scenario).
Proof.
  intros scenario investment (Hp & Himpact & Hcap) Hinv.
  destruct (calculateRiskCosts_fields scenario investment) as [Hadj Hloss].
  pose proof (reductionFactor_bounds scenario investment (proj1 Hcap) Hinv)
    as Hfactor.
  cbv zeta in Hfactor. rewrite Hloss, Hadj.
  set (f := reductionFactor scenario investment) in *.
  split.
  - apply Rmult_le_pos; [apply Rmult_le_pos | ]; lra.
  - apply Rmult_le_compat_r; [lra | ].
    rewrite <- (Rmult_1_r (RiskParameters.baseIncidentProbability _)) at 2.
    apply Rmult_le_compat_l; lra.
Qed.

(** X1. For risk parameters in their ranges and an investment that is not
    negative, [calculateRiskCosts] returns an adjusted probability between
    the base probability reduced by the full cap and the base probability
    (so a probability), and an expected annual loss between 0 and the loss
    without any security. *)
Theorem calculateRiskCosts_loss_bounds :
  forall (scenario : ScenarioParameters.t R) (investment : R),
    let risk := ScenarioParameters.risk scenario in
    let costs := calculateRiskCosts scenario investment in
    valid_risk risk ->
    0 <= investment ->
    RiskParameters.baseIncidentProbability risk
    * (1 - RiskParameters.maxSecurityReduction risk)
    <= RiskCosts.adjustedProbability costs
    <= RiskParameters.baseIncidentProbability risk
    /\ 0 <= RiskCosts.adjustedProbability costs <= 1
    /\ 0 <= RiskCosts.expectedAnnualLoss costs
         <= RiskParameters.baseIncidentProbability risk
            * RiskParameters.averageImpactCost risk.
Proof.
  intros scenario investment risk costs Hrisk Hinv.
  pose proof (expectedAnnualLoss_bounds scenario investment Hrisk Hinv)
    as Hloss.
  destruct Hrisk as (Hp & Himpact & Hcap).
  destruct (calculateRiskCosts_fields scenario investment) as [Hadj _].
  pose proof (reductionFactor_bounds scenario investment (proj1 Hcap) Hinv)
    as Hfactor.
  cbv zeta in Hfactor.
  fold risk in Hadj, Hfactor, Hloss. fold costs in Hadj, Hloss.
  set (f := reductionFactor scenario investment) in *.
  assert (Hlow : RiskParameters.baseIncidentProbability risk
                 * (1 - RiskParameters.maxSecurityReduction risk)
                 <= RiskCosts.adjustedProbability costs).
  { rewrite Hadj. apply Rmult_le_compat_l; lra. }
  assert (Hhigh : RiskCosts.adjustedProbability costs
                  <= RiskParameters.baseIncidentProbability risk).
  { rewrite Hadj.
    rewrite <- (Rmult_1_r (RiskParameters.baseIncidentProbability risk)) at 2.
    apply Rmult_le_compat_l; lra. }
  assert (Hnonneg : 0 <= RiskCosts.adjustedProbability costs).
  { rewrite Hadj. apply Rmult_le_pos; lra. }
  repeat split; try assumption; try lra; apply Hloss.
Qed.

Lemma calculateRiskCosts_loss_bounds_witness :
  valid_risk (ScenarioParameters.risk testScenario)
  /\ 0 <= 130000
  /\ 0 <= RiskCosts.expectedAnnualLoss (calculateRiskCosts testScenario 130000)
       <= RiskParameters.baseIncidentProbability
            (ScenarioParameters.risk testScenario)
          * RiskParameters.averageImpactCost
              (ScenarioParameters.risk testScenario).
Proof.
  pose proof valid_testScenario as (_ & _ & Hrisk).
  assert (Hinv : 0 <= 130000) by lra.
  destruct (calculateRiskCosts_loss_bounds testScenario 130000 Hrisk Hinv)
    as (_ & _ & Hloss).
  exact (conj Hrisk (conj Hinv Hloss)).
Defined.

(** ** The multipliers *)

Lemma combine_step_positive :
  forall a x : MultiplierSet.t R,
    ms_positive a -> ms_positive x -> ms_positive (combine_step a x).
Proof.
  intros a x (Ha1 & Ha2 & Ha3 & Ha4 & Ha5) (Hx1 & Hx2 & Hx3 & Hx4 & Hx5).
  unfold ms_positive, combine_step. cbn.
  repeat split; apply Rmult_lt_0_compat; assumption.
Qed.

Lemma neutralMultipliers_positive : ms_positive neutralMultipliers.
Proof. unfold ms_positive, neutralMultipliers. cbn. lra. Qed.

Lemma fold_combine_step_positive :
  forall (l : list (MultiplierSet.t R)) (a : MultiplierSet.t R),
    ms_positive a -> Forall ms_positive l ->
    ms_positive (fold_left combine_step l a).
Proof.
  induction l as [ | x l IH]; intros a Ha Hl; cbn [fold_left].
  - exact Ha.
  - inversion_clear Hl as [ | ? ? Hx Hrest].
    apply IH; [apply combine_step_positive; assumption | exact Hrest].
Qed.

Lemma or_default_positive :
  forall x : option R,
    match x with Some f => 1 <= f | None => True end ->
    0 < or_default x 1.
Proof.
  intros [f | ] Hf; unfold or_default, truthy; cbn; [ | lra].
  destruct (Req_dec_T f f), (Req_dec_T f 0); cbn; lra.
Qed.

Lemma getTimeMultipliers_positive :
  forall t : TimeParameters.t R,
    valid_time t -> ms_positive (getTimeMultipliers t).
Proof.
  intros t [Hrate Hshock].
  assert (Hpow : 0 < R_pow (1 + TimeParameters.escalationRate t)
                           (TimeParameters.year t - 2024))
    by (apply R_pow_pos; lra).
  assert (Hs : 0 < (if TimeParameters.shockEnabled t
                    then or_default (TimeParameters.shockFactor t) 1 else 1)).
  { destruct (TimeParameters.shockEnabled t); [ | lra].
    apply or_default_positive, Hshock. }
  unfold ms_positive, getTimeMultipliers, TIME_PARAMETERS. cbn.
  repeat split; try lra.
  apply Rmult_lt_0_compat; assumption.
Qed.

(** X2. Every axis resolver returns a set of positive factors (the time axis
    for an escalation rate that is not negative and a shock factor of at
    least 1), and [combineMultipliers] of positive sets is a positive set: in
    particular the combined set of the engine. *)
Theorem multiplier_sets_positive :
  forall (time : TimeParameters.t R) (region : Region.t)
         (workload : WorkloadParameters.t) (intensity : RegulatoryIntensity.t),
    valid_time time ->
    ms_positive (getRegionMultipliers region)
    /\ ms_positive (getTimeMultipliers time)
    /\ ms_positive (getWorkloadMultipliers workload)
    /\ ms_positive (getRegulatoryMultipliers intensity)
    /\ ms_positive
         (combineMultipliers
            [getRegionMultipliers region; getTimeMultipliers time;
             getWorkloadMultipliers workload])
    /\ (forall l : list (MultiplierSet.t R),
          Forall ms_positive l -> ms_positive (combineMultipliers l)).
Proof.
  intros time region workload intensity Htime.
  assert (Hregion : ms_positive (getRegionMultipliers (num := R) region))
    by (destruct region; unfold ms_positive; cbn; lra).
  assert (Hworkload : ms_positive (getWorkloadMultipliers (num := R) workload))
    by (destruct workload as [[] []]; unfold ms_positive; cbn; lra).
  assert (Hreg : ms_positive (getRegulatoryMultipliers (num := R) intensity))
    by (destruct intensity; unfold ms_positive; cbn; lra).
  pose proof (getTimeMultipliers_positive time Htime) as Htm.
  assert (Hall : forall l : list (MultiplierSet.t R),
             Forall ms_positive l -> ms_positive (combineMultipliers l)).
  { intros l Hl. apply fold_combine_step_positive;
      [apply neutralMultipliers_positive | exact Hl]. }
  split; [exact Hregion | ].
  split; [exact Htm | ].
  split; [exact Hworkload | ].
  split; [exact Hreg | ].
  split; [ | exact Hall].
  apply Hall.
  apply Forall_cons; [exact Hregion | ].
  apply Forall_cons; [exact Htm | ].
  apply Forall_cons; [exact Hworkload | apply Forall_nil].
Qed.

Lemma multiplier_sets_positive_witness :
  valid_time (ScenarioParameters.time testScenario)
  /\ ms_positive
       (combineMultipliers
          [getRegionMultipliers Region.EU;
           getTimeMultipliers (ScenarioParameters.time testScenario);
           getWorkloadMultipliers
             (WorkloadParameters.mk WorkloadClass.High true)]).
Proof.
  pose proof valid_testScenario as (Htime & _ & _).
  destruct (multiplier_sets_positive (ScenarioParameters.time testScenario)
              Region.EU (WorkloadParameters.mk WorkloadClass.High true)
              RegulatoryIntensity.Medium Htime)
    as (_ & _ & _ & _ & Hcombined & _).
  exact (conj Htime Hcombined).
Defined.

(** In the baseline year the time axis without a shock is neutral, whatever
    the rate. *)
Lemma getTimeMultipliers_baseline_year :
  forall t : TimeParameters.t R,
    TimeParameters.year t = 2024 ->
    TimeParameters.shockEnabled t = false ->
    getTimeMultipliers t = neutralMultipliers.
Proof.
  intros t Hyear Hshock.
  unfold getTimeMultipliers, neutralMultipliers, TIME_PARAMETERS. cbn.
  rewrite Hyear, Hshock.
  replace (2024 - 2024) with (IZR 0) by lra.
  rewrite R_pow_IZR. cbn. f_equal; lra.
Qed.

(** X3. A scenario on the neutral setting of every multiplier axis (region
    US, the baseline year 2024 without shock, a Medium workload without AI)
    gets the all-1 combined set and no adjustment at all, whatever its
    escalation rate and the base costs. *)
Theorem neutral_scenario_has_no_adjustments :
  forall (baseTCO : BaseTCOInput.t R) (scenario : ScenarioParameters.t R)
         (context : ComputationContext.t R) (clock : Clock),
    ScenarioParameters.region scenario = Region.US ->
    TimeParameters.year (ScenarioParameters.time scenario) = 2024 ->
    TimeParameters.shockEnabled (ScenarioParameters.time scenario) = false ->
    ScenarioParameters.workload scenario
    = WorkloadParameters.mk WorkloadClass.Medium false ->
    let breakdown := breakdownOf baseTCO scenario context clock in
    ComputationBreakdown.combined (ComputationBreakdown.multipliers breakdown)
    = neutralMultipliers
    /\ ComputationBreakdown.adjustments breakdown = Adjustments.mk 0 0 0 0
    /\ ComputationBreakdown.totals_adjustments
         (ComputationBreakdown.totals breakdown) = 0.
Proof.
  intros baseTCO scenario context clock Hregion Hyear Hshock Hworkload
         breakdown.
  assert (Hcombined :
    ComputationBreakdown.combined (ComputationBreakdown.multipliers breakdown)
    = neutralMultipliers).
  { unfold breakdown, breakdownOf, run, computeScenarioTCO, bind, ret.
    cbn [fst ComputationBreakdown.multipliers ComputationBreakdown.combined
         new_Date_toISOString].
    rewrite Hregion, Hworkload,
      (getTimeMultipliers_baseline_year _ Hyear Hshock).
    change (getRegionMultipliers (num := R) Region.US) with
      (neutralMultipliers (num := R)).
    change (getWorkloadMultipliers (num := R)
              (WorkloadParameters.mk WorkloadClass.Medium false))
      with (neutralMultipliers (num := R)).
    unfold combineMultipliers. cbn [fold_left].
    rewrite !combine_step_neutral_l. reflexivity. }
  assert (Hadj :
    ComputationBreakdown.adjustments breakdown = Adjustments.mk 0 0 0 0).
  { change (ComputationBreakdown.adjustments breakdown)
      with (applyMultipliers baseTCO
              (ComputationBreakdown.combined
                 (ComputationBreakdown.multipliers breakdown))).
    rewrite Hcombined. unfold applyMultipliers, neutralMultipliers, decimal.
    cbn. f_equal; lra. }
  split; [exact Hcombined | split; [exact Hadj | ]].
  change (ComputationBreakdown.totals_adjustments
            (ComputationBreakdown.totals breakdown))
    with (Adjustments.total (ComputationBreakdown.adjustments breakdown)).
  rewrite Hadj. reflexivity.
Qed.

Lemma neutral_scenario_has_no_adjustments_witness :
  ComputationBreakdown.adjustments
    (breakdownOf sampleBaseTCO testScenario sampleContext frozenClock)
  = Adjustments.mk 0 0 0 0.
Proof.
  apply (neutral_scenario_has_no_adjustments sampleBaseTCO testScenario
           sampleContext frozenClock); reflexivity.
Defined.

(** ** The totals of a breakdown *)

Lemma breakdownOf_totals :
  forall baseTCO scenario context clock,
    let totals :=
      ComputationBreakdown.totals
        (breakdownOf baseTCO scenario context clock) in
    ComputationBreakdown.totals_baseTCO totals
    = fold_left Rplus (BaseTCOInput.Object_values baseTCO) 0
    /\ ComputationBreakdown.totals_adjustments totals
       = Adjustments.total
           (applyMultipliers baseTCO
              (combineMultipliers
                 [getRegionMultipliers (ScenarioParameters.region scenario);
                  getTimeMultipliers (ScenarioParameters.time scenario);
                  getWorkloadMultipliers
                    (ScenarioParameters.workload scenario)]))
    /\ ComputationBreakdown.totals_compliance totals
       = ComplianceCosts.total
           (calculateComplianceCosts scenario default_laborHourlyRate)
    /\ ComputationBreakdown.totals_security totals
       = SecurityCosts.total (calculateSecurityCosts scenario context)
    /\ ComputationBreakdown.totals_risk totals
       = RiskCosts.expectedAnnualLoss
           (calculateRiskCosts scenario
              (SecurityCosts.total (calculateSecurityCosts scenario context)
               + SecurityParameters.annualInvestment
                   (ScenarioParameters.security scenario)))
    /\ ComputationBreakdown.grandTotal totals
       = ComputationBreakdown.totals_baseTCO totals
         + ComputationBreakdown.totals_adjustments totals
         + ComputationBreakdown.totals_compliance totals
         + ComputationBreakdown.totals_security totals
         + ComputationBreakdown.totals_risk totals.
Proof. intros. repeat split. Qed.

Lemma valid_baseTCO_fields :
  forall b : BaseTCOInput.t R,
    valid_baseTCO b ->
    0 <= BaseTCOInput.land b /\ 0 <= BaseTCOInput.servers b
    /\ 0 <= BaseTCOInput.storage b /\ 0 <= BaseTCOInput.network b
    /\ 0 <= BaseTCOInput.powerDistribution b /\ 0 <= BaseTCOInput.energy b
    /\ 0 <= BaseTCOInput.software b /\ 0 <= BaseTCOInput.labor b.
Proof.
  intros b Hb. apply valid_baseTCO_interface in Hb.
  repeat match goal with
         | H : Forall _ (_ :: _) |- _ => inversion_clear H
         end.
  repeat split; assumption.
Qed.

Lemma baseTotal_nonneg :
  forall b : BaseTCOInput.t R,
    valid_baseTCO b ->
    0 <= fold_left Rplus (BaseTCOInput.Object_values b) 0.
Proof.
  intros b Hb. apply valid_baseTCO_fields in Hb.
  rewrite baseTotal_interface_order. lra.
Qed.

(** Base costs and adjustments together are the base costs at the combined
    factors, so they are not negative. *)
Lemma adjusted_base_nonneg :
  forall (b : BaseTCOInput.t R) (m : MultiplierSet.t R),
    valid_baseTCO b -> ms_nonneg m ->
    0 <= fold_left Rplus (BaseTCOInput.Object_values b) 0
         + Adjustments.total (applyMultipliers b m).
Proof.
  intros b m Hb (He & Hl & Hc). apply valid_baseTCO_fields in Hb.
  destruct Hb as (H1 & H2 & H3 & H4 & H5 & H6 & H7 & H8).
  rewrite baseTotal_interface_order. unfold applyMultipliers, decimal. cbn.
  pose proof (Rmult_le_pos _ _ H6 He) as Henergy.
  pose proof (Rmult_le_pos _ _ H8 Hl) as Hlabor.
  pose proof (Rmult_le_pos _ _ H5 Hc) as Hcool.
  nra.
Qed.

Lemma combine3_nonneg :
  forall r t w : MultiplierSet.t R,
    ms_nonneg r -> ms_nonneg t -> ms_nonneg w ->
    ms_nonneg (combineMultipliers [r; t; w]).
Proof.
  intros [re rl rc rk rm] [te tl tc tk tm] [we wl wc wk wm]
         (Hr1 & Hr2 & Hr3) (Ht1 & Ht2 & Ht3) (Hw1 & Hw2 & Hw3).
  unfold ms_nonneg, combineMultipliers in *. cbn in *.
  rewrite !Rmult_1_l.
  repeat split; repeat apply Rmult_le_pos; assumption.
Qed.

Lemma combined_nonneg :
  forall scenario : ScenarioParameters.t R,
    valid_time (ScenarioParameters.time scenario) ->
    ms_nonneg
      (combineMultipliers
         [getRegionMultipliers (ScenarioParameters.region scenario);
          getTimeMultipliers (ScenarioParameters.time scenario);
          getWorkloadMultipliers (ScenarioParameters.workload scenario)]).
Proof.
  intros scenario Htime.
  apply combine3_nonneg.
  - apply getRegionMultipliers_nonneg.
  - apply getTimeMultipliers_nonneg, Htime.
  - apply getWorkloadMultipliers_nonneg.
Qed.

Lemma calculateComplianceCosts_floor :
  forall scenario : ScenarioParameters.t R,
    87500 <= ComplianceCosts.total
               (calculateComplianceCosts scenario default_laborHourlyRate).
Proof.
  intro scenario. unfold calculateComplianceCosts.
  destruct (ScenarioParameters.regulatoryIntensity scenario); cbn; lra.
Qed.

Lemma breakdownOf_totals_nonneg :
  forall baseTCO scenario context clock,
    valid_baseTCO baseTCO -> valid_scenario scenario -> valid_context context ->
    let totals :=
      ComputationBreakdown.totals
        (breakdownOf baseTCO scenario context clock) in
    0 <= ComputationBreakdown.totals_baseTCO totals
    /\ 0 <= ComputationBreakdown.totals_baseTCO totals
            + ComputationBreakdown.totals_adjustments totals
    /\ 87500 <= ComputationBreakdown.totals_compliance totals
    /\ 0 <= ComputationBreakdown.totals_security totals
    /\ 0 <= ComputationBreakdown.totals_risk totals.
Proof.
  intros baseTCO scenario context clock Hbase (Htime & Hsec & Hrisk) Hctx totals.
  destruct (breakdownOf_totals baseTCO scenario context clock)
    as (Hb & Ha & Hc & Hs & Hr & _).
  fold totals in Hb, Ha, Hc, Hs, Hr.
  rewrite Hb, Ha, Hc, Hs, Hr.
  pose proof (calculateSecurityCosts_nonneg scenario context Hsec Hctx)
    as Hitemized.
  split; [apply baseTotal_nonneg, Hbase | ].
  split; [apply adjusted_base_nonneg; [exact Hbase | ];
          apply combined_nonneg, Htime | ].
  split; [apply calculateComplianceCosts_floor | ].
  split; [exact Hitemized | ].
  apply expectedAnnualLoss_bounds; [exact Hrisk | ].
  destruct Hsec as (Hinv & _). lra.
Qed.

(** X4. For base costs, a scenario and a context in their valid ranges the
    breakdown has a compliance total of at least 87500 (the Low intensity)
    and a grand total no smaller than its compliance total: the grand total
    of a valid scenario is never zero, and never below any of its compliance,
    security and risk totals. *)
Theorem grandTotal_at_least_compliance :
  forall (baseTCO : BaseTCOInput.t R) (scenario : ScenarioParameters.t R)
         (context : ComputationContext.t R) (clock : Clock),
    valid_baseTCO baseTCO -> valid_scenario scenario -> valid_context context ->
    let totals :=
      ComputationBreakdown.totals
        (breakdownOf baseTCO scenario context clock) in
    87500 <= ComputationBreakdown.totals_compliance totals
    /\ ComputationBreakdown.totals_compliance totals
       <= ComputationBreakdown.grandTotal totals
    /\ ComputationBreakdown.totals_security totals
       <= ComputationBreakdown.grandTotal totals
    /\ ComputationBreakdown.totals_risk totals
       <= ComputationBreakdown.grandTotal totals
    /\ 0 < ComputationBreakdown.grandTotal totals.
Proof.
  intros baseTCO scenario context clock Hbase Hscenario Hctx totals.
  pose proof (breakdownOf_totals_nonneg baseTCO scenario context clock
                Hbase Hscenario Hctx) as (_ & Hadj & Hcomp & Hsec & Hrisk).
  destruct (breakdownOf_totals baseTCO scenario context clock)
    as (_ & _ & _ & _ & _ & Hsum).
  fold totals in Hadj, Hcomp, Hsec, Hrisk, Hsum.
  rewrite Hsum. repeat split; lra.
Qed.

Lemma grandTotal_at_least_compliance_witness :
  valid_baseTCO sampleBaseTCO
  /\ valid_scenario testScenario
  /\ valid_context sampleContext
  /\ 0 < grandTotalIn
           (breakdownOf sampleBaseTCO testScenario sampleContext frozenClock).
Proof.
  pose proof valid_sampleBaseTCO as Hbase.
  pose proof valid_testScenario as Hscenario.
  pose proof valid_sampleContext as Hctx.
  destruct (grandTotal_at_least_compliance sampleBaseTCO testScenario
              sampleContext frozenClock Hbase Hscenario Hctx)
    as (_ & _ & _ & _ & Hpos).
  exact (conj Hbase (conj Hscenario (conj Hctx Hpos))).
Defined.

(** X5. The breakdown of valid base costs, scenario and context passes
    [validateNonNegativeCosts]: the result is valid and lists no error. *)
Theorem validateNonNegativeCosts_accepts_engine :
  forall (baseTCO : BaseTCOInput.t R) (scenario : ScenarioParameters.t R)
         (context : ComputationContext.t R) (clock : Clock),
    valid_baseTCO baseTCO -> valid_scenario scenario -> valid_context context ->
    validateNonNegativeCosts
      (breakdownOf baseTCO scenario context clock)
    = Validation.mk true [].
Proof.
  intros baseTCO scenario context clock Hbase Hscenario Hctx.
  pose proof (breakdownOf_totals_nonneg baseTCO scenario context clock
                Hbase Hscenario Hctx) as (Hb & Hadj & Hcomp & Hsec & Hrisk).
  destruct (breakdownOf_totals baseTCO scenario context clock)
    as (_ & _ & _ & _ & _ & Hsum).
  unfold validateNonNegativeCosts.
  set (totals := ComputationBreakdown.totals
                   (breakdownOf baseTCO scenario context clock)) in *.
  assert (Hgrand : 0 <= ComputationBreakdown.grandTotal totals)
    by (rewrite Hsum; lra).
  cbn [js_lt R_order of_Z R_number].
  repeat match goal with
         | |- context [Rlt_dec ?x 0] =>
             destruct (Rlt_dec x 0) as [Hneg | _]; [exfalso; lra | ]
         end.
  reflexivity.
Qed.

Lemma validateNonNegativeCosts_accepts_engine_witness :
  valid_baseTCO sampleBaseTCO
  /\ valid_scenario testScenario
  /\ valid_context sampleContext
  /\ Validation.valid
       (validateNonNegativeCosts
          (breakdownOf sampleBaseTCO testScenario sampleContext frozenClock))
     = true.
Proof.
  pose proof valid_sampleBaseTCO as Hbase.
  pose proof valid_testScenario as Hscenario.
  pose proof valid_sampleContext as Hctx.
  pose proof (validateNonNegativeCosts_accepts_engine sampleBaseTCO
                testScenario sampleContext frozenClock Hbase Hscenario Hctx)
    as Hvalid.
  split; [exact Hbase | split; [exact Hscenario | split; [exact Hctx | ]]].
  rewrite Hvalid. reflexivity.
Defined.

(** ** The sensitivity analysis *)

(** X6. In [calculateSensitivity] on ["energy"] or ["labor"] the low and the
    high breakdown keep every layer that the scenario alone decides (the
    multipliers, the compliance, security and risk costs), the cooling
    adjustment and the other base costs of the base breakdown; on ["energy"]
    the labor cost and its adjustment stay too, and on ["labor"] the energy
    cost and its adjustment. This holds in every arithmetic. *)
Theorem calculateSensitivity_cost_frame :
  forall (num : Type) (Hnum : JSNumber num) (Hmath : JSMath num)
         (baseTCO : BaseTCOInput.t num) (scenario : ScenarioParameters.t num)
         (context : ComputationContext.t num) (perturbationPercent : num)
         (clock : Clock),
    let onEnergy :=
      run (calculateSensitivity baseTCO scenario context
             SensitivityParameter.energy perturbationPercent) clock in
    let onLabor :=
      run (calculateSensitivity baseTCO scenario context
             SensitivityParameter.labor perturbationPercent) clock in
    let base := run (computeScenarioTCO baseTCO scenario context) clock in
    let laborOf (r : ComputationBreakdown.t num) :=
      (ComputationBreakdown.labor (ComputationBreakdown.baseTCO r),
       Adjustments.laborAdjustment (ComputationBreakdown.adjustments r)) in
    let energyOf (r : ComputationBreakdown.t num) :=
      (ComputationBreakdown.energy (ComputationBreakdown.baseTCO r),
       Adjustments.energyAdjustment (ComputationBreakdown.adjustments r)) in
    Sensitivity.base onEnergy = base
    /\ Sensitivity.base onLabor = base
    /\ same_scenario_layers (Sensitivity.low onEnergy) base
    /\ same_scenario_layers (Sensitivity.high onEnergy) base
    /\ same_scenario_layers (Sensitivity.low onLabor) base
    /\ same_scenario_layers (Sensitivity.high onLabor) base
    /\ laborOf (Sensitivity.low onEnergy) = laborOf base
    /\ laborOf (Sensitivity.high onEnergy) = laborOf base
    /\ energyOf (Sensitivity.low onLabor) = energyOf base
    /\ energyOf (Sensitivity.high onLabor) = energyOf base.
Proof.
  intros num Hnum Hmath baseTCO scenario context perturbationPercent clock
         onEnergy onLabor base laborOf energyOf.
  unfold same_scenario_layers.
  repeat split.
Qed.

(** The grand total is linear in the energy cost, with the combined energy
    factor as slope, and so in the labor cost. *)
Lemma grandTotalOf_with_energy :
  forall baseTCO scenario context (v : R) clock clock',
    grandTotalOf (with_energy baseTCO v) scenario context clock'
    = grandTotalOf baseTCO scenario context clock
      + (v - BaseTCOInput.energy baseTCO)
        * MultiplierSet.energy (combinedOf scenario).
Proof.
  intros baseTCO scenario context v clock clock'.
  rewrite !grandTotalOf_layers. fold (combinedOf scenario).
  set (m := combinedOf scenario).
  rewrite !baseTotal_interface_order. unfold applyMultipliers, with_energy. cbn.
  ring.
Qed.

Lemma grandTotalOf_with_labor :
  forall baseTCO scenario context (v : R) clock clock',
    grandTotalOf (with_labor baseTCO v) scenario context clock'
    = grandTotalOf baseTCO scenario context clock
      + (v - BaseTCOInput.labor baseTCO)
        * MultiplierSet.labor (combinedOf scenario).
Proof.
  intros baseTCO scenario context v clock clock'.
  rewrite !grandTotalOf_layers. fold (combinedOf scenario).
  set (m := combinedOf scenario).
  rewrite !baseTotal_interface_order. unfold applyMultipliers, with_labor. cbn.
  ring.
Qed.

(** The three runs of a sensitivity analysis read the clock one after the
    other; their grand totals are those of three separate computations. *)
Lemma sensitivityOf_energy :
  forall baseTCO scenario context p clock,
    let result :=
      sensitivityOf baseTCO scenario context SensitivityParameter.energy p
        clock in
    exists clock1 clock2 : Clock,
      grandTotalIn (Sensitivity.base result)
      = grandTotalOf baseTCO scenario context clock
      /\ grandTotalIn (Sensitivity.low result)
         = grandTotalOf
             (with_energy baseTCO (BaseTCOInput.energy baseTCO * (1 - p)))
             scenario context clock1
      /\ grandTotalIn (Sensitivity.high result)
         = grandTotalOf
             (with_energy baseTCO (BaseTCOInput.energy baseTCO * (1 + p)))
             scenario context clock2.
Proof.
  intros baseTCO scenario context p clock result.
  exists (fun n => clock (S n)), (fun n => clock (S (S n))).
  repeat split.
Qed.

Lemma sensitivityOf_labor :
  forall baseTCO scenario context p clock,
    let result :=
      sensitivityOf baseTCO scenario context SensitivityParameter.labor p
        clock in
    exists clock1 clock2 : Clock,
      grandTotalIn (Sensitivity.base result)
      = grandTotalOf baseTCO scenario context clock
      /\ grandTotalIn (Sensitivity.low result)
         = grandTotalOf
             (with_labor baseTCO (BaseTCOInput.labor baseTCO * (1 - p)))
             scenario context clock1
      /\ grandTotalIn (Sensitivity.high result)
         = grandTotalOf
             (with_labor baseTCO (BaseTCOInput.labor baseTCO * (1 + p)))
             scenario context clock2.
Proof.
  intros baseTCO scenario context p clock result.
  exists (fun n => clock (S n)), (fun n => clock (S (S n))).
  repeat split.
Qed.

Lemma sensitivity_energy_response :
  forall baseTCO scenario context p clock,
    let result :=
      sensitivityOf baseTCO scenario context SensitivityParameter.energy p
        clock in
    let impact :=
      BaseTCOInput.energy baseTCO * p
      * MultiplierSet.energy (combinedOf scenario) in
    grandTotalIn (Sensitivity.high result)
    = grandTotalIn (Sensitivity.base result) + impact
    /\ grandTotalIn (Sensitivity.low result)
       = grandTotalIn (Sensitivity.base result) - impact.
Proof.
  intros baseTCO scenario context p clock result impact.
  destruct (sensitivityOf_energy baseTCO scenario context p clock)
    as (clock1 & clock2 & Hbase & Hlow & Hhigh).
  fold result in Hbase, Hlow, Hhigh.
  rewrite Hbase, Hlow, Hhigh.
  rewrite (grandTotalOf_with_energy baseTCO scenario context _ clock clock1),
    (grandTotalOf_with_energy baseTCO scenario context _ clock clock2).
  unfold impact. split; ring.
Qed.

Lemma sensitivity_labor_response :
  forall baseTCO scenario context p clock,
    let result :=
      sensitivityOf baseTCO scenario context SensitivityParameter.labor p
        clock in
    let impact :=
      BaseTCOInput.labor baseTCO * p
      * MultiplierSet.labor (combinedOf scenario) in
    grandTotalIn (Sensitivity.high result)
    = grandTotalIn (Sensitivity.base result) + impact
    /\ grandTotalIn (Sensitivity.low result)
       = grandTotalIn (Sensitivity.base result) - impact.
Proof.
  intros baseTCO scenario context p clock result impact.
  destruct (sensitivityOf_labor baseTCO scenario context p clock)
    as (clock1 & clock2 & Hbase & Hlow & Hhigh).
  fold result in Hbase, Hlow, Hhigh.
  rewrite Hbase, Hlow, Hhigh.
  rewrite (grandTotalOf_with_labor baseTCO scenario context _ clock clock1),
    (grandTotalOf_with_labor baseTCO scenario context _ clock clock2).
  unfold impact. split; ring.
Qed.

(** X7. For valid base costs and scenario and a perturbation that is not negative, the grand
    totals of [calculateSensitivity] on ["energy"] lie symmetrically around
    the base total, at a distance of perturbation x energy cost x combined
    energy factor, which is not negative: low <= base <= high. On ["labor"]
    likewise with the labor cost and the combined labor factor. *)
Theorem calculateSensitivity_cost_response :
  forall (baseTCO : BaseTCOInput.t R) (scenario : ScenarioParameters.t R)
         (context : ComputationContext.t R) (p : R) (clock : Clock),
    valid_baseTCO baseTCO -> valid_scenario scenario ->
    0 <= p ->
    let onEnergy :=
      sensitivityOf baseTCO scenario context SensitivityParameter.energy p
        clock in
    let onLabor :=
      sensitivityOf baseTCO scenario context SensitivityParameter.labor p
        clock in
    let energyImpact :=
      BaseTCOInput.energy baseTCO * p
      * MultiplierSet.energy (combinedOf scenario) in
    let laborImpact :=
      BaseTCOInput.labor baseTCO * p
      * MultiplierSet.labor (combinedOf scenario) in
    grandTotalIn (Sensitivity.high onEnergy)
    = grandTotalIn (Sensitivity.base onEnergy) + energyImpact
    /\ grandTotalIn (Sensitivity.low onEnergy)
       = grandTotalIn (Sensitivity.base onEnergy) - energyImpact
    /\ grandTotalIn (Sensitivity.high onLabor)
       = grandTotalIn (Sensitivity.base onLabor) + laborImpact
    /\ grandTotalIn (Sensitivity.low onLabor)
       = grandTotalIn (Sensitivity.base onLabor) - laborImpact
    /\ 0 <= energyImpact
    /\ 0 <= laborImpact.
Proof.
  intros baseTCO scenario context p clock Hbase (Htime & _ & _) Hp
         onEnergy onLabor energyImpact laborImpact.
  destruct (sensitivity_energy_response baseTCO scenario context p clock)
    as [HhighE HlowE].
  destruct (sensitivity_labor_response baseTCO scenario context p clock)
    as [HhighL HlowL].
  pose proof (combined_nonneg scenario Htime) as (Hme & Hml & _).
  apply valid_baseTCO_fields in Hbase.
  destruct Hbase as (_ & _ & _ & _ & _ & He & _ & Hl).
  split; [exact HhighE | split; [exact HlowE | ]].
  split; [exact HhighL | split; [exact HlowL | ]].
  unfold energyImpact, laborImpact, combinedOf.
  split.
  - apply Rmult_le_pos; [apply Rmult_le_pos; assumption | exact Hme].
  - apply Rmult_le_pos; [apply Rmult_le_pos; assumption | exact Hml].
Qed.

Lemma calculateSensitivity_cost_response_witness :
  valid_baseTCO sampleBaseTCO
  /\ valid_scenario testScenario
  /\ 0 <= 2 / 10
  /\ grandTotalIn
       (Sensitivity.high
          (sensitivityOf sampleBaseTCO testScenario sampleContext
             SensitivityParameter.energy (2 / 10) frozenClock))
     = grandTotalIn
         (Sensitivity.base
            (sensitivityOf sampleBaseTCO testScenario sampleContext
               SensitivityParameter.energy (2 / 10) frozenClock))
       + BaseTCOInput.energy sampleBaseTCO * (2 / 10)
         * MultiplierSet.energy (combinedOf testScenario).
Proof.
  pose proof valid_sampleBaseTCO as Hbase.
  pose proof valid_testScenario as Hscenario.
  assert (Hp : 0 <= 2 / 10) by lra.
  destruct (calculateSensitivity_cost_response sampleBaseTCO testScenario
              sampleContext (2 / 10) frozenClock Hbase Hscenario Hp)
    as (Hhigh & _).
  exact (conj Hbase (conj Hscenario (conj Hp Hhigh))).
Defined.

(** X8. Fed with the engine's breakdown and its energy and labor costs, the
    sensitivity view shows three rows in real arithmetic, and the low and high results of its
    energy and labor rows are the grand totals that [calculateSensitivity]
    computes by running the engine again; without a breakdown or without an
    active scenario it shows no row. *)
Theorem view_sensitivities_match_engine :
  forall (baseTCO : BaseTCOInput.t R) (scenario : ScenarioParameters.t R)
         (context : ComputationContext.t R) (p : R) (clock : Clock),
    let base := breakdownOf baseTCO scenario context clock in
    let input :=
      SensitivityView.mk_input (BaseTCOInput.energy baseTCO)
        (BaseTCOInput.labor baseTCO) in
    let onEnergy :=
      sensitivityOf baseTCO scenario context SensitivityParameter.energy p
        clock in
    let onLabor :=
      sensitivityOf baseTCO scenario context SensitivityParameter.labor p
        clock in
    (exists energyRow laborRow securityRow : SensitivityView.t R,
        view_sensitivities (Some base) (Some scenario) input p
        = [energyRow; laborRow; securityRow]
        /\ SensitivityView.param energyRow = SensitivityParameter.energy
        /\ SensitivityView.lowResult energyRow
           = grandTotalIn (Sensitivity.low onEnergy)
        /\ SensitivityView.highResult energyRow
           = grandTotalIn (Sensitivity.high onEnergy)
        /\ SensitivityView.param laborRow = SensitivityParameter.labor
        /\ SensitivityView.lowResult laborRow
           = grandTotalIn (Sensitivity.low onLabor)
        /\ SensitivityView.highResult laborRow
           = grandTotalIn (Sensitivity.high onLabor)
        /\ SensitivityView.param securityRow = SensitivityParameter.security)
    /\ view_sensitivities None (Some scenario) input p = []
    /\ view_sensitivities (Some base) None input p = [].
Proof.
  intros baseTCO scenario context p clock base input onEnergy onLabor.
  destruct (sensitivity_energy_response baseTCO scenario context p clock)
    as [HhighE HlowE].
  destruct (sensitivity_labor_response baseTCO scenario context p clock)
    as [HhighL HlowL].
  fold onEnergy in HhighE, HlowE. fold onLabor in HhighL, HlowL.
  split; [ | split; reflexivity].
  unfold view_sensitivities.
  eexists. eexists. eexists.
  split; [reflexivity | ].
  cbn [SensitivityView.param SensitivityView.lowResult
       SensitivityView.highResult SensitivityView.energy
       SensitivityView.labor input].
  rewrite HlowE, HhighE, HlowL, HhighL.
  change (ComputationBreakdown.combined (ComputationBreakdown.multipliers base))
    with (combinedOf scenario).
  change (grandTotalIn (Sensitivity.base onEnergy))
    with (ComputationBreakdown.grandTotal (ComputationBreakdown.totals base)).
  change (grandTotalIn (Sensitivity.base onLabor))
    with (ComputationBreakdown.grandTotal (ComputationBreakdown.totals base)).
  cbn [sub add mul R_number].
  repeat split; reflexivity.
Qed.

(** The investment enters the grand total through the expected annual loss
    alone. *)
Lemma grandTotalOf_with_investment :
  forall baseTCO scenario context (a : R) clock clock',
    let itemized :=
      SecurityCosts.total (calculateSecurityCosts scenario context) in
    grandTotalOf baseTCO (with_investment scenario a) context clock'
    = grandTotalOf baseTCO scenario context clock
      - RiskCosts.expectedAnnualLoss
          (calculateRiskCosts scenario
             (itemized
              + SecurityParameters.annualInvestment
                  (ScenarioParameters.security scenario)))
      + RiskCosts.expectedAnnualLoss
          (calculateRiskCosts scenario (itemized + a)).
Proof.
  intros baseTCO scenario context a clock clock' itemized.
  rewrite !grandTotalOf_layers.
  change (SecurityCosts.total
            (calculateSecurityCosts (with_investment scenario a) context))
    with itemized.
  fold itemized.
  change (calculateRiskCosts (with_investment scenario a))
    with (calculateRiskCosts scenario).
  change (ComplianceCosts.total
            (calculateComplianceCosts (with_investment scenario a)
               default_laborHourlyRate))
    with (ComplianceCosts.total
            (calculateComplianceCosts scenario default_laborHourlyRate)).
  cbn [ScenarioParameters.security with_investment with_security
       with_annualInvestment SecurityParameters.annualInvestment
       ScenarioParameters.region ScenarioParameters.time
       ScenarioParameters.workload].
  cbn [add R_number]. ring.
Qed.

Lemma sensitivityOf_security :
  forall baseTCO scenario context p clock,
    let result :=
      sensitivityOf baseTCO scenario context SensitivityParameter.security p
        clock in
    let a :=
      SecurityParameters.annualInvestment
        (ScenarioParameters.security scenario) in
    exists clock1 clock2 : Clock,
      grandTotalIn (Sensitivity.base result)
      = grandTotalOf baseTCO scenario context clock
      /\ grandTotalIn (Sensitivity.low result)
         = grandTotalOf baseTCO (with_investment scenario (a * (1 - p)))
             context clock1
      /\ grandTotalIn (Sensitivity.high result)
         = grandTotalOf baseTCO (with_investment scenario (a * (1 + p)))
             context clock2.
Proof.
  intros baseTCO scenario context p clock result a.
  exists (fun n => clock (S n)), (fun n => clock (S (S n))).
  repeat split.
Qed.

(** X9. For a valid scenario and context and a perturbation between 0 and 1, the grand
    totals of [calculateSensitivity] on ["security"] come in the order
    high <= base <= low: more investment, less expected loss. The security
    row of the sensitivity view shows the opposite order, its high result
    above the base total and its low result below. *)
Theorem calculateSensitivity_security_order :
  forall (baseTCO : BaseTCOInput.t R) (scenario : ScenarioParameters.t R)
         (context : ComputationContext.t R) (p : R) (clock : Clock),
    valid_scenario scenario -> valid_context context ->
    0 <= p <= 1 ->
    let result :=
      sensitivityOf baseTCO scenario context SensitivityParameter.security p
        clock in
    let base := breakdownOf baseTCO scenario context clock in
    let input :=
      SensitivityView.mk_input (BaseTCOInput.energy baseTCO)
        (BaseTCOInput.labor baseTCO) in
    grandTotalIn (Sensitivity.high result)
    <= grandTotalIn (Sensitivity.base result)
    <= grandTotalIn (Sensitivity.low result)
    /\ Forall
         (fun row =>
            SensitivityView.param row = SensitivityParameter.security ->
            SensitivityView.lowResult row
            <= grandTotalIn (Sensitivity.base result)
            <= SensitivityView.highResult row)
         (view_sensitivities (Some base) (Some scenario) input p).
Proof.
  intros baseTCO scenario context p clock (_ & Hsec & Hrisk) Hctx [Hp0 Hp1]
         result base input.
  destruct (sensitivityOf_security baseTCO scenario context p clock)
    as (clock1 & clock2 & Hbase & Hlow & Hhigh).
  fold result in Hbase, Hlow, Hhigh.
  pose proof (calculateSecurityCosts_nonneg scenario context Hsec Hctx)
    as Hitemized.
  assert (Ha : 0 <= SecurityParameters.annualInvestment
                      (ScenarioParameters.security scenario))
    by (destruct Hsec as (Ha & _); exact Ha).
  set (a := SecurityParameters.annualInvestment
              (ScenarioParameters.security scenario)) in *.
  set (itemized := SecurityCosts.total
                     (calculateSecurityCosts scenario context)) in *.
  assert (Hlo : 0 <= a * (1 - p)) by (apply Rmult_le_pos; lra).
  assert (Hap : 0 <= a * p) by (apply Rmult_le_pos; lra).
  split.
  - rewrite Hbase, Hlow, Hhigh.
    rewrite (grandTotalOf_with_investment baseTCO scenario context _
               clock clock1),
      (grandTotalOf_with_investment baseTCO scenario context _ clock clock2).
    cbv zeta. fold itemized. fold a.
    pose proof (expectedAnnualLoss_antitone scenario
                  (itemized + a * (1 - p)) (itemized + a) Hrisk) as H1.
    pose proof (expectedAnnualLoss_antitone scenario
                  (itemized + a) (itemized + a * (1 + p)) Hrisk) as H2.
    split; [ | ].
    + assert (H := H2 ltac:(lra) ltac:(lra)). lra.
    + assert (H := H1 ltac:(lra) ltac:(lra)). lra.
  - unfold view_sensitivities.
    repeat (apply Forall_cons; [cbn [SensitivityView.param]; intro Hparam;
                                try discriminate Hparam | ]);
      [ | apply Forall_nil].
    cbn [SensitivityView.lowResult SensitivityView.highResult].
    change (grandTotalIn (Sensitivity.base result))
      with (ComputationBreakdown.grandTotal (ComputationBreakdown.totals base)).
    fold a. unfold decimal. cbn [sub add mul div of_Z R_number].
    change (10 ^ Z.of_nat 1)%Z with 10%Z.
    lra.
Qed.

Lemma calculateSensitivity_security_order_witness :
  valid_scenario testScenario
  /\ valid_context sampleContext
  /\ 0 <= 2 / 10 <= 1
  /\ grandTotalIn
       (Sensitivity.high
          (sensitivityOf sampleBaseTCO testScenario sampleContext
             SensitivityParameter.security (2 / 10) frozenClock))
     <= grandTotalIn
          (Sensitivity.low
             (sensitivityOf sampleBaseTCO testScenario sampleContext
                SensitivityParameter.security (2 / 10) frozenClock)).
Proof.
  pose proof valid_testScenario as Hscenario.
  pose proof valid_sampleContext as Hctx.
  assert (Hp : 0 <= 2 / 10 <= 1) by lra.
  destruct (calculateSensitivity_security_order sampleBaseTCO testScenario
              sampleContext (2 / 10) frozenClock Hscenario Hctx Hp)
    as ([Hhigh Hlow] & _).
  split; [exact Hscenario | split; [exact Hctx | ]].
  split; [exact Hp | ].
  eapply Rle_trans; [exact Hhigh | exact Hlow].
Defined.

(** ** The comparator *)

Lemma push_if_nil :
  forall (A : Type) (c : bool) (d : A) (l : list A),
    push_if c d l = [] <-> c = false /\ l = [].
Proof.
  intros A c d l. unfold push_if. destruct c.
  - split; [intro H; destruct l; discriminate H | intros [H _]; discriminate H].
  - split; [intro H; split; [reflexivity | exact H] | intros [_ H]; exact H].
Qed.

Lemma push_if_length :
  forall (A : Type) (c : bool) (d : A) (l : list A),
    (List.length (push_if c d l) <= S (List.length l))%nat.
Proof.
  intros A c d l. unfold push_if. destruct c.
  - rewrite length_app. cbn. lia.
  - lia.
Qed.

Lemma map_push_if :
  forall (A B : Type) (f : A -> B) (c : bool) (d : A) (l : list A),
    map f (push_if c d l) = push_if c (f d) (map f l).
Proof.
  intros A B f c d l. unfold push_if. destruct c; [ | reflexivity].
  rewrite map_app. reflexivity.
Qed.

Lemma filter_push_if :
  forall (A : Type) (keep : A -> bool) (c : bool) (d : A) (l : list A),
    filter keep (push_if c d l)
    = if keep d then push_if c d (filter keep l) else filter keep l.
Proof.
  intros A keep c d l. unfold push_if. destruct c.
  - rewrite filter_app. cbn. destruct (keep d); [reflexivity | ].
    apply app_nil_r.
  - destruct (keep d); reflexivity.
Qed.

Lemma Region_to_string_differs :
  forall r r' : Region.t,
    negb (String.eqb (Region_to_string r) (Region_to_string r')) = false
    <-> r = r'.
Proof.
  intros [] []; cbn; split; intro H; try reflexivity; discriminate H.
Qed.

Lemma WorkloadClass_to_string_differs :
  forall c c' : WorkloadClass.t,
    negb (String.eqb (WorkloadClass_to_string c) (WorkloadClass_to_string c'))
    = false <-> c = c'.
Proof.
  intros [] []; cbn; split; intro H; try reflexivity; discriminate H.
Qed.

Lemma RegulatoryIntensity_to_string_differs :
  forall i i' : RegulatoryIntensity.t,
    negb (String.eqb (RegulatoryIntensity_to_string i)
                     (RegulatoryIntensity_to_string i'))
    = false <-> i = i'.
Proof.
  intros [] []; cbn; split; intro H; try reflexivity; discriminate H.
Qed.

Lemma bool_differs :
  forall b b' : bool, negb (Bool.eqb b b') = false <-> b = b'.
Proof.
  intros [] []; cbn; split; intro H; try reflexivity; discriminate H.
Qed.

Lemma strict_neq_R :
  forall x y : R, strict_neq x y = false <-> x = y.
Proof.
  intros x y. unfold strict_neq. cbn.
  destruct (Req_dec_T x y) as [Heq | Hne]; cbn; split; intro H;
    try reflexivity; try assumption; try discriminate H.
  exfalso. apply Hne, H.
Qed.

(** X10. In real arithmetic [compareScenarios] lists no parameter difference
    exactly when the two scenarios agree on the six fields it compares
    (region, year, workload class, AI flag, regulatory intensity, security
    investment): a difference in any other field, such as the escalation
    rate, the shock or the risk parameters, is never listed. The list has at
    most six entries. *)
Theorem compareScenarios_differences_empty_iff :
  forall (breakdownA breakdownB : ComputationBreakdown.t R)
         (scenarioA scenarioB : ScenarioParameters.t R),
    let differences :=
      ScenarioComparison.parameterDifferences
        (compareScenarios breakdownA breakdownB scenarioA scenarioB) in
    (differences = [] <->
     ScenarioParameters.region scenarioA = ScenarioParameters.region scenarioB
     /\ TimeParameters.year (ScenarioParameters.time scenarioA)
        = TimeParameters.year (ScenarioParameters.time scenarioB)
     /\ WorkloadParameters.utilizationClass
          (ScenarioParameters.workload scenarioA)
        = WorkloadParameters.utilizationClass
            (ScenarioParameters.workload scenarioB)
     /\ WorkloadParameters.aiEnabled (ScenarioParameters.workload scenarioA)
        = WorkloadParameters.aiEnabled (ScenarioParameters.workload scenarioB)
     /\ ScenarioParameters.regulatoryIntensity scenarioA
        = ScenarioParameters.regulatoryIntensity scenarioB
     /\ SecurityParameters.annualInvestment
          (ScenarioParameters.security scenarioA)
        = SecurityParameters.annualInvestment
            (ScenarioParameters.security scenarioB))
    /\ (List.length differences <= 6)%nat.
Proof.
  intros breakdownA breakdownB scenarioA scenarioB differences.
  unfold differences, compareScenarios.
  cbn [ScenarioComparison.parameterDifferences].
  split.
  - rewrite !push_if_nil.
    rewrite Region_to_string_differs, WorkloadClass_to_string_differs,
      RegulatoryIntensity_to_string_differs, bool_differs, !strict_neq_R.
    tauto.
  - repeat (eapply Nat.le_trans; [apply push_if_length | ];
            apply le_n_S).
    cbn. lia.
Qed.

(** X11. Comparing a breakdown with itself under one scenario gives six
    deltas of 0 and no parameter difference, and a percentage change of 0
    when the grand total is not zero. *)
Theorem compareScenarios_with_itself :
  forall (breakdown : ComputationBreakdown.t R)
         (scenario : ScenarioParameters.t R),
    grandTotalIn breakdown <> 0 ->
    let comparison := compareScenarios breakdown breakdown scenario scenario in
    ScenarioComparison.deltas comparison
    = ScenarioComparison.mk_deltas 0 0 0 0 0 0 0
    /\ ScenarioComparison.parameterDifferences comparison = [].
Proof.
  intros breakdown scenario Hgrand comparison.
  split.
  - unfold comparison, compareScenarios. cbn [ScenarioComparison.deltas].
    unfold grandTotalIn in Hgrand. cbn [sub mul div of_Z R_number].
    f_equal; try ring. field. exact Hgrand.
  - unfold comparison, compareScenarios.
    cbn [ScenarioComparison.parameterDifferences].
    rewrite !push_if_nil.
    rewrite Region_to_string_differs, WorkloadClass_to_string_differs,
      RegulatoryIntensity_to_string_differs, bool_differs, !strict_neq_R.
    tauto.
Qed.

Lemma valid_breakdown_grandTotal_nonzero :
  grandTotalIn (breakdownOf sampleBaseTCO testScenario sampleContext frozenClock)
  <> 0.
Proof.
  pose proof (breakdownOf_totals_nonneg sampleBaseTCO testScenario
                sampleContext frozenClock valid_sampleBaseTCO
                valid_testScenario valid_sampleContext)
    as (_ & Hadj & Hcomp & Hsec & Hrisk).
  destruct (breakdownOf_totals sampleBaseTCO testScenario sampleContext
              frozenClock) as (_ & _ & _ & _ & _ & Hsum).
  unfold grandTotalIn. rewrite Hsum. lra.
Qed.

Lemma compareScenarios_with_itself_witness :
  let breakdown :=
    breakdownOf sampleBaseTCO testScenario sampleContext frozenClock in
  grandTotalIn breakdown <> 0
  /\ ScenarioComparison.percentageChange
       (ScenarioComparison.deltas
          (compareScenarios breakdown breakdown testScenario testScenario))
     = 0.
Proof.
  intro breakdown.
  pose proof valid_breakdown_grandTotal_nonzero as Hgrand.
  fold breakdown in Hgrand.
  destruct (compareScenarios_with_itself breakdown testScenario Hgrand)
    as [Hdeltas _].
  split; [exact Hgrand | ].
  rewrite Hdeltas. reflexivity.
Defined.

(** X12. For two breakdowns that the engine computes from valid inputs, the
    grand-total delta of [compareScenarios] is the sum of the five category
    deltas, the baseline grand total is positive, and the percentage change
    times the baseline grand total is 100 times the grand-total delta. *)
Theorem compareScenarios_of_engine_breakdowns :
  forall (baseA baseB : BaseTCOInput.t R)
         (scenarioA scenarioB : ScenarioParameters.t R)
         (contextA contextB : ComputationContext.t R) (clockA clockB : Clock),
    valid_baseTCO baseA -> valid_scenario scenarioA -> valid_context contextA ->
    valid_baseTCO baseB -> valid_scenario scenarioB -> valid_context contextB ->
    let breakdownA := breakdownOf baseA scenarioA contextA clockA in
    let breakdownB := breakdownOf baseB scenarioB contextB clockB in
    let deltas :=
      ScenarioComparison.deltas
        (compareScenarios breakdownA breakdownB scenarioA scenarioB) in
    ScenarioComparison.grandTotal deltas
    = ScenarioComparison.baseTCO deltas + ScenarioComparison.adjustments deltas
      + ScenarioComparison.compliance deltas
      + ScenarioComparison.security deltas + ScenarioComparison.risk deltas
    /\ 0 < grandTotalIn breakdownA
    /\ ScenarioComparison.percentageChange deltas * grandTotalIn breakdownA
       = 100 * ScenarioComparison.grandTotal deltas.
Proof.
  intros baseA baseB scenarioA scenarioB contextA contextB clockA clockB
         HbaseA HscenarioA HctxA HbaseB HscenarioB HctxB
         breakdownA breakdownB deltas.
  pose proof (breakdownOf_totals_nonneg baseA scenarioA contextA clockA
                HbaseA HscenarioA HctxA) as (_ & Hadj & Hcomp & Hsec & Hrisk).
  destruct (breakdownOf_totals baseA scenarioA contextA clockA)
    as (_ & _ & _ & _ & _ & HsumA).
  destruct (breakdownOf_totals baseB scenarioB contextB clockB)
    as (_ & _ & _ & _ & _ & HsumB).
  fold breakdownA in Hadj, Hcomp, Hsec, Hrisk, HsumA.
  fold breakdownB in HsumB.
  assert (Hpos : 0 < grandTotalIn breakdownA)
    by (unfold grandTotalIn; rewrite HsumA; lra).
  unfold deltas, compareScenarios.
  cbn [ScenarioComparison.deltas ScenarioComparison.grandTotal
       ScenarioComparison.baseTCO ScenarioComparison.adjustments
       ScenarioComparison.compliance ScenarioComparison.security
       ScenarioComparison.risk ScenarioComparison.percentageChange].
  cbn [sub mul div of_Z R_number].
  split; [rewrite HsumA, HsumB; ring | split; [exact Hpos | ]].
  unfold grandTotalIn in *. field. lra.
Qed.

Lemma compareScenarios_of_engine_breakdowns_witness :
  valid_baseTCO sampleBaseTCO
  /\ valid_scenario testScenario
  /\ valid_context sampleContext
  /\ 0 < grandTotalIn
           (breakdownOf sampleBaseTCO testScenario sampleContext frozenClock).
Proof.
  pose proof valid_sampleBaseTCO as Hbase.
  pose proof valid_testScenario as Hscenario.
  pose proof valid_sampleContext as Hctx.
  destruct (compareScenarios_of_engine_breakdowns sampleBaseTCO sampleBaseTCO
              testScenario testScenario sampleContext sampleContext
              frozenClock tickingClock Hbase Hscenario Hctx Hbase Hscenario
              Hctx) as (_ & Hpos & _).
  exact (conj Hbase (conj Hscenario (conj Hctx Hpos))).
Defined.

(** ** The comparison view *)

(** X13. Given both breakdowns and both scenarios, the comparison view
    computes the six deltas of [compareScenarios], the same percentage
    change whenever the baseline grand total is not zero (and 0 where it is),
    and the same list of differing parameters with one more entry, the
    escalation rate, where the rates differ; given less it computes nothing.
    This holds in every arithmetic and for any formatting of numbers. *)
Theorem view_comparison_matches_engine :
  forall (num : Type) (Hnum : JSNumber num) (Hformat : JSFormat num)
         (breakdownA breakdownB : ComputationBreakdown.t num)
         (scenarioA scenarioB : ScenarioParameters.t num),
    let engine := compareScenarios breakdownA breakdownB scenarioA scenarioB in
    let engineDeltas := ScenarioComparison.deltas engine in
    (exists view : ComparisonView.t num,
        view_comparison (Some breakdownA) (Some breakdownB) (Some scenarioA)
          (Some scenarioB) = Some view
        /\ ComparisonView.deltas view
           = ComparisonView.mk_deltas
               (ScenarioComparison.baseTCO engineDeltas)
               (ScenarioComparison.adjustments engineDeltas)
               (ScenarioComparison.compliance engineDeltas)
               (ScenarioComparison.security engineDeltas)
               (ScenarioComparison.risk engineDeltas)
               (ScenarioComparison.grandTotal engineDeltas)
        /\ ComparisonView.percentageChange view
           = (if strict_neq
                   (ComputationBreakdown.grandTotal
                      (ComputationBreakdown.totals breakdownA)) (of_Z 0)
              then ScenarioComparison.percentageChange engineDeltas
              else of_Z 0)
        /\ view_names_without_rate (ComparisonView.paramDiffs view)
           = map ScenarioComparison.parameter
               (ScenarioComparison.parameterDifferences engine)
        /\ (In "Escalation Rate"%string
              (map ComparisonView.param (ComparisonView.paramDiffs view))
            <-> strict_neq
                  (TimeParameters.escalationRate
                     (ScenarioParameters.time scenarioA))
                  (TimeParameters.escalationRate
                     (ScenarioParameters.time scenarioB)) = true))
    /\ view_comparison None (Some breakdownB) (Some scenarioA) (Some scenarioB)
       = None
    /\ view_comparison (Some breakdownA) None (Some scenarioA) (Some scenarioB)
       = None
    /\ view_comparison (Some breakdownA) (Some breakdownB) None (Some scenarioB)
       = None
    /\ view_comparison (Some breakdownA) (Some breakdownB) (Some scenarioA) None
       = None.
Proof.
  intros num Hnum Hformat breakdownA breakdownB scenarioA scenarioB engine
         engineDeltas.
  split; [ | repeat split].
  eexists. split; [reflexivity | ].
  split; [reflexivity | ].
  split; [reflexivity | ].
  cbn [ComparisonView.paramDiffs].
  unfold view_names_without_rate, engine, compareScenarios.
  cbn [ScenarioComparison.parameterDifferences].
  split.
  - repeat (rewrite filter_push_if; cbn [ComparisonView.param String.eqb
              Ascii.eqb Bool.eqb negb]).
    rewrite !map_push_if. reflexivity.
  - rewrite !map_push_if. cbn [map ComparisonView.param].
    set (rate := strict_neq _ _).
    unfold push_if.
    repeat match goal with
           | |- context [if ?c then _ else _] =>
               lazymatch c with
               | rate => fail
               | _ => destruct c
               end
           end;
      destruct rate; cbn; split; intro H; try reflexivity;
      try discriminate H;
      repeat match goal with
             | H : _ \/ _ |- _ => destruct H as [H | H]
             | H : _ = "Escalation Rate"%string |- _ => discriminate H
             | H : False |- _ => destruct H
             end;
      auto 10.
Qed.

(** ** The time axis *)

Lemma getTimeMultipliers_energy :
  forall time : TimeParameters.t R,
    MultiplierSet.energy (getTimeMultipliers time)
    = escalationFactor time * effectiveShock time.
Proof.
  intro time.
  unfold escalationFactor, getTimeMultipliers, effectiveShock.
  cbn [MultiplierSet.energy MultiplierSet.labor mul R_number].
  f_equal. destruct (TimeParameters.shockEnabled time); [ | reflexivity].
  destruct (TimeParameters.shockFactor time) as [f | ]; [ | reflexivity].
  unfold or_default, truthy. cbn.
  destruct (Req_dec_T f f) as [_ | Hne]; [ | exfalso; apply Hne; reflexivity].
  destruct (Req_dec_T f 0); reflexivity.
Qed.

(** X14. The energy factor of the time axis is its escalation factor times
    the shock, and the shock counts only when it is enabled with a factor
    that is there and not zero: a missing or zero factor gives the factors
    of a scenario without shock. Labor and cooling carry the escalation
    factor alone; compliance and monitoring stay at 1. *)
Theorem getTimeMultipliers_shock :
  forall time : TimeParameters.t R,
    let set := getTimeMultipliers time in
    MultiplierSet.energy set = escalationFactor time * effectiveShock time
    /\ MultiplierSet.labor set = escalationFactor time
    /\ MultiplierSet.cooling set = escalationFactor time
    /\ MultiplierSet.compliance set = 1
    /\ MultiplierSet.monitoring set = 1
    /\ (TimeParameters.shockEnabled time = false
        \/ TimeParameters.shockFactor time = None
        \/ TimeParameters.shockFactor time = Some 0 ->
        MultiplierSet.energy set = escalationFactor time).
Proof.
  intros time set.
  pose proof (getTimeMultipliers_energy time) as Henergy.
  fold set in Henergy.
  split; [exact Henergy | ].
  repeat split.
  intro Hcases. rewrite Henergy. unfold effectiveShock.
  destruct Hcases as [Hoff | [Hnone | Hzero]].
  - rewrite Hoff. ring.
  - rewrite Hnone. destruct (TimeParameters.shockEnabled time); ring.
  - rewrite Hzero. destruct (TimeParameters.shockEnabled time); [ | ring].
    destruct (Req_dec_T 0 0) as [_ | Hne]; [ring | ].
    exfalso. apply Hne. reflexivity.
Qed.

(** X15. The time entry of a breakdown reports as [escalationFactor] the
    energy factor of the time axis, which is the escalation factor times the
    shock in effect: with a shock it is not the factor that labor and cooling
    are escalated by. Its [shockFactor] is the scenario's factor when the
    shock is enabled and 1 when it is not. *)
Theorem breakdown_time_entry :
  forall (baseTCO : BaseTCOInput.t R) (scenario : ScenarioParameters.t R)
         (context : ComputationContext.t R) (clock : Clock),
    let time := ScenarioParameters.time scenario in
    let entry :=
      ComputationBreakdown.time
        (ComputationBreakdown.multipliers
           (breakdownOf baseTCO scenario context clock)) in
    ComputationBreakdown.escalationFactor entry
    = escalationFactor time * effectiveShock time
    /\ (effectiveShock time = 1 ->
        ComputationBreakdown.escalationFactor entry = escalationFactor time)
    /\ ComputationBreakdown.shockFactor entry
       = (if TimeParameters.shockEnabled time
          then TimeParameters.shockFactor time else Some 1).
Proof.
  intros baseTCO scenario context clock time entry.
  pose proof (getTimeMultipliers_energy time) as Henergy.
  change (ComputationBreakdown.escalationFactor entry)
    with (MultiplierSet.energy (getTimeMultipliers time)).
  split; [exact Henergy | split; [ | reflexivity]].
  intro Hone. rewrite Henergy, Hone. ring.
Qed.

Lemma R_pow_zero : forall x : R, R_pow x 0 = 1.
Proof.
  intro x. change 0 with (IZR 0). rewrite R_pow_IZR. reflexivity.
Qed.

(** X16. From the baseline year on, the escalation factor inside
    [getTimeMultipliers] is the value of [calculateEscalationFactor]; and for
    a rate that is not negative [calculateEscalationFactor] is at least 1 in
    every year: it never deflates. *)
Theorem escalation_helpers_agree_from_baseline :
  forall time : TimeParameters.t R,
    0 <= TimeParameters.escalationRate time ->
    (2024 <= TimeParameters.year time ->
     escalationFactor time
     = calculateEscalationFactor (TimeParameters.year time)
         (TimeParameters.escalationRate time))
    /\ 1 <= calculateEscalationFactor (TimeParameters.year time)
              (TimeParameters.escalationRate time).
Proof.
  intros time Hrate.
  unfold calculateEscalationFactor, TIME_PARAMETERS.
  cbn [TimeConfig.baselineYear sub add leb of_Z R_number Math_pow R_math].
  split.
  - intro Hyear. rewrite escalationFactor_eq.
    destruct (Rle_dec (TimeParameters.year time - 2024) 0) as [Hle | _];
      [ | reflexivity].
    replace (TimeParameters.year time - 2024) with 0 by lra.
    apply R_pow_zero.
  - destruct (Rle_dec (TimeParameters.year time - 2024) 0) as [_ | Hgt];
      [lra | ].
    apply Rle_trans
      with (R_pow (1 + TimeParameters.escalationRate time) 0).
    + rewrite R_pow_zero. lra.
    + apply R_pow_monotone; lra.
Qed.

Lemma escalation_helpers_agree_from_baseline_witness :
  let time := TimeParameters.mk 2027 (25 / 1000) None false in
  0 <= TimeParameters.escalationRate time
  /\ 2024 <= TimeParameters.year time
  /\ escalationFactor time = calculateEscalationFactor 2027 (25 / 1000).
Proof.
  intro time.
  assert (Hrate : 0 <= TimeParameters.escalationRate time) by (cbn; lra).
  assert (Hyear : 2024 <= TimeParameters.year time) by (cbn; lra).
  destruct (escalation_helpers_agree_from_baseline time Hrate) as [Hagree _].
  exact (conj Hrate (conj Hyear (Hagree Hyear))).
Defined.

(** ** The documentation of the multipliers *)

(** X17. The combined set that [getMultiplierDocumentation] reports has the
    energy, labor, cooling and monitoring factors of the combined set that
    [computeScenarioTCO] applies, and a compliance factor that is the
    engine's times the regulatory compliance multiplier: the documentation
    includes the regulatory axis, the engine's adjustments do not. The sets
    it reports per axis are those of the resolvers. *)
Theorem getMultiplierDocumentation_combined :
  forall (Hformat : JSFormat R) (scenario : ScenarioParameters.t R),
    let documentation :=
      getMultiplierDocumentation (ScenarioParameters.region scenario)
        (ScenarioParameters.time scenario)
        (ScenarioParameters.workload scenario)
        (ScenarioParameters.regulatoryIntensity scenario) in
    let documented :=
      MultiplierDocumentation.combined_multipliers
        (MultiplierDocumentation.combined documentation) in
    let applied := combinedOf scenario in
    MultiplierSet.energy documented = MultiplierSet.energy applied
    /\ MultiplierSet.labor documented = MultiplierSet.labor applied
    /\ MultiplierSet.cooling documented = MultiplierSet.cooling applied
    /\ MultiplierSet.monitoring documented = MultiplierSet.monitoring applied
    /\ MultiplierSet.compliance documented
       = MultiplierSet.compliance applied
         * RegulatoryConfig.complianceMultiplier
             (REGULATORY_PARAMETERS
                (ScenarioParameters.regulatoryIntensity scenario))
    /\ MultiplierDocumentation.axis_multipliers
         (MultiplierDocumentation.region documentation)
       = getRegionMultipliers (ScenarioParameters.region scenario)
    /\ MultiplierDocumentation.time_multipliers
         (MultiplierDocumentation.time documentation)
       = getTimeMultipliers (ScenarioParameters.time scenario)
    /\ MultiplierDocumentation.axis_multipliers
         (MultiplierDocumentation.workload documentation)
       = getWorkloadMultipliers (ScenarioParameters.workload scenario).
Proof.
  intros Hformat scenario documentation documented applied.
  assert (Hdoc :
    documented
    = combine_step applied
        (getRegulatoryMultipliers
           (ScenarioParameters.regulatoryIntensity scenario))).
  { reflexivity. }
  rewrite Hdoc.
  unfold combine_step, getRegulatoryMultipliers.
  cbn [MultiplierSet.energy MultiplierSet.labor MultiplierSet.cooling
       MultiplierSet.monitoring MultiplierSet.compliance mul of_Z R_number].
  repeat split; ring.
Qed.

(** ** The helpers of the constant tables *)

(** X18. [getWorkloadMultipliers] of the constants file and
    [getWorkloadMultipliers] of the multipliers service compute the same
    energy, cooling and monitoring factors for every class and AI flag, in
    every arithmetic; the service adds a labor and a compliance factor of 1.
    Without AI the constants helper returns the table entry itself; with AI
    it appends the AI examples to the examples of the class. *)
Theorem getWorkloadMultipliers_implementations_agree :
  forall (num : Type) (Hnum : JSNumber num) (Hmath : JSMath num)
         (utilizationClass : WorkloadClass.t) (aiEnabled : bool),
    let entry :=
      WorkloadConstants.getWorkloadMultipliers (num := num) utilizationClass
        aiEnabled in
    let set :=
      getWorkloadMultipliers (num := num)
        (WorkloadParameters.mk utilizationClass aiEnabled) in
    WorkloadConfig.energy (WorkloadEntry.config entry)
    = MultiplierSet.energy set
    /\ WorkloadConfig.cooling (WorkloadEntry.config entry)
       = MultiplierSet.cooling set
    /\ WorkloadConfig.monitoring (WorkloadEntry.config entry)
       = MultiplierSet.monitoring set
    /\ MultiplierSet.labor set = of_Z 1
    /\ MultiplierSet.compliance set = of_Z 1
    /\ (aiEnabled = false ->
        entry = WorkloadConstants.entry (Class utilizationClass))
    /\ (aiEnabled = true ->
        WorkloadEntry.examples entry
        = WORKLOAD_examples (Class utilizationClass)
          ++ WORKLOAD_examples AI_accelerated).
Proof.
  intros num Hnum Hmath utilizationClass aiEnabled entry set.
  unfold entry, set. destruct aiEnabled.
  - repeat split; intro H; discriminate H.
  - repeat split. intro H. discriminate H.
Qed.

(** X19. For every regulatory intensity the compliance calculator of the
    constants file prices the audit, documentation, advisory and
    certification items as [calculateComplianceCosts] of the engine does at
    its default hourly rate, and adds training (500 per employee) and
    tooling (25000 times the compliance multiplier): for a head count that
    is not negative its total exceeds the engine's by at least 17500. *)
Theorem calculateComplianceCosts_implementations :
  forall (scenario : ScenarioParameters.t R) (employeeCount : R),
    0 <= employeeCount ->
    let full :=
      RegulatoryConstants.calculateComplianceCosts
        (ScenarioParameters.regulatoryIntensity scenario) employeeCount in
    let engine := calculateComplianceCosts scenario default_laborHourlyRate in
    FullComplianceCosts.auditCosts full = ComplianceCosts.auditCosts engine
    /\ FullComplianceCosts.documentationCosts full
       = ComplianceCosts.documentationCosts engine
    /\ FullComplianceCosts.advisoryCosts full
       = ComplianceCosts.advisoryCosts engine
    /\ FullComplianceCosts.certificationCosts full
       = ComplianceCosts.certificationCosts engine
    /\ FullComplianceCosts.total full
       = ComplianceCosts.total engine + 500 * employeeCount
         + 25000 * RegulatoryConfig.complianceMultiplier
                     (REGULATORY_PARAMETERS
                        (ScenarioParameters.regulatoryIntensity scenario))
    /\ ComplianceCosts.total engine + 17500 <= FullComplianceCosts.total full.
Proof.
  intros scenario employeeCount Hcount full engine.
  unfold full, engine, RegulatoryConstants.calculateComplianceCosts,
    calculateComplianceCosts, default_laborHourlyRate.
  destruct (ScenarioParameters.regulatoryIntensity scenario); cbn;
    repeat split; lra.
Qed.

Lemma calculateComplianceCosts_implementations_witness :
  0 <= 50
  /\ FullComplianceCosts.total
       (RegulatoryConstants.calculateComplianceCosts
          (ScenarioParameters.regulatoryIntensity testScenario) 50)
     = ComplianceCosts.total
         (calculateComplianceCosts testScenario default_laborHourlyRate)
       + 500 * 50
       + 25000 * RegulatoryConfig.complianceMultiplier
                   (REGULATORY_PARAMETERS
                      (ScenarioParameters.regulatoryIntensity testScenario)).
Proof.
  assert (Hcount : 0 <= 50) by lra.
  destruct (calculateComplianceCosts_implementations testScenario 50 Hcount)
    as (_ & _ & _ & _ & Htotal & _).
  exact (conj Hcount Htotal).
Defined.

(** ** The risk view *)

Lemma or_default_zero :
  forall x : R, or_default (Some x) 0 = x.
Proof.
  intro x. unfold or_default, truthy. cbn.
  destruct (Req_dec_T x x) as [_ | Hne]; [ | exfalso; apply Hne; reflexivity].
  destruct (Req_dec_T x 0) as [Hzero | _]; cbn; [symmetry; exact Hzero | ].
  reflexivity.
Qed.

(** X20. The risk view repeats the formula of [calculateRiskCosts], but the
    page hands it the itemized security costs of the breakdown alone,
    without the annual investment that the engine adds: for valid inputs the
    expected annual loss on the view is the engine's loss at the itemized
    costs, and never below the loss in the breakdown. Without an active
    scenario the view computes nothing, and without a breakdown the page
    hands over 0. *)
Theorem view_risk_against_engine :
  forall (baseTCO : BaseTCOInput.t R) (scenario : ScenarioParameters.t R)
         (context : ComputationContext.t R) (clock : Clock),
    valid_scenario scenario -> valid_context context ->
    let breakdown := breakdownOf baseTCO scenario context clock in
    let itemized :=
      SecurityCosts.total (calculateSecurityCosts scenario context) in
    page_totalSecurityInvestment (Some breakdown) = itemized
    /\ (exists view : RiskView.t R,
           view_risk (Some scenario)
             (page_totalSecurityInvestment (Some breakdown)) = Some view
           /\ RiskView.securityReductionFactor view
              = RiskCosts.securityReductionFactor
                  (calculateRiskCosts scenario itemized)
           /\ RiskView.adjustedProbability view
              = RiskCosts.adjustedProbability
                  (calculateRiskCosts scenario itemized)
           /\ RiskView.expectedAnnualLoss view
              = RiskCosts.expectedAnnualLoss
                  (calculateRiskCosts scenario itemized)
           /\ RiskCosts.expectedAnnualLoss
                (ComputationBreakdown.riskCosts breakdown)
              <= RiskView.expectedAnnualLoss view)
    /\ view_risk None (page_totalSecurityInvestment (Some breakdown)) = None
    /\ page_totalSecurityInvestment (num := R) None = 0.
Proof.
  intros baseTCO scenario context clock (_ & Hsec & Hrisk) Hctx breakdown
         itemized.
  assert (Hpage : page_totalSecurityInvestment (Some breakdown) = itemized).
  { unfold page_totalSecurityInvestment. cbn [option_map of_Z R_number].
    apply or_default_zero. }
  split; [exact Hpage | ].
  split; [ | split; reflexivity].
  rewrite Hpage. eexists. split; [reflexivity | ].
  split; [reflexivity | split; [reflexivity | split; [reflexivity | ]]].
  cbn [RiskView.expectedAnnualLoss].
  change (RiskCosts.expectedAnnualLoss
            (ComputationBreakdown.riskCosts breakdown))
    with (RiskCosts.expectedAnnualLoss
            (calculateRiskCosts scenario
               (itemized
                + SecurityParameters.annualInvestment
                    (ScenarioParameters.security scenario)))).
  pose proof (calculateSecurityCosts_nonneg scenario context Hsec Hctx)
    as Hitemized.
  fold itemized in Hitemized.
  destruct Hsec as (Hinv & _).
  apply (expectedAnnualLoss_antitone scenario itemized
           (itemized
            + SecurityParameters.annualInvestment
                (ScenarioParameters.security scenario)) Hrisk); lra.
Qed.

Lemma view_risk_against_engine_witness :
  valid_scenario testScenario
  /\ valid_context sampleContext
  /\ page_totalSecurityInvestment
       (Some (breakdownOf sampleBaseTCO testScenario sampleContext
                frozenClock))
     = SecurityCosts.total (calculateSecurityCosts testScenario sampleContext).
Proof.
  pose proof valid_testScenario as Hscenario.
  pose proof valid_sampleContext as Hctx.
  destruct (view_risk_against_engine sampleBaseTCO testScenario sampleContext
              frozenClock Hscenario Hctx) as (Hpage & _).
  exact (conj Hscenario (conj Hctx Hpage)).
Defined.

(** ** The scenario store *)

Section StoreProperties.
Context {num : Type}.

Lemma mapM_cons :
  forall (A B : Type) (f : A -> IO B) (x : A) (l : list A) (clock : Clock),
    mapM f (x :: l) clock
    = (fst (f x clock) :: fst (mapM f l (snd (f x clock))),
       snd (mapM f l (snd (f x clock)))).
Proof.
  intros A B f x l clock. cbn [mapM]. unfold bind, ret.
  destruct (f x clock) as [y clock1]. cbn [fst snd].
  destruct (mapM f l clock1) as [ys clock2]. reflexivity.
Qed.

Lemma setBaseline_one_rebaselined :
  forall (id : string) (s : ScenarioParameters.t num) (clock : Clock),
    rebaselined id s (fst (setBaseline_one id s clock)).
Proof.
  intros id s clock. unfold setBaseline_one, bind, ret, rebaselined.
  destruct (String.eqb (ScenarioParameters.id s) id) eqn:Heq;
    cbn; repeat split; try reflexivity; intro Hne.
  apply String.eqb_eq in Heq. contradiction.
Qed.

Lemma setBaseline_rebaselined :
  forall (id : string) (l : list (ScenarioParameters.t num)) (clock : Clock),
    Forall2 (rebaselined id) l (run (setBaseline id l) clock).
Proof.
  intros id l. unfold run, setBaseline.
  induction l as [ | s l IH]; intro clock.
  - constructor.
  - rewrite mapM_cons. cbn [fst]. constructor.
    + apply setBaseline_one_rebaselined.
    + apply IH.
Qed.

Lemma rebaselined_find :
  forall (id : string) (l l' : list (ScenarioParameters.t num)),
    Forall2 (rebaselined id) l l' ->
    (forall s', List.find ScenarioParameters.isBaseline l' = Some s' ->
                ScenarioParameters.id s' = id)
    /\ (In id (map ScenarioParameters.id l) ->
        exists s', List.find ScenarioParameters.isBaseline l' = Some s')
    /\ (~ In id (map ScenarioParameters.id l) ->
        List.find ScenarioParameters.isBaseline l' = None).
Proof.
  intros id l l' Hall.
  induction Hall as [ | s s' l l' Hs _ IH].
  - cbn. split; [intros s' H; discriminate H | ].
    split; [intros [] | intros _; reflexivity].
  - destruct IH as (IHid & IHin & IHnot).
    destruct Hs as (Hid & _ & _ & _ & _ & _ & _ & _ & _ & _ & Hflag & _).
    cbn [List.find map In]. rewrite Hflag.
    destruct (String.eqb (ScenarioParameters.id s) id) eqn:Heq.
    + apply String.eqb_eq in Heq. repeat split.
      * intros s0 Hfound. injection Hfound as <-. rewrite Hid. exact Heq.
      * intros _. exists s'. reflexivity.
      * intro Hnot. exfalso. apply Hnot. left. exact Heq.
    + apply String.eqb_neq in Heq. repeat split.
      * exact IHid.
      * intros [Hhead | Htail]; [contradiction | apply IHin, Htail].
      * intro Hnot. apply IHnot. intro Hin. apply Hnot. right. exact Hin.
Qed.

Lemma rebaselined_unique :
  forall (id : string) (l l' : list (ScenarioParameters.t num)),
    Forall2 (rebaselined id) l l' ->
    NoDup (map ScenarioParameters.id l) ->
    (List.length (filter ScenarioParameters.isBaseline l') <= 1)%nat.
Proof.
  intros id l l' Hall.
  induction Hall as [ | s s' l l' Hs Hrest IH]; intro Hnodup.
  - cbn. lia.
  - cbn [map] in Hnodup. inversion_clear Hnodup as [ | ? ? Hfresh Hnodup'].
    destruct Hs as (_ & _ & _ & _ & _ & _ & _ & _ & _ & _ & Hflag & _).
    cbn [filter]. rewrite Hflag.
    destruct (String.eqb (ScenarioParameters.id s) id) eqn:Heq.
    + apply String.eqb_eq in Heq. rewrite Heq in Hfresh.
      destruct (rebaselined_find id l l' Hrest) as (_ & _ & Hnone).
      specialize (Hnone Hfresh).
      assert (Hempty : filter ScenarioParameters.isBaseline l' = []).
      { clear - Hnone. induction l' as [ | x l' IHl]; [reflexivity | ].
        cbn [List.find] in Hnone. cbn [filter].
        destruct (ScenarioParameters.isBaseline x); [discriminate Hnone | ].
        apply IHl, Hnone. }
      rewrite Hempty. cbn. lia.
    + apply IH, Hnodup'.
Qed.

(** X21. [setBaseline] keeps the scenarios, their order and all their
    parameters: in the new list each scenario is the old one with its
    baseline flag set to whether its id is the given id, and only a scenario
    of that id gets a new time stamp. *)
Theorem setBaseline_marks_the_id :
  forall (id : string) (scenarios : list (ScenarioParameters.t num))
         (clock : Clock),
    let updated := run (setBaseline id scenarios) clock in
    Forall2 (rebaselined id) scenarios updated
    /\ List.length updated = List.length scenarios
    /\ map ScenarioParameters.id updated = map ScenarioParameters.id scenarios.
Proof.
  intros id scenarios clock updated.
  pose proof (setBaseline_rebaselined id scenarios clock) as Hall.
  fold updated in Hall.
  split; [exact Hall | split].
  - symmetry. eapply Forall2_length. exact Hall.
  - clear - Hall. induction Hall as [ | s s' l l' Hs _ IH]; [reflexivity | ].
    cbn [map]. destruct Hs as (Hid & _). rewrite Hid, IH. reflexivity.
Qed.

(** X22. After [setBaseline] the baseline that [getBaselineScenario] finds
    has the given id; there is one exactly when some scenario has that id,
    so setting the baseline to an unknown id leaves the store without a
    baseline; and when the ids are distinct at most one scenario is flagged. *)
Theorem getBaselineScenario_after_setBaseline :
  forall (id : string) (scenarios : list (ScenarioParameters.t num))
         (clock : Clock),
    let updated := run (setBaseline id scenarios) clock in
    (forall s, getBaselineScenario updated = Some s ->
               ScenarioParameters.id s = id)
    /\ (In id (map ScenarioParameters.id scenarios) ->
        exists s, getBaselineScenario updated = Some s)
    /\ (~ In id (map ScenarioParameters.id scenarios) ->
        getBaselineScenario updated = None)
    /\ (NoDup (map ScenarioParameters.id scenarios) ->
        (List.length (filter ScenarioParameters.isBaseline updated) <= 1)%nat).
Proof.
  intros id scenarios clock updated.
  pose proof (setBaseline_rebaselined id scenarios clock) as Hall.
  fold updated in Hall.
  destruct (rebaselined_find id scenarios updated Hall)
    as (Hid & Hin & Hnot).
  unfold getBaselineScenario.
  split; [exact Hid | split; [exact Hin | split; [exact Hnot | ]]].
  apply (rebaselined_unique id scenarios updated Hall).
Qed.

End StoreProperties.

(** ** The grand total in closed form *)

(** X23. What the multipliers scale: in real arithmetic the grand total is the
    energy cost times the combined energy factor, the labor cost times the
    combined labor factor, the power-distribution cost with 40 percent of it
    at the combined cooling factor, the five other base costs as they are,
    and the compliance, security and risk totals. The compliance and
    monitoring factors of the combined set have no effect on it. *)
Theorem grandTotal_closed_form :
  forall (baseTCO : BaseTCOInput.t R) (scenario : ScenarioParameters.t R)
         (context : ComputationContext.t R) (clock : Clock),
    let breakdown := breakdownOf baseTCO scenario context clock in
    let totals := ComputationBreakdown.totals breakdown in
    let combined :=
      ComputationBreakdown.combined (ComputationBreakdown.multipliers breakdown)
    in
    ComputationBreakdown.grandTotal totals
    = BaseTCOInput.energy baseTCO * MultiplierSet.energy combined
      + BaseTCOInput.labor baseTCO * MultiplierSet.labor combined
      + BaseTCOInput.powerDistribution baseTCO
        * (6 / 10 + 4 / 10 * MultiplierSet.cooling combined)
      + (BaseTCOInput.land baseTCO + BaseTCOInput.servers baseTCO
         + BaseTCOInput.storage baseTCO + BaseTCOInput.network baseTCO
         + BaseTCOInput.software baseTCO)
      + ComputationBreakdown.totals_compliance totals
      + ComputationBreakdown.totals_security totals
      + ComputationBreakdown.totals_risk totals.
Proof.
  intros baseTCO scenario context clock breakdown totals combined.
  destruct (breakdownOf_totals baseTCO scenario context clock)
    as (Hb & Ha & _ & _ & _ & Hsum).
  fold breakdown in Hb, Ha, Hsum. fold totals in Hb, Ha, Hsum.
  rewrite Hsum, Hb, Ha.
  change (combineMultipliers
            [getRegionMultipliers (ScenarioParameters.region scenario);
             getTimeMultipliers (ScenarioParameters.time scenario);
             getWorkloadMultipliers (ScenarioParameters.workload scenario)])
    with combined.
  rewrite baseTotal_interface_order. unfold applyMultipliers, decimal.
  cbn [fold_left Adjustments.total add sub mul div of_Z R_number].
  change (10 ^ Z.of_nat 1)%Z with 10%Z.
  field.
Qed.

(** ** The life cycle of scenarios *)

Section LifecycleProperties.
Context {num : Type} `{JSMath num}.

Lemma othersThan_keep_id :
  forall (id a : string) (l : list (ScenarioParameters.t num)),
    In a (map ScenarioParameters.id l) -> a <> id ->
    In a (map ScenarioParameters.id (othersThan id l)).
Proof.
  intros id a l Hin Hne.
  apply in_map_iff in Hin. destruct Hin as (s & Hs & Hin).
  apply in_map_iff. exists s. split; [exact Hs | ].
  apply filter_In. split; [exact Hin | ].
  rewrite Hs. apply Bool.negb_true_iff. apply String.eqb_neq. exact Hne.
Qed.

Lemma othersThan_lack_id :
  forall (id : string) (l : list (ScenarioParameters.t num)),
    Forall (fun s => ScenarioParameters.id s <> id) (othersThan id l).
Proof.
  intros id l. apply Forall_forall. intros s Hin.
  apply filter_In in Hin. destruct Hin as [_ Hneg].
  apply Bool.negb_true_iff in Hneg. apply String.eqb_neq in Hneg. exact Hneg.
Qed.

Lemma deleteScenario_cases :
  forall (freshId id : string) (state : StoreState.t num) (clock : Clock),
    let state' := run (deleteScenario freshId id state) clock in
    match othersThan id (StoreState.scenarios state) with
    | [] =>
        StoreState.scenarios state'
        = [with_isBaseline
             (run (createDefaultScenario freshId (Some "Default Scenario"%string))
                clock) true]
        /\ StoreState.activeScenarioId state' = Some freshId
    | first :: rest =>
        StoreState.scenarios state' = first :: rest
        /\ StoreState.activeScenarioId state'
           = (if is_active (StoreState.activeScenarioId state) id
              then Some (ScenarioParameters.id first)
              else StoreState.activeScenarioId state)
    end.
Proof.
  intros freshId id state clock. cbv zeta.
  unfold deleteScenario, othersThan, has_id.
  destruct (filter
              (fun s => negb (String.eqb (ScenarioParameters.id s) id))
              (StoreState.scenarios state)) as [ | first rest].
  - split; reflexivity.
  - split; reflexivity.
Qed.

(** X24. [deleteScenario] never leaves the store empty: it keeps the
    scenarios of another id in their order, and when there is none it puts a
    default scenario there, flagged as baseline and made active. No scenario
    that it keeps has the id, the result stored under the id is dropped and
    the other results stay, and an active id that named a scenario before
    names one after. *)
Theorem deleteScenario_leaves_a_scenario :
  forall (freshId id : string) (state : StoreState.t num) (clock : Clock),
    let state' := run (deleteScenario freshId id state) clock in
    let others := othersThan id (StoreState.scenarios state) in
    StoreState.scenarios state' <> []
    /\ (others <> [] ->
        StoreState.scenarios state' = others
        /\ Forall (fun s => ScenarioParameters.id s <> id)
             (StoreState.scenarios state'))
    /\ (others = [] ->
        exists d : ScenarioParameters.t num,
          StoreState.scenarios state' = [d]
          /\ ScenarioParameters.id d = freshId
          /\ ScenarioParameters.name d = "Default Scenario"%string
          /\ ScenarioParameters.isBaseline d = true
          /\ StoreState.activeScenarioId state' = Some freshId)
    /\ StoreState.computationResults state' id = None
    /\ (forall key : string,
          key <> id ->
          StoreState.computationResults state' key
          = StoreState.computationResults state key)
    /\ (active_exists state -> active_exists state').
Proof.
  intros freshId id state clock state' others.
  pose proof (deleteScenario_cases freshId id state clock) as Hcases.
  pose proof (othersThan_lack_id id (StoreState.scenarios state)) as Hlack.
  pose proof (fun a => othersThan_keep_id id a (StoreState.scenarios state))
    as Hkeep.
  fold state' in Hcases. fold others in Hcases, Hlack, Hkeep.
  assert (Hresults :
            forall key : string,
              StoreState.computationResults state' key
              = if String.eqb key id then None
                else StoreState.computationResults state key).
  { intro key. unfold state', deleteScenario.
    destruct (filter (fun s => negb (has_id id s))
                (StoreState.scenarios state)); reflexivity. }
  destruct others as [ | first rest].
  - destruct Hcases as [Hlist Hactive].
    split; [rewrite Hlist; discriminate | ].
    split; [intro Hne; exfalso; apply Hne; reflexivity | ].
    split.
    { intros _. eexists. split; [exact Hlist | ].
      repeat split. exact Hactive. }
    split; [rewrite Hresults, String.eqb_refl; reflexivity | ].
    split.
    { intros key Hkey. rewrite Hresults.
      apply String.eqb_neq in Hkey. rewrite Hkey. reflexivity. }
    intros _. exists freshId. split; [exact Hactive | ].
    rewrite Hlist. left. reflexivity.
  - destruct Hcases as [Hlist Hactive].
    split; [rewrite Hlist; discriminate | ].
    split; [intros _; split; [exact Hlist | rewrite Hlist; exact Hlack] | ].
    split; [intro Hnil; discriminate Hnil | ].
    split; [rewrite Hresults, String.eqb_refl; reflexivity | ].
    split.
    { intros key Hkey. rewrite Hresults.
      apply String.eqb_neq in Hkey. rewrite Hkey. reflexivity. }
    intros (a & Ha & Hin). unfold active_exists.
    rewrite Hactive, Hlist, Ha. cbn [is_active].
    destruct (String.eqb a id) eqn:Heq.
    + exists (ScenarioParameters.id first). split; [reflexivity | ].
      left. reflexivity.
    + exists a. split; [reflexivity | ].
      apply Hkeep; [exact Hin | ]. apply String.eqb_neq. exact Heq.
Qed.

(** X25. Deleting the baseline while other scenarios remain leaves the store
    without a baseline: when every flagged scenario has the deleted id and a
    scenario of another id exists, [getBaselineScenario] finds nothing
    afterwards. *)
Theorem deleteScenario_of_the_baseline :
  forall (freshId id : string) (state : StoreState.t num) (clock : Clock),
    Forall
      (fun s =>
         ScenarioParameters.isBaseline s = true -> ScenarioParameters.id s = id)
      (StoreState.scenarios state) ->
    (exists s : ScenarioParameters.t num,
        In s (StoreState.scenarios state) /\ ScenarioParameters.id s <> id) ->
    getBaselineScenario
      (StoreState.scenarios (run (deleteScenario freshId id state) clock))
    = None.
Proof.
  intros freshId id state clock Hflagged (s & Hin & Hid).
  pose proof (deleteScenario_cases freshId id state clock) as Hcases.
  cbv zeta in Hcases.
  assert (Hs : In s (othersThan id (StoreState.scenarios state))).
  { apply filter_In. split; [exact Hin | ].
    apply Bool.negb_true_iff. apply String.eqb_neq. exact Hid. }
  destruct (othersThan id (StoreState.scenarios state)) as [ | first rest] eqn:Ho;
    [destruct Hs | ].
  destruct Hcases as [Hlist _]. rewrite Hlist, <- Ho.
  unfold getBaselineScenario.
  destruct (find ScenarioParameters.isBaseline
              (othersThan id (StoreState.scenarios state)))
    as [b | ] eqn:Hfind; [ | reflexivity].
  exfalso. apply find_some in Hfind. destruct Hfind as [Hb Hflag].
  apply filter_In in Hb. destruct Hb as [Hb Hneg].
  apply Bool.negb_true_iff in Hneg. apply String.eqb_neq in Hneg.
  apply Hneg. rewrite Forall_forall in Hflagged. exact (Hflagged b Hb Hflag).
Qed.

(** X26. [cloneScenario] of an unknown id returns nothing and leaves the
    state as it is. Of a known id it appends the clone, which has the fresh
    id, is not a baseline and becomes active; and the engine computes for the
    clone every cost of the original: the same base costs, multipliers,
    adjustments, compliance, security and risk costs, and totals. *)
Theorem cloneScenario_costs_of_the_original :
  forall (freshId id : string) (newName : option string)
         (state : StoreState.t num) (clock : Clock),
    let result := run (cloneScenario freshId id newName state) clock in
    match List.find (has_id id) (StoreState.scenarios state) with
    | None => result = (None, state)
    | Some original =>
        exists clone : ScenarioParameters.t num,
          fst result = Some clone
          /\ StoreState.scenarios (snd result)
             = StoreState.scenarios state ++ [clone]
          /\ StoreState.activeScenarioId (snd result) = Some freshId
          /\ ScenarioParameters.id clone = freshId
          /\ ScenarioParameters.isBaseline clone = false
          /\ forall (baseTCO : BaseTCOInput.t num)
                    (context : ComputationContext.t num) (clock' : Clock),
               let ofClone :=
                 run (computeScenarioTCO baseTCO clone context) clock' in
               let ofOriginal :=
                 run (computeScenarioTCO baseTCO original context) clock' in
               ComputationBreakdown.baseTCO ofClone
               = ComputationBreakdown.baseTCO ofOriginal
               /\ ComputationBreakdown.multipliers ofClone
                  = ComputationBreakdown.multipliers ofOriginal
               /\ ComputationBreakdown.adjustments ofClone
                  = ComputationBreakdown.adjustments ofOriginal
               /\ ComputationBreakdown.complianceCosts ofClone
                  = ComputationBreakdown.complianceCosts ofOriginal
               /\ ComputationBreakdown.securityCosts ofClone
                  = ComputationBreakdown.securityCosts ofOriginal
               /\ ComputationBreakdown.riskCosts ofClone
                  = ComputationBreakdown.riskCosts ofOriginal
               /\ ComputationBreakdown.totals ofClone
                  = ComputationBreakdown.totals ofOriginal
    end.
Proof.
  intros freshId id newName state clock result.
  unfold result, cloneScenario.
  destruct (find (has_id id) (StoreState.scenarios state)) as [original | ];
    [ | reflexivity].
  eexists. split; [reflexivity | ].
  split; [reflexivity | ].
  split; [reflexivity | ].
  split; [reflexivity | ].
  split; [reflexivity | ].
  intros baseTCO context clock'. cbv zeta.
  repeat split.
Qed.

(** X27. [fillScenarioDefaults] gives back a complete scenario whose id,
    name and time stamps are not empty, with one exception: a shock factor
    that is missing becomes the default factor, whether the shock is enabled
    or not. *)
Theorem fillScenarioDefaults_on_complete_scenario :
  forall (randomUUID : option string) (dateNow : string)
         (s : ScenarioParameters.t num) (clock : Clock),
    ScenarioParameters.id s <> ""%string ->
    ScenarioParameters.name s <> ""%string ->
    ScenarioParameters.createdAt s <> ""%string ->
    ScenarioParameters.updatedAt s <> ""%string ->
    let filled :=
      run (fillScenarioDefaults randomUUID dateNow (as_partial s)) clock in
    let time := ScenarioParameters.time s in
    (TimeParameters.shockFactor time <> None -> filled = s)
    /\ (TimeParameters.shockFactor time = None ->
        filled
        = with_time s
            (TimeParameters.mk (TimeParameters.year time)
               (TimeParameters.escalationRate time)
               (TimeParameters.shockFactor
                  (DefaultScenarioValues.time DEFAULT_SCENARIO_VALUES))
               (TimeParameters.shockEnabled time))).
Proof.
  intros randomUUID dateNow s clock Hid Hname Hcreated Hupdated filled time.
  apply String.eqb_neq in Hid, Hname, Hcreated, Hupdated.
  unfold filled, time, fillScenarioDefaults, run, bind, ret,
    new_Date_toISOString, with_time.
  destruct s as [sid sname sdescription sregion [year rate shock enabled]
                   [class ai] sintensity [a1 a2 a3 a4 a5 a6] [r1 r2 r3]
                   sbaseline screated supdated].
  cbn in Hid, Hname, Hcreated, Hupdated |- *.
  rewrite Hid, Hname, Hcreated, Hupdated.
  split.
  - intro Hshock. destruct shock as [f | ]; [reflexivity | ].
    exfalso. apply Hshock. reflexivity.
  - intro Hshock. rewrite Hshock. reflexivity.
Qed.

End LifecycleProperties.

Lemma deleteScenario_of_the_baseline_witness :
  let other := run (createDefaultScenario (num := R) "1" None) frozenClock in
  let id := ScenarioParameters.id (testScenario (num := R)) in
  let state :=
    StoreState.mk [with_isBaseline testScenario true; other] (Some id)
      (fun _ => None) in
  Forall
    (fun s =>
       ScenarioParameters.isBaseline s = true -> ScenarioParameters.id s = id)
    (StoreState.scenarios state)
  /\ (exists s : ScenarioParameters.t R,
         In s (StoreState.scenarios state) /\ ScenarioParameters.id s <> id)
  /\ getBaselineScenario (StoreState.scenarios state)
     = Some (with_isBaseline testScenario true)
  /\ getBaselineScenario
       (StoreState.scenarios (run (deleteScenario "2" id state) frozenClock))
     = None.
Proof.
  cbv zeta.
  match goal with
  | |- ?flagged /\ ?another /\ _ =>
      assert (Hflagged : flagged);
      [ | assert (Hanother : another) ]
  end.
  - apply Forall_cons; [intros _; reflexivity | ].
    apply Forall_cons; [intro Hflag; discriminate Hflag | apply Forall_nil].
  - eexists. split; [right; left; reflexivity | ].
    cbn. discriminate.
  - split; [exact Hflagged | split; [exact Hanother | ]].
    split; [reflexivity | ].
    exact (deleteScenario_of_the_baseline (num := R) "2" _ _ frozenClock
             Hflagged Hanother).
Defined.

Lemma fillScenarioDefaults_on_complete_scenario_witness :
  ScenarioParameters.id (testScenario (num := R)) <> ""%string
  /\ ScenarioParameters.name (testScenario (num := R)) <> ""%string
  /\ ScenarioParameters.createdAt (testScenario (num := R)) <> ""%string
  /\ ScenarioParameters.updatedAt (testScenario (num := R)) <> ""%string
  /\ run (fillScenarioDefaults None "0"
            (as_partial (testScenario (num := R)))) frozenClock
     = testScenario.
Proof.
  assert (Hid : ScenarioParameters.id (testScenario (num := R)) <> ""%string)
    by (cbn; discriminate).
  assert (Hname : ScenarioParameters.name (testScenario (num := R))
                  <> ""%string) by (cbn; discriminate).
  assert (Hcreated : ScenarioParameters.createdAt (testScenario (num := R))
                     <> ""%string) by (cbn; discriminate).
  assert (Hupdated : ScenarioParameters.updatedAt (testScenario (num := R))
                     <> ""%string) by (cbn; discriminate).
  destruct (fillScenarioDefaults_on_complete_scenario (num := R) None "0"
              testScenario frozenClock Hid Hname Hcreated Hupdated)
    as [Hsame _].
  split; [exact Hid | split; [exact Hname | ]].
  split; [exact Hcreated | split; [exact Hupdated | ]].
  apply Hsame. cbn. discriminate.
Defined.

Lemma fillScenarioDefaults_valid_scenario :
  forall (randomUUID : option string) (dateNow : string)
         (partial : PartialScenario.t R) (clock : Clock),
    valid_partial partial ->
    valid_scenario (run (fillScenarioDefaults randomUUID dateNow partial) clock).
Proof.
  intros randomUUID dateNow partial clock (Htime & Hsec & Hrisk).
  unfold fillScenarioDefaults, run, bind, ret, new_Date_toISOString.
  cbn [fst snd].
  destruct partial as [pid pname pdescription pregion ptime pworkload
                         pintensity psecurity prisk pbaseline pcreated
                         pupdated].
  cbn [PartialScenario.time PartialScenario.security PartialScenario.risk
       PartialScenario.id PartialScenario.name] in *.
  unfold valid_scenario. cbn [ScenarioParameters.time
    ScenarioParameters.security ScenarioParameters.risk].
  split; [ | split].
  - destruct ptime as [[year rate shock enabled] | ].
    + destruct Htime as [Hrate Hshock]. cbn in Hrate, Hshock.
      unfold valid_time, field_or. cbn.
      split; [exact Hrate | ]. destruct shock as [f | ]; [exact Hshock | lra].
    + unfold valid_time, field_or. cbn. lra.
  - destruct psecurity as [[a1 a2 a3 a4 a5 a6] | ].
    + exact Hsec.
    + unfold valid_security, field_or. cbn. lra.
  - destruct prisk as [[r1 r2 r3] | ].
    + exact Hrisk.
    + unfold valid_risk, field_or. cbn. lra.
Qed.

(** X28. [fillScenarioDefaults] of a partial scenario whose given time,
    security and risk parts are in their ranges is a valid scenario, with a
    shock factor, an id and a name that are there and not empty: the
    defaults are in their ranges. *)
Theorem fillScenarioDefaults_valid :
  forall (randomUUID : option string) (dateNow : string)
         (partial : PartialScenario.t R) (clock : Clock),
    valid_partial partial ->
    let filled := run (fillScenarioDefaults randomUUID dateNow partial) clock in
    valid_scenario filled
    /\ TimeParameters.shockFactor (ScenarioParameters.time filled) <> None
    /\ ScenarioParameters.id filled <> ""%string
    /\ ScenarioParameters.name filled <> ""%string.
Proof.
  intros randomUUID dateNow partial clock Hvalid filled.
  split; [exact (fillScenarioDefaults_valid_scenario randomUUID dateNow
                   partial clock Hvalid) | ].
  unfold filled, fillScenarioDefaults, run, bind, ret, new_Date_toISOString.
  cbn [fst snd].
  destruct partial as [pid pname pdescription pregion ptime pworkload
                         pintensity psecurity prisk pbaseline pcreated
                         pupdated].
  cbn [PartialScenario.time PartialScenario.security PartialScenario.risk
       PartialScenario.id PartialScenario.name] in *.
  split; [ | split].
  - cbn [ScenarioParameters.time TimeParameters.shockFactor].
    destruct ptime as [[year rate [f | ] enabled] | ]; cbn; discriminate.
  - cbn [ScenarioParameters.id]. unfold string_or.
    destruct pid as [x | ].
    + destruct (String.eqb x "") eqn:Hx; [ | apply String.eqb_neq; exact Hx].
      destruct randomUUID as [u | ].
      * destruct (String.eqb u "") eqn:Hu;
          [discriminate | apply String.eqb_neq; exact Hu].
      * discriminate.
    + destruct randomUUID as [u | ].
      * destruct (String.eqb u "") eqn:Hu;
          [discriminate | apply String.eqb_neq; exact Hu].
      * discriminate.
  - cbn [ScenarioParameters.name]. unfold string_or.
    destruct pname as [x | ]; [ | discriminate].
    destruct (String.eqb x "") eqn:Hx;
      [discriminate | apply String.eqb_neq; exact Hx].
Qed.

Lemma fillScenarioDefaults_valid_witness :
  let partial :=
    PartialScenario.mk None None None None
      (Some (TimeParameters.mk 2026 (3 / 100) None true))
      None None None None None None None in
  valid_partial partial
  /\ valid_scenario (run (fillScenarioDefaults None "0" partial) frozenClock).
Proof.
  cbv zeta.
  match goal with
  | |- ?valid /\ _ => assert (Hvalid : valid)
  end.
  - unfold valid_partial, valid_time. cbn. lra.
  - split; [exact Hvalid | ].
    exact (proj1 (fillScenarioDefaults_valid None "0" _ frozenClock Hvalid)).
Defined.

(** X29. [getPresetScenario] returns nothing for an index outside the table
    and, for each of the five indices inside, the preset of that index
    filled with defaults: a valid scenario that is not a baseline and has
    the default security and risk parameters. *)
Theorem getPresetScenario_valid :
  forall (randomUUID : option string) (dateNow : string) (index : Z)
         (clock : Clock),
    let result :=
      run (getPresetScenario (num := R) randomUUID dateNow index) clock in
    ((0 <= index < 5)%Z ->
     exists (partial : PartialScenario.t R) (s : ScenarioParameters.t R),
       nth_error PRESET_SCENARIOS (Z.to_nat index) = Some partial
       /\ result = Some s
       /\ s = run (fillScenarioDefaults randomUUID dateNow partial) clock
       /\ valid_scenario s
       /\ ScenarioParameters.isBaseline s = false
       /\ ScenarioParameters.security s
          = DefaultScenarioValues.security DEFAULT_SCENARIO_VALUES
       /\ ScenarioParameters.risk s
          = DefaultScenarioValues.risk DEFAULT_SCENARIO_VALUES)
    /\ (~ (0 <= index < 5)%Z -> result = None).
Proof.
  intros randomUUID dateNow index clock result.
  assert (Hpresets :
            Forall (fun partial : PartialScenario.t R =>
                      valid_partial partial
                      /\ PartialScenario.security partial = None
                      /\ PartialScenario.risk partial = None
                      /\ PartialScenario.isBaseline partial = None)
              PRESET_SCENARIOS).
  { unfold PRESET_SCENARIOS.
    repeat (apply Forall_cons;
            [unfold valid_partial, valid_time, preset; cbn;
             repeat split; lra | ]).
    apply Forall_nil. }
  split.
  - intros [Hlow Hhigh].
    assert (Hlen : (Z.to_nat index < List.length (PRESET_SCENARIOS (num := R)))%nat)
      by (cbn [PRESET_SCENARIOS List.length]; lia).
    destruct (nth_error (PRESET_SCENARIOS (num := R)) (Z.to_nat index))
      as [partial | ] eqn:Hnth;
      [ | apply nth_error_None in Hnth; lia].
    assert (Hin : In partial PRESET_SCENARIOS)
      by (eapply nth_error_In; exact Hnth).
    rewrite Forall_forall in Hpresets.
    destruct (Hpresets partial Hin) as (Hvalid & Hsec & Hrisk & Hbaseline).
    exists partial, (run (fillScenarioDefaults randomUUID dateNow partial) clock).
    split; [reflexivity | ].
    split.
    { unfold result, getPresetScenario.
      assert (Hguard :
                ((index <? 0)%Z
                 || (index >=? Z.of_nat
                                 (List.length (PRESET_SCENARIOS (num := R))))%Z)%bool
                = false).
      { cbn [PRESET_SCENARIOS List.length].
        apply Bool.orb_false_iff. split; [apply Z.ltb_ge; lia | ].
        rewrite Z.geb_leb. apply Z.leb_gt. lia. }
      rewrite Hguard, Hnth.
      unfold run, bind, ret, fillScenarioDefaults, new_Date_toISOString.
      reflexivity. }
    split; [reflexivity | ].
    split; [exact (fillScenarioDefaults_valid_scenario randomUUID dateNow
                     partial clock Hvalid) | ].
    unfold fillScenarioDefaults, run, bind, ret, new_Date_toISOString.
    cbn [fst snd ScenarioParameters.isBaseline ScenarioParameters.security
         ScenarioParameters.risk].
    rewrite Hsec, Hrisk, Hbaseline.
    repeat split.
  - intro Hout. unfold result, getPresetScenario.
    assert (Hguard :
              ((index <? 0)%Z
               || (index >=? Z.of_nat
                               (List.length (PRESET_SCENARIOS (num := R))))%Z)%bool
              = true).
    { cbn [PRESET_SCENARIOS List.length].
      apply Bool.orb_true_iff.
      destruct (Z.ltb_spec index 0) as [Hneg | Hpos]; [left; reflexivity | ].
      right. rewrite Z.geb_leb. apply Z.leb_le. lia. }
    rewrite Hguard. reflexivity.
Qed.
